(** * Verification of the Paradox IP150 client (ip150.py)

    A shallow embedding of [ip150.py]: the credential cipher and encoder,
    the status decoder, the session operations and the body of the
    [_updates] polling thread, with the theorems that settle the claims of
    the specification. *)

From Stdlib Require Import String Ascii.
From Stdlib Require Import ZArith List Bool Lia QArith Permutation.
Import ListNotations.
Open Scope Z_scope.

(** ** Python values *)

(** A Python [str] is a sequence of code points. *)
Definition pystr := list Z.

Definition of_string (s : string) : pystr :=
  map (fun c => Z.of_nat (nat_of_ascii c)) (list_ascii_of_string s).

(** Option monad, used for code that raises. *)
Notation "'let?' x := m 'in' k" :=
  (match m with Some x => k | None => None end)
  (at level 200, x pattern, m at level 100, k at level 200).

(** [l[i]] on a Python list: negative indices count from the end,
    anything else out of range raises [IndexError] ([None]). *)
Definition py_get (l : list Z) (i : Z) : option Z :=
  let n := Z.of_nat (length l) in
  if (0 <=? i) && (i <? n) then nth_error l (Z.to_nat i)
  else if (- n <=? i) && (i <? 0) then nth_error l (Z.to_nat (n + i))
  else None.

Fixpoint set_nth {A} (l : list A) (k : nat) (v : A) : list A :=
  match l, k with
  | [], _ => []
  | _ :: t, O => v :: t
  | x :: t, S k' => x :: set_nth t k' v
  end.

(** [l[i] = v] on a Python list. *)
Definition py_set (l : list Z) (i : Z) (v : Z) : option (list Z) :=
  let n := Z.of_nat (length l) in
  if (0 <=? i) && (i <? n) then Some (set_nth l (Z.to_nat i) v)
  else if (- n <=? i) && (i <? 0) then Some (set_nth l (Z.to_nat (n + i)) v)
  else None.

(** [S[i], S[j] = S[j], S[i]]: the right-hand side is evaluated first,
    then [S[i]] and [S[j]] are assigned in that order. *)
Definition py_swap (l : list Z) (i j : Z) : option (list Z) :=
  let? sj := py_get l j in
  let? si := py_get l i in
  let? l1 := py_set l i sj in
  py_set l1 j si.

(** [range(n)] *)
Definition py_range (n : Z) : list Z := map Z.of_nat (seq 0 (Z.to_nat n)).

(** [range(start, -1, -1)] *)
Definition py_range_down (start : Z) : list Z :=
  map (fun k => start - Z.of_nat k) (seq 0 (Z.to_nat (start + 1))).

(** [str.encode('ascii')]: raises [UnicodeEncodeError] above 127. *)
Definition encode_ascii (s : pystr) : option (list Z) :=
  if forallb (fun c => (0 <=? c) && (c <? 128)) s then Some s else None.

(** [str.upper()] on the hexadecimal alphabet used here. *)
Definition py_upper (s : pystr) : pystr :=
  map (fun c => if (97 <=? c) && (c <=? 122) then c - 32 else c) s.

Definition hex_char_lower (d : Z) : Z := if d <? 10 then 48 + d else 87 + d.
Definition hex_char_upper (d : Z) : Z := if d <? 10 then 48 + d else 55 + d.

(** Base-16 digits of a non-negative integer, most significant first. *)
Fixpoint hex_digits_fuel (fuel : nat) (x : Z) (acc : list Z) : list Z :=
  match fuel with
  | O => acc
  | S f =>
      let acc' := Z.modulo x 16 :: acc in
      if x <? 16 then acc' else hex_digits_fuel f (Z.div x 16) acc'
  end.

Definition hex_digits (x : Z) : list Z :=
  hex_digits_fuel (S (Z.to_nat (Z.log2_up (x + 1)))) x [].

(** ['{0:02X}'.format(x)]: upper-case hexadecimal, zero-padded to width 2. *)
Definition fmt_02X (x : Z) : pystr :=
  let ds := map hex_char_upper (hex_digits x) in
  repeat 48 (2 - length ds) ++ ds.

(** ** MD5 ([hashlib.md5]), RFC 1321 *)

Module MD5.

Definition mask32 : Z := 4294967295.
Definition add32 (a b : Z) : Z := Z.land (a + b) mask32.
Definition not32 (x : Z) : Z := Z.lxor x mask32.
Definition rotl32 (x c : Z) : Z :=
  Z.land (Z.lor (Z.shiftl x c) (Z.shiftr x (32 - c))) mask32.

Definition s_table : list Z :=
  [7; 12; 17; 22; 7; 12; 17; 22; 7; 12; 17; 22; 7; 12; 17; 22;
   5; 9; 14; 20; 5; 9; 14; 20; 5; 9; 14; 20; 5; 9; 14; 20;
   4; 11; 16; 23; 4; 11; 16; 23; 4; 11; 16; 23; 4; 11; 16; 23;
   6; 10; 15; 21; 6; 10; 15; 21; 6; 10; 15; 21; 6; 10; 15; 21].

Definition k_table : list Z :=
  [3614090360; 3905402710; 606105819; 3250441966; 4118548399; 1200080426;
   2821735955; 4249261313; 1770035416; 2336552879; 4294925233; 2304563134;
   1804603682; 4254626195; 2792965006; 1236535329; 4129170786; 3225465664;
   643717713; 3921069994; 3593408605; 38016083; 3634488961; 3889429448;
   568446438; 3275163606; 4107603335; 1163531501; 2850285829; 4243563512;
   1735328473; 2368359562; 4294588738; 2272392833; 1839030562; 4259657740;
   2763975236; 1272893353; 4139469664; 3200236656; 681279174; 3936430074;
   3572445317; 76029189; 3654602809; 3873151461; 530742520; 3299628645;
   4096336452; 1126891415; 2878612391; 4237533241; 1700485571; 2399980690;
   4293915773; 2240044497; 1873313359; 4264355552; 2734768916; 1309151649;
   4149444226; 3174756917; 718787259; 3951481745].

Fixpoint le_bytes (n : nat) (x : Z) : list Z :=
  match n with
  | O => []
  | S n' => Z.land x 255 :: le_bytes n' (Z.shiftr x 8)
  end.

Definition pad (msg : list Z) : list Z :=
  let ml := Z.of_nat (length msg) in
  msg ++ [128] ++ repeat 0 (Z.to_nat ((55 - ml) mod 64))
      ++ le_bytes 8 ((8 * ml) mod 2 ^ 64).

Fixpoint words (l : list Z) : list Z :=
  match l with
  | b0 :: b1 :: b2 :: b3 :: r =>
      (b0 + 256 * b1 + 65536 * b2 + 16777216 * b3) :: words r
  | _ => []
  end.

Fixpoint chunks (fuel : nat) (l : list Z) : list (list Z) :=
  match fuel with
  | O => []
  | S f =>
      match l with
      | [] => []
      | _ => firstn 64 l :: chunks f (skipn 64 l)
      end
  end.

Definition round (M : list Z) (st : Z * Z * Z * Z) (i : nat) : Z * Z * Z * Z :=
  let '(a, b, c, d) := st in
  let '(f, g) :=
    if (i <? 16)%nat then (Z.lor (Z.land b c) (Z.land (not32 b) d), i)
    else if (i <? 32)%nat then (Z.lor (Z.land d b) (Z.land (not32 d) c), ((5 * i + 1) mod 16)%nat)
    else if (i <? 48)%nat then (Z.lxor b (Z.lxor c d), ((3 * i + 5) mod 16)%nat)
    else (Z.lxor c (Z.lor b (not32 d)), ((7 * i) mod 16)%nat) in
  let f' := add32 (add32 (add32 f a) (nth i k_table 0)) (nth g M 0) in
  (d, add32 b (rotl32 f' (nth i s_table 0)), b, c).

Definition chunk (st : Z * Z * Z * Z) (M : list Z) : Z * Z * Z * Z :=
  let '(a, b, c, d) := st in
  let '(a', b', c', d') := fold_left (round M) (seq 0 64) st in
  (add32 a a', add32 b b', add32 c c', add32 d d').

Definition digest (msg : list Z) : list Z :=
  let padded := pad msg in
  let '(a, b, c, d) :=
    fold_left chunk (map words (chunks (length padded) padded))
              (1732584193, 4023233417, 2562383102, 271733878) in
  le_bytes 4 a ++ le_bytes 4 b ++ le_bytes 4 c ++ le_bytes 4 d.

(** [hashlib.md5(msg).hexdigest()]: lower-case, two digits per byte. *)
Definition hexdigest (msg : list Z) : pystr :=
  flat_map (fun b => [hex_char_lower (b / 16); hex_char_lower (b mod 16)])
           (digest msg).

End MD5.

(** ** [Paradox_IP150._to_8bits], [_paradox_rc4], [_prep_cred] *)

(** [_to_8bits(s)]: [chr(ord(x) % 256)] for every character. *)
Definition to_8bits (s : pystr) : pystr := map (fun x => x mod 256) s.

(** State of the key-scheduling loop: [S], [j] and, as ghost state, the
    values of [i] the loop has entered, in order. *)
Record ksa_state := { ksa_S : list Z; ksa_j : Z; ksa_visited : list Z }.

(** The indices of [for i in range(len(key) - 1, -1, -1)]. *)
Definition ksa_range (key : pystr) : list Z :=
  py_range_down (Z.of_nat (length key) - 1).

(** One iteration: [j = (j + S[i] + ord(key[i])) % 256; S[i], S[j] = S[j], S[i]]. *)
Definition ksa_step (key : pystr) (acc : option ksa_state) (i : Z)
  : option ksa_state :=
  let? st := acc in
  let visited := ksa_visited st ++ [i] in
  let? si := py_get (ksa_S st) i in
  let? ki := py_get key i in
  let j := (ksa_j st + si + ki) mod 256 in
  let? S' := py_swap (ksa_S st) i j in
  Some {| ksa_S := S'; ksa_j := j; ksa_visited := visited |}.

Definition ksa (key : pystr) : option ksa_state :=
  fold_left (ksa_step key) (ksa_range key)
            (Some {| ksa_S := py_range 256; ksa_j := 0; ksa_visited := [] |}).

(** One iteration of [for ch in data]. *)
Definition prga_step (acc : option (list Z * Z * Z * list Z)) (ch : Z)
  : option (list Z * Z * Z * list Z) :=
  let? (S0, i0, j0, out) := acc in
  let i := i0 mod 256 in
  let? si := py_get S0 i in
  let j := (j0 + si) mod 256 in
  let? S1 := py_swap S0 i j in
  let? si' := py_get S1 i in
  let? sj' := py_get S1 j in
  let? k := py_get S1 ((si' + sj') mod 256) in
  Some (S1, i + 1, j, out ++ [Z.lxor ch k]).

Definition paradox_rc4 (data key : pystr) : option pystr :=
  let? st := ksa key in
  let? (_, _, _, out) := fold_left prga_step data (Some (ksa_S st, 0, 0, [])) in
  Some (flat_map fmt_02X out).

(** The dictionary [{'p': ..., 'u': ...}] returned by [_prep_cred]. *)
Record creds := { cred_p : pystr; cred_u : pystr }.

(** The salted pass [spass = pwd_md5 + sess]. *)
Definition salted_pass (pwd sess : pystr) : option pystr :=
  let pwd_8bits := to_8bits pwd in
  let? b := encode_ascii pwd_8bits in
  let pwd_md5 := py_upper (MD5.hexdigest b) in
  Some (pwd_md5 ++ sess).

Definition prep_cred (user pwd sess : pystr) : option creds :=
  let? spass := salted_pass pwd sess in
  let? sb := encode_ascii spass in
  let p := py_upper (MD5.hexdigest sb) in
  let? u := paradox_rc4 user spass in
  Some {| cred_p := p; cred_u := u |}.

(** ** String helpers of the session code *)

Definition pystr_eqb (a b : pystr) : bool :=
  if list_eq_dec Z.eq_dec a b then true else false.

Fixpoint prefixb (p s : pystr) : bool :=
  match p, s with
  | [], _ => true
  | x :: p', y :: s' => (x =? y) && prefixb p' s'
  | _ :: _, [] => false
  end.

Fixpoint find_from (p s : pystr) (i : Z) : Z :=
  match s with
  | [] => if prefixb p [] then i else -1
  | _ :: t => if prefixb p s then i else find_from p t (i + 1)
  end.

(** [s.find(p)]: the first index of [p] in [s], or [-1]. *)
Definition py_find (s p : pystr) : Z := find_from p s 0.

(** [s[a:b]] for [0 <= a <= b]. *)
Definition py_slice (s : pystr) (a b : Z) : pystr :=
  firstn (Z.to_nat (b - a)) (skipn (Z.to_nat a) s).

Fixpoint count_fuel (fuel : nat) (p s : pystr) : Z :=
  match fuel with
  | O => 0
  | S f =>
      match s with
      | [] => 0
      | _ :: t =>
          if prefixb p s then 1 + count_fuel f p (skipn (length p) s)
          else count_fuel f p t
      end
  end.

(** [s.count(p)] for a non-empty [p]: non-overlapping occurrences. *)
Definition py_count (s p : pystr) : Z := count_fuel (S (length s)) p s.

(** [f'{n:02d}'] for [n >= 0]. *)
Fixpoint dec_digits_fuel (fuel : nat) (x : Z) (acc : list Z) : list Z :=
  match fuel with
  | O => acc
  | S f =>
      let acc' := (48 + Z.modulo x 10) :: acc in
      if x <? 10 then acc' else dec_digits_fuel f (Z.div x 10) acc'
  end.

Definition fmt_02d (x : Z) : pystr :=
  let ds := dec_digits_fuel (S (Z.to_nat (Z.log2_up (x + 1)))) x [] in
  repeat 48 (2 - length ds) ++ ds.

(** ** [_js2array]: [re.search(r'{} = new Array\((.*?)\);')] and [json.loads] *)

(** The lazy group [(.*?)] followed by [\);]: the shortest run of
    characters other than a newline that is followed by [");"]. *)
Fixpoint lazy_group (s : pystr) (acc : pystr) : option pystr :=
  match s with
  | 41 :: 59 :: _ => Some (rev acc)
  | c :: t => if c =? 10 then None else lazy_group t (c :: acc)
  | [] => None
  end.

(** [re.search]: the leftmost position at which the prefix
    [varname + " = new Array("] is followed by a match of the group. The
    prefix is matched literally, as the pattern reads it when [varname]
    has no regex metacharacter: the names of [_tables_map] are letters and
    underscores ([regex_literal]). *)
Fixpoint re_search_array (pre s : pystr) : option pystr :=
  match s with
  | [] => None
  | _ :: t =>
      match (if prefixb pre s then lazy_group (skipn (length pre) s) []
             else None) with
      | Some g => Some g
      | None => re_search_array pre t
      end
  end.

(** Characters that stand for themselves in a pattern: ASCII letters,
    digits and the underscore. *)
Definition regex_literal (c : Z) : bool :=
  ((48 <=? c) && (c <=? 57)) || ((65 <=? c) && (c <=? 90)) || ((97 <=? c) && (c <=? 122))
  || (c =? 95).

Definition is_ws (c : Z) : bool := (c =? 32) || (c =? 9) || (c =? 10) || (c =? 13).
Definition is_digit (c : Z) : bool := (48 <=? c) && (c <=? 57).

Fixpoint skip_ws (s : pystr) : pystr :=
  match s with
  | c :: t => if is_ws c then skip_ws t else s
  | [] => []
  end.

Fixpoint take_digits (s : pystr) (acc : Z) : Z * pystr :=
  match s with
  | c :: t => if is_digit c then take_digits t (10 * acc + (c - 48)) else (acc, s)
  | [] => (acc, [])
  end.

(** ** Exceptions, snapshots and the session *)

Inductive exc :=
| Paradox_IP150_Error (msg : pystr)
| OtherError (name : string).

Inductive outcome (A : Type) :=
| Ret (a : A)
| Raise (e : exc).
Arguments Ret {A} a.
Arguments Raise {A} e.

(** A status entry [(i, state)] and a snapshot: the dict returned by
    [get_info], as an association list in insertion order. *)
Abbreviation entry := (Z * pystr)%type.
Abbreviation snapshot := (list (pystr * list entry)).

Definition entry_eqb (a b : entry) : bool :=
  (fst a =? fst b) && pystr_eqb (snd a) (snd b).

Fixpoint dict_get {V} (k : pystr) (d : list (pystr * V)) : option V :=
  match d with
  | [] => None
  | (k', v) :: t => if pystr_eqb k k' then Some v else dict_get k t
  end.

(** [d[k] = v]: an existing key keeps its position, a new key goes last. *)
Fixpoint dict_set {V} (k : pystr) (v : V) (d : list (pystr * V)) : list (pystr * V) :=
  match d with
  | [] => [(k, v)]
  | (k', v') :: t =>
      if pystr_eqb k k' then (k', v) :: t else (k', v') :: dict_set k v t
  end.

(** The handle stored in [self._updates]. *)
Inductive thread := UpdatesThread (poll_interval : Q).

(** The [KeepAlive] thread object stored in [self._keepalive]. *)
Record keepalive := { ka_url : pystr; ka_interval : Q }.

Record session := {
  ip150url : pystr;
  logged_in : bool;          (* self._logged_in *)
  keepalive_h : option keepalive;  (* self._keepalive *)
  updates : option thread;   (* self._updates *)
  stop_updates : bool        (* self._stop_updates.is_set() *)
}.

Definition new_session (url : pystr) : session :=
  {| ip150url := url; logged_in := false; keepalive_h := None;
     updates := None; stop_updates := false |}.

Definition set_logged_in (s : session) (b : bool) : session :=
  {| ip150url := ip150url s; logged_in := b; keepalive_h := keepalive_h s;
     updates := updates s; stop_updates := stop_updates s |}.
Definition set_keepalive (s : session) (k : option keepalive) : session :=
  {| ip150url := ip150url s; logged_in := logged_in s; keepalive_h := k;
     updates := updates s; stop_updates := stop_updates s |}.
Definition set_updates (s : session) (u : option thread) : session :=
  {| ip150url := ip150url s; logged_in := logged_in s; keepalive_h := keepalive_h s;
     updates := u; stop_updates := stop_updates s |}.
Definition set_stop (s : session) (b : bool) : session :=
  {| ip150url := ip150url s; logged_in := logged_in s; keepalive_h := keepalive_h s;
     updates := updates s; stop_updates := b |}.

(** Observable effects, in the order they happen. *)
Inductive effect :=
| HttpGet (url : pystr) (params : list (pystr * pystr))
| Sleep (secs : Q)
| KeepaliveStart
| KeepaliveCancel
| KeepaliveJoin
| StopUpdatesSet
| StopUpdatesClear
| ThreadStart
| CallOnUpdate (delta : snapshot)
| CallOnError (e : exc).

(** What the panel answers to a [requests.get]. *)
Inductive http_result :=
| Response (text : pystr) (status_code : Z)
| TimeoutErr
| ConnectionErr.

(** What [BeautifulSoup] finds in a page: whether a form named
    [statuslive] exists, and the [.string] of the first [script] tag
    ([None] when there is no script tag or it has no single string). *)
Record html_doc := { has_statuslive_form : bool; first_script : option pystr }.

(** The outside world of the client: the panel and the HTML parser. *)
Record env := {
  server : pystr -> list (pystr * pystr) -> http_result;
  parse_html : pystr -> html_doc
}.

(** ** State, error and trace monad of the session methods *)

Definition M (A : Type) := session -> outcome A * session * list effect.

Definition ret {A} (a : A) : M A := fun s => (Ret a, s, []).
Definition raise {A} (e : exc) : M A := fun s => (Raise e, s, []).
Definition bind {A B} (m : M A) (k : A -> M B) : M B :=
  fun s =>
    match m s with
    | (Ret a, s1, e1) => let '(r, s2, e2) := k a s1 in (r, s2, e1 ++ e2)
    | (Raise e, s1, e1) => (Raise e, s1, e1)
    end.
Definition get : M session := fun s => (Ret s, s, []).
Definition put (s' : session) : M unit := fun _ => (Ret tt, s', []).
Definition emit (e : effect) : M unit := fun s => (Ret tt, s, [e]).

Notation "x <- m ;; k" := (bind m (fun x => k))
  (at level 61, m at next level, right associativity).

Definition perr {A} (msg : string) : M A := raise (Paradox_IP150_Error (of_string msg)).

(** [requests.get(url, params=params, verify=False)] *)
Definition requests_get (E : env) (url : pystr) (params : list (pystr * pystr))
  : M http_result :=
  _ <- emit (HttpGet url params) ;; ret (server E url params).

(** The [_logged_only] decorator. *)
Definition logged_only {A} (f : M A) : M A :=
  s <- get ;;
  if logged_in s then f else perr "Not logged in; please use login() first.".

(** ** [_tables_map], [_areas_action_map] *)

Definition zones_map : list (Z * string) :=
  [(0, "Closed"); (1, "Open"); (2, "In_alarm"); (3, "Closed_Trouble");
   (4, "Open_Trouble"); (5, "Closed_Memory"); (6, "Open_Memory");
   (7, "Bypass"); (8, "Closed_Trouble2"); (9, "Open_Trouble2")]%string.

Definition areas_map : list (Z * string) :=
  [(0, "Unset"); (1, "Disarmed"); (2, "Armed"); (3, "Triggered");
   (4, "Armed_sleep"); (5, "Armed_stay"); (6, "Entry_delay");
   (7, "Exit_delay"); (8, "Ready"); (9, "Not_ready"); (10, "Instant")]%string.

(** [_tables_map], in its insertion order: key, array name, code map. *)
Definition tables_map : list (string * string * list (Z * string)) :=
  [("zones_status", "tbl_statuszone", zones_map);
   ("areas_status", "tbl_useraccess", areas_map)]%string.

Definition areas_action_map : list (string * string) :=
  [("Disarm", "d"); ("Arm", "r"); ("Arm_sleep", "p"); ("Arm_stay", "s")]%string.

(** [map[x]]: [KeyError] when the code is unknown. *)
Fixpoint code_lookup {V} (m : list (Z * V)) (x : Z) : option V :=
  match m with
  | [] => None
  | (k, v) :: t => if k =? x then Some v else code_lookup t x
  end.

Fixpoint str_lookup (m : list (string * string)) (k : pystr) : option string :=
  match m with
  | [] => None
  | (k', v) :: t => if pystr_eqb (of_string k') k then Some v else str_lookup t k
  end.

(** ** [json.loads], as the C scanner of the [json] module decodes *)

(** What [json.loads] returns. A number keeps its literal: an integer
    literal is an [int]; a literal with a fraction or an exponent is a
    [float], kept as its sign, its digits [m] and its exponent [e] (the
    decimal [m * 10^e]). An object keeps its pairs in order. *)
Inductive jvalue :=
| JInt (n : Z)
| JFloat (neg : bool) (m e : Z)
| JNaN
| JInf (neg : bool)
| JBool (b : bool)
| JNull
| JStr (s : pystr)
| JList (l : list jvalue)
| JDict (kvs : list (pystr * jvalue)).

(** What the decoder returns, or the name of the exception it raises. *)
Inductive jresult (A : Type) :=
| JOk (a : A)
| JErr (name : string).
Arguments JOk {A} a.
Arguments JErr {A} name.

Definition decode_error {A} : jresult A := JErr "JSONDecodeError".

(** The run of ASCII digits at the head of [s]. *)
Fixpoint span_digits (s : pystr) : pystr * pystr :=
  match s with
  | c :: t => if is_digit c then let '(ds, r) := span_digits t in (c :: ds, r) else ([], s)
  | [] => ([], [])
  end.

Definition digits_value (ds : pystr) : Z := fst (take_digits ds 0).

(** [_match_number_unicode]: an optional minus sign, then [0] or a run of
    digits not starting with [0], then an optional fraction ([.] and
    digits) and an optional exponent ([e] or [E], an optional sign, digits);
    a fraction or an exponent without digits is not part of the number. An integer literal goes through [int()], which refuses more
    than 4300 digits with a [ValueError] (the default limit of CPython
    3.11 and later); a float literal goes through [float()], which never
    fails. *)
Definition match_number (s : pystr) : jresult (jvalue * pystr) :=
  let '(neg, s1) :=
    match s with
    | c :: t => if c =? 45 then (true, t) else (false, s)
    | [] => (false, s)
    end in
  let int_part :=
    match s1 with
    | d :: t =>
        if d =? 48 then Some ([48], t)
        else if (49 <=? d) && (d <=? 57) then Some (span_digits s1)
        else None
    | [] => None
    end in
  match int_part with
  | None => decode_error
  | Some (ip, s2) =>
      let '(frac, s3) :=
        match s2 with
        | c :: ((d :: _) as t) =>
            if (c =? 46) && is_digit d then let '(fd, r) := span_digits t in (Some fd, r)
            else (None, s2)
        | _ => (None, s2)
        end in
      let '(ex, s4) :=
        match s3 with
        | c :: t =>
            if (c =? 101) || (c =? 69) then
              let '(sg, t') :=
                match t with
                | c' :: u => if c' =? 43 then (1, u) else if c' =? 45 then (-1, u) else (1, t)
                | [] => (1, t)
                end in
              match span_digits t' with
              | ([], _) => (None, s3)
              | (xd, r) => (Some (sg * digits_value xd), r)
              end
            else (None, s3)
        | [] => (None, s3)
        end in
      match frac, ex with
      | None, None =>
          if (4300 <? length ip)%nat then JErr "ValueError"
          else JOk (JInt ((if neg then -1 else 1) * digits_value ip), s4)
      | _, _ =>
          let fd := match frac with Some f => f | None => [] end in
          let x := match ex with Some x => x | None => 0 end in
          JOk (JFloat neg (digits_value (ip ++ fd)) (x - Z.of_nat (length fd)), s4)
      end
  end.

Definition hex_value (c : Z) : option Z :=
  if is_digit c then Some (c - 48)
  else if (97 <=? c) && (c <=? 102) then Some (c - 87)
  else if (65 <=? c) && (c <=? 70) then Some (c - 55)
  else None.

Definition hex4 (a b c d : Z) : option Z :=
  let? x1 := hex_value a in
  let? x2 := hex_value b in
  let? x3 := hex_value c in
  let? x4 := hex_value d in
  Some (((x1 * 16 + x2) * 16 + x3) * 16 + x4).

(** The one-character escapes: a backslash followed by a double quote,
    a backslash, a slash, or one of [b f n r t]. *)
Definition simple_escape (c : Z) : option Z :=
  if c =? 34 then Some 34 else if c =? 92 then Some 92 else if c =? 47 then Some 47
  else if c =? 98 then Some 8 else if c =? 102 then Some 12 else if c =? 110 then Some 10
  else if c =? 114 then Some 13 else if c =? 116 then Some 9 else None.

(** [scanstring_unicode] (strict): the text after an opening quote, up to
    the closing one. Control characters are refused; a [\uXXXX] high
    surrogate followed by a [\uXXXX] low surrogate is joined into one code
    point, any other [\uXXXX] is kept as it is. *)
Fixpoint scanstring (s : pystr) (acc : pystr) : option (pystr * pystr) :=
  match s with
  | [] => None
  | 34 :: t => Some (rev acc, t)
  | 92 :: t =>
      match t with
      | 117 :: a :: b :: c :: d :: u =>
          let? x := hex4 a b c d in
          if (55296 <=? x) && (x <=? 56319) then
            match u with
            | 92 :: 117 :: a' :: b' :: c' :: d' :: ((_ :: _) as u') =>
                let? y := hex4 a' b' c' d' in
                if (56320 <=? y) && (y <=? 57343) then
                  scanstring u' (65536 + (x - 55296) * 1024 + (y - 56320) :: acc)
                else scanstring u (x :: acc)
            | _ => scanstring u (x :: acc)
            end
          else scanstring u (x :: acc)
      | e :: u =>
          match simple_escape e with
          | Some c => scanstring u (c :: acc)
          | None => None
          end
      | [] => None
      end
  | c :: t => if c <=? 31 then None else scanstring t (c :: acc)
  end.

(** [scan_once_unicode] and the element loops of [_parse_array_unicode]
    and [_parse_object_unicode]. The fuel bounds the depth of the calls;
    [json_loads] gives more than the text can use. *)
Fixpoint scan_once (fuel : nat) (s : pystr) : jresult (jvalue * pystr) :=
  match fuel with
  | O => decode_error
  | S f =>
      match s with
      | [] => decode_error
      | c :: t =>
          if c =? 34 then
            match scanstring t [] with
            | Some (v, r) => JOk (JStr v, r)
            | None => decode_error
            end
          else if c =? 123 then
            match skip_ws t with
            | c' :: r => if c' =? 125 then JOk (JDict [], r) else object_items f (c' :: r) []
            | [] => object_items f [] []
            end
          else if c =? 91 then
            match skip_ws t with
            | c' :: r => if c' =? 93 then JOk (JList [], r) else array_items f (c' :: r) []
            | [] => array_items f [] []
            end
          else if prefixb (of_string "null") s then JOk (JNull, skipn 4 s)
          else if prefixb (of_string "true") s then JOk (JBool true, skipn 4 s)
          else if prefixb (of_string "false") s then JOk (JBool false, skipn 5 s)
          else if prefixb (of_string "NaN") s then JOk (JNaN, skipn 3 s)
          else if prefixb (of_string "Infinity") s then JOk (JInf false, skipn 8 s)
          else if prefixb (of_string "-Infinity") s then JOk (JInf true, skipn 9 s)
          else match_number s
      end
  end
with array_items (fuel : nat) (s : pystr) (acc : list jvalue) : jresult (jvalue * pystr) :=
  match fuel with
  | O => decode_error
  | S f =>
      match scan_once f s with
      | JErr e => JErr e
      | JOk (v, r) =>
          match skip_ws r with
          | c :: u =>
              if c =? 93 then JOk (JList (rev (v :: acc)), u)
              else if c =? 44 then array_items f (skip_ws u) (v :: acc)
              else decode_error
          | [] => decode_error
          end
      end
  end
with object_items (fuel : nat) (s : pystr) (acc : list (pystr * jvalue))
  : jresult (jvalue * pystr) :=
  match fuel with
  | O => decode_error
  | S f =>
      match s with
      | 34 :: t =>
          match scanstring t [] with
          | None => decode_error
          | Some (k, r) =>
              match skip_ws r with
              | 58 :: r' =>
                  match scan_once f (skip_ws r') with
                  | JErr e => JErr e
                  | JOk (v, r'') =>
                      match skip_ws r'' with
                      | c :: u =>
                          if c =? 125 then JOk (JDict (rev ((k, v) :: acc)), u)
                          else if c =? 44 then object_items f (skip_ws u) ((k, v) :: acc)
                          else decode_error
                      | [] => decode_error
                      end
                  end
              | _ => decode_error
              end
          end
      | _ => decode_error
      end
  end.

(** [json.loads(s)] on a [str]: a leading byte order mark is refused,
    whitespace may surround the value and nothing else may follow it.
    (CPython also raises [RecursionError] on nesting deeper than the
    interpreter's recursion limit, which is not modelled.) *)
Definition json_loads (s : pystr) : jresult jvalue :=
  match s with
  | 65279 :: _ => decode_error
  | _ =>
      match scan_once (S (2 * length s)) (skip_ws s) with
      | JErr e => JErr e
      | JOk (v, r) => match skip_ws r with [] => JOk v | _ => decode_error end
      end
  end.

(** [x == k] for a [float] [x] written as [(-1)^neg * m * 10^e] and an
    [int] [k]: [float()] rounds the literal to the nearest double, ties to
    even, and the comparison is exact. For [0 < |k| < 2^52] the doubles
    next to [k] are [2^(p-52)] above and, when [|k| = 2^p] is a power of
    two, [2^(p-53)] below ([2^(p-52)] otherwise), and a tie goes to [k],
    whose significand is even; [0] takes every literal up to [2^-1075]. *)
Definition float_is_int (neg : bool) (m e k : Z) : bool :=
  let num := m * 10 ^ Z.max e 0 in
  let den := 10 ^ Z.max (- e) 0 in
  if k =? 0 then num * 2 ^ 1075 <=? den
  else
    let a := Z.abs k in
    let p := Z.log2 a in
    let lo := if a =? 2 ^ p then 2 ^ p else 2 ^ (p + 1) in
    Bool.eqb neg (k <? 0)
    && ((a * 2 ^ 54 - lo) * den <=? num * 2 ^ 54)
    && (num * 2 ^ 54 <=? (a * 2 ^ 54 + 2 ^ (p + 1)) * den).

(** [map[x]] on a [dict] with [int] keys and a value [x] out of
    [json.loads]: [True] and [False] are equal to [1] and [0], a [float]
    finds the key it is equal to; [None], strings, [nan] and the
    infinities raise [KeyError], lists and dicts [TypeError] (unhashable). *)
Definition py_key_lookup {V} (m : list (Z * V)) (x : jvalue) : jresult V :=
  let found o := match o with Some v => JOk v | None => JErr "KeyError" end in
  match x with
  | JInt n => found (code_lookup m n)
  | JBool b => found (code_lookup m (if b then 1 else 0))
  | JFloat neg mant e => found (option_map snd (find (fun kv => float_is_int neg mant e (fst kv)) m))
  | JNaN | JInf _ | JNull | JStr _ => JErr "KeyError"
  | JList _ | JDict _ => JErr "TypeError"
  end.

(** [_js2array(varname, script)]. [json.loads] of ['[' + g + ']'] is a
    list whenever it succeeds ([json_loads_bracket]), so the last branch
    is never taken. *)
Definition js2array (varname script : pystr) : outcome (list jvalue) :=
  match re_search_array (varname ++ of_string " = new Array(") script with
  | None => Raise (OtherError "AttributeError")
  | Some g =>
      match json_loads ([91] ++ g ++ [93]) with
      | JErr e => Raise (OtherError e)
      | JOk (JList l) => Ret l
      | JOk _ => Raise (OtherError "TypeError")
      end
  end.

(** [enumerate(l, start=1)] *)
Definition enumerate1 {A} (l : list A) : list (Z * A) :=
  combine (map (fun k => Z.of_nat k + 1) (seq 0 (length l))) l.

(** [[self._tables_map[table]['map'][x] for x in tmp]], left to right. *)
Fixpoint map_codes (m : list (Z * string)) (l : list jvalue) : jresult (list pystr) :=
  match l with
  | [] => JOk []
  | x :: t =>
      match py_key_lookup m x with
      | JErr e => JErr e
      | JOk v =>
          match map_codes m t with
          | JErr e => JErr e
          | JOk r => JOk (of_string v :: r)
          end
      end
  end.

(** The loop [for table in self._tables_map.keys()] of [get_info]. *)
Fixpoint decode_tables (tables : list (string * string * list (Z * string)))
         (script : pystr) (res : snapshot) : outcome snapshot :=
  match tables with
  | [] => Ret res
  | (table, name, m) :: rest =>
      match js2array (of_string name) script with
      | Raise e => Raise e
      | Ret tmp =>
          match map_codes m tmp with
          | JErr e => Raise (OtherError e)
          | JOk names =>
              decode_tables rest script (dict_set (of_string table) (enumerate1 names) res)
          end
      end
  end.

(** ** The methods of [Paradox_IP150] *)

Definition get_info (E : env) : M snapshot :=
  logged_only (
    s <- get ;;
    page <- requests_get E (ip150url s ++ of_string "/statuslive.html") [] ;;
    match page with
    | TimeoutErr => perr "Could not retrieve status information: timeout"
    | ConnectionErr => raise (OtherError "ConnectionError")
    | Response text _ =>
        let doc := parse_html E text in
        if negb (has_statuslive_form doc) then
          perr "Could not retrieve status information"
        else
          match first_script doc with
          | None => raise (OtherError "AttributeError")
          | Some script =>
              match decode_tables tables_map script [] with
              | Ret res => ret res
              | Raise e => raise e
              end
          end
    end).

Definition login (E : env) (user pwd : pystr) (keep_alive_interval : Q) : M unit :=
  s <- get ;;
  if logged_in s then perr "Already logged in; please use logout() first." else
  lpage <- requests_get E (ip150url s ++ of_string "/login_page.html") [] ;;
  match lpage with
  | TimeoutErr => raise (OtherError "Timeout")
  | ConnectionErr => raise (OtherError "ConnectionError")
  | Response ltext _ =>
      let off := py_find ltext (of_string "loginaff") in
      if off =? -1 then
        raise (Paradox_IP150_Error
                 (of_string ("Wrong page fetched. Did you connect to the right server"
                             ++ " and port? Server returned: ") ++ ltext))
      else
        let sess := py_slice ltext (off + 10) (off + 26) in
        match prep_cred user pwd sess with
        | None => raise (OtherError "UnicodeEncodeError")
        | Some c =>
            defpage <- requests_get E (ip150url s ++ of_string "/default.html")
                         [(of_string "p", cred_p c); (of_string "u", cred_u c)] ;;
            match defpage with
            | TimeoutErr => raise (OtherError "Timeout")
            | ConnectionErr => raise (OtherError "ConnectionError")
            | Response dtext _ =>
                if py_count dtext (of_string "top.location.href='login_page.html';") >? 0
                then perr "Could not login, wrong credentials provided."
                else
                  _ <- emit (Sleep 3) ;;
                  _ <- (if negb (Qeq_bool keep_alive_interval 0) then
                          s1 <- get ;;
                          _ <- put (set_keepalive s1 (Some {| ka_url := ip150url s1;
                                                              ka_interval := keep_alive_interval |})) ;;
                          emit KeepaliveStart
                        else ret tt) ;;
                  s2 <- get ;;
                  put (set_logged_in s2 true)
            end
        end
  end.

Definition logout (E : env) : M unit :=
  logged_only (
    s <- get ;;
    _ <- (match keepalive_h s with
          | Some _ =>
              _ <- emit KeepaliveCancel ;;
              _ <- emit KeepaliveJoin ;;
              put (set_keepalive s None)
          | None => ret tt
          end) ;;
    s1 <- get ;;
    _ <- (match updates s1 with
          | Some _ =>
              _ <- emit StopUpdatesSet ;;
              put (set_updates (set_stop s1 true) None)
          | None => ret tt
          end) ;;
    r <- requests_get E (ip150url s1 ++ of_string "/logout.html") [] ;;
    match r with
    | TimeoutErr => raise (OtherError "Timeout")
    | ConnectionErr => raise (OtherError "ConnectionError")
    | Response _ code =>
        if negb (code =? 200) then perr "Error logging out"
        else s2 <- get ;; put (set_logged_in s2 false)
    end).

(** [get_updates(on_update, on_error, userdata, poll_interval)]; a
    callback is modelled by whether it is truthy. *)
Definition get_updates (on_update : bool) (poll_interval : Q) : M unit :=
  logged_only (
    if negb on_update then perr "The callable on_update must be provided." else
    if Qle_bool poll_interval 0 then
      perr "The polling interval must be greater than 0.0 seconds." else
    s <- get ;;
    match updates s with
    | Some _ => perr "Already getting updates."
    | None =>
        _ <- put (set_updates s (Some (UpdatesThread poll_interval))) ;;
        emit ThreadStart
    end).

Definition cancel_updates : M unit :=
  logged_only (
    s <- get ;;
    match updates s with
    | Some _ =>
        _ <- emit StopUpdatesSet ;;
        put (set_updates (set_stop s true) None)
    | None => perr "Not currently getting updates. Use get_updates() first."
    end).

(** The argument [area]: an [int], or a [str] that [int()] converts. *)
Inductive area_arg := AreaInt (n : Z) | AreaStr (s : pystr).

(** [int(s)] on an optionally signed run of ASCII digits surrounded by
    whitespace; anything else raises [ValueError]. *)
Definition py_int (s : pystr) : option Z :=
  let s1 := skip_ws s in
  let '(sign, s2) := match s1 with
                     | 45 :: t => (-1, t)
                     | 43 :: t => (1, t)
                     | _ => (1, s1)
                     end in
  match s2 with
  | d :: _ =>
      if is_digit d then
        let '(v, r) := take_digits s2 0 in
        match skip_ws r with [] => Some (sign * v) | _ => None end
      else None
  | [] => None
  end.

Definition q34 : pystr := [34].

(** [list(self._areas_action_map.keys())] as [str.format] prints it. *)
Definition valid_actions_repr : pystr :=
  let quoted := map (fun kv => of_string ("'" ++ fst kv ++ "'")) areas_action_map in
  [91] ++ concat (match quoted with
                  | [] => []
                  | q :: qs => q :: flat_map (fun x => [of_string ", "; x]) qs
                  end) ++ [93].

(** [f'Invalid action "{action}" provided. Valid actions are {...}'] *)
Definition invalid_action_msg (action : pystr) : pystr :=
  of_string "Invalid action " ++ q34 ++ action ++ q34
  ++ of_string " provided. Valid actions are " ++ valid_actions_repr.

Definition set_area_action (E : env) (area : area_arg) (action : pystr) : M unit :=
  logged_only (
    match (match area with AreaInt n => Some n | AreaStr t => py_int t end) with
    | None => raise (OtherError "ValueError")
    | Some a0 =>
        let area := a0 - 1 in
        if area <? 0 then perr "Invalid area provided." else
        match str_lookup areas_action_map action with
        | None =>
            raise (Paradox_IP150_Error (invalid_action_msg action))
        | Some code =>
            s <- get ;;
            r <- requests_get E (ip150url s ++ of_string "/statuslive.html")
                   [(of_string "area", fmt_02d area); (of_string "value", of_string code)] ;;
            match r with
            | TimeoutErr => raise (OtherError "Timeout")
            | ConnectionErr => raise (OtherError "ConnectionError")
            | Response _ code' =>
                if negb (code' =? 200) then perr "Error setting the area action"
                else ret tt
            end
        end
    end).

(** ** The [_updates] thread: [_get_updates] *)

(** The inner loop [for cur_d2, prev_d2 in zip(cur_state[d1], prev_state[d1])]. *)
Definition diff_pairs (d1 : pystr) (pairs : list (entry * entry)) (upd : snapshot)
  : snapshot :=
  fold_left (fun u (p : entry * entry) =>
               let '(cur_d2, prev_d2) := p in
               if negb (entry_eqb cur_d2 prev_d2) then
                 match dict_get d1 u with
                 | Some l => dict_set d1 (l ++ [cur_d2]) u
                 | None => dict_set d1 [cur_d2] u
                 end
               else u)
            pairs upd.

(** One iteration of [for d1 in cur_state.keys()]. *)
Definition diff_step (prev : snapshot) (upd : snapshot) (kv : pystr * list entry)
  : snapshot :=
  let '(d1, cur_l) := kv in
  match dict_get d1 prev with
  | Some prev_l => diff_pairs d1 (combine cur_l prev_l) upd
  | None => dict_set d1 cur_l upd
  end.

(** [updated_state] computed from [cur_state] and [prev_state]. *)
Definition diff (cur prev : snapshot) : snapshot :=
  fold_left (diff_step prev) cur [].

(** One iteration of the [while] loop, seen from outside: either
    [_stop_updates.wait(interval)] returned [True], or it returned
    [False] and [self.get_info()] had the given outcome. *)
Inductive tick :=
| WaitStopped
| WaitTimedOut (r : outcome snapshot).

Inductive loop_end :=
| LoopRunning (prev_state : snapshot) (retry_count : Z)  (* ticks exhausted *)
| LoopDone                                              (* wait returned True *)
| LoopRaised (e : exc).                                  (* exception out of the loop *)

Definition max_retry_error : exc :=
  Paradox_IP150_Error (of_string "Max retry count exceeded").

(** [if len(updated_state) > 0: on_update(updated_state, userdata)] *)
Definition update_calls (cur_state prev_state : snapshot) : list effect :=
  let updated_state := diff cur_state prev_state in
  if 0 <? Z.of_nat (length updated_state) then [CallOnUpdate updated_state] else [].

Fixpoint updates_loop (max_retry_count : Z) (prev_state : snapshot) (retry_count : Z)
         (ticks : list tick) : list effect * loop_end :=
  match ticks with
  | [] => ([], LoopRunning prev_state retry_count)
  | WaitStopped :: _ => ([], LoopDone)
  | WaitTimedOut r :: rest =>
      match r with
      | Raise (Paradox_IP150_Error _) =>
          let retry_count := retry_count + 1 in
          if max_retry_count <? retry_count then ([], LoopRaised max_retry_error)
          else updates_loop max_retry_count prev_state retry_count rest
      | Raise e => ([], LoopRaised e)
      | Ret cur_state =>
          let '(effs, fin) := updates_loop max_retry_count cur_state 0 rest in
          (update_calls cur_state prev_state ++ effs, fin)
      end
  end.

(** [_get_updates(on_update, on_error, userdata, interval, max_retry_count)]
    run over the given ticks; [get_updates] starts it with the default
    [max_retry_count=5]. *)
Definition get_updates_body (on_error : bool) (max_retry_count : Z) (ticks : list tick)
  : M unit :=
  let '(effs, fin) := updates_loop max_retry_count [] 0 ticks in
  _ <- fold_right (fun e m => _ <- emit e ;; m) (ret tt) effs ;;
  match fin with
  | LoopRunning _ _ => ret tt
  | LoopDone =>
      s <- get ;; _ <- put (set_stop s false) ;; emit StopUpdatesClear
  | LoopRaised e =>
      _ <- (if on_error then emit (CallOnError e) else ret tt) ;;
      s <- get ;; _ <- put (set_stop s false) ;; emit StopUpdatesClear
  end.

(** ** Helpers for stating the claims *)

(** Ticks on which [get_info] raised [Paradox_IP150_Error] with the
    given messages. *)
Definition fetch_failures (msgs : list pystr) : list tick :=
  map (fun m => WaitTimedOut (Raise (Paradox_IP150_Error m))) msgs.

Definition is_update_call (e : effect) : Prop :=
  exists d, e = CallOnUpdate d.

(** The entries of [zip(cur, prev)] whose two sides differ, in order. *)
Definition changed (pairs : list (entry * entry)) : list entry :=
  map fst (filter (fun p => negb (entry_eqb (fst p) (snd p))) pairs).

(** A panel that answers every request with an empty page and the given
    status, and an HTML parser that finds the given document. *)
Definition const_env (code : Z) (doc : html_doc) : env :=
  {| server := fun _ _ => Response [] code; parse_html := fun _ => doc |}.

Definition test_url : pystr := of_string "http://127.0.0.1".

Definition logged_session : session := set_logged_in (new_session test_url) true.

(** The script of the decoder example of the specification. *)
Definition example_script : pystr :=
  of_string "tbl_statuszone = new Array(0,0,1);tbl_useraccess = new Array(9,8,0,0);".

Definition example_doc : html_doc :=
  {| has_statuslive_form := true; first_script := Some example_script |}.

Definition is_some {A} (o : option A) : bool := match o with Some _ => true | None => false end.

Definition not_logged_in_error : exc :=
  Paradox_IP150_Error (of_string "Not logged in; please use login() first.").

(** Sample values, after the repository's tests. *)
Definition zones_key : pystr := of_string "zones_status".
Definition areas_key : pystr := of_string "areas_status".
Definition test_zones : list entry :=
  [(1, of_string "Closed"); (2, of_string "Closed"); (3, of_string "Open")].
Definition test_areas : list entry := [(1, of_string "Armed"); (2, of_string "Ready")].
Definition test_key : pystr := of_string "098F6BCD4621D373CADE4E832627B4F67BB0A0C78D08A8CE".

Definition busy_session : session :=
  {| ip150url := test_url; logged_in := true;
     keepalive_h := Some {| ka_url := test_url; ka_interval := 5 |};
     updates := Some (UpdatesThread 1); stop_updates := false |}.

(** ** Helpers for the further properties *)

(** An upper-case hexadecimal digit. *)
Definition is_upper_hex (c : Z) : bool :=
  ((48 <=? c) && (c <=? 57)) || ((65 <=? c) && (c <=? 70)).

(** The decimal digits of a non-negative integer, as [fmt_02d] computes them. *)
Definition dec_digits (x : Z) : pystr :=
  dec_digits_fuel (S (Z.to_nat (Z.log2_up (x + 1)))) x [].

(** [str(n)] for an [int]. *)
Definition py_str_int (n : Z) : pystr :=
  if n <? 0 then 45 :: dec_digits (- n) else dec_digits n.

(** [", ".join]-style joining with a separator. *)
Fixpoint join (sep : pystr) (l : list pystr) : pystr :=
  match l with
  | [] => []
  | [x] => x
  | x :: t => x ++ sep ++ join sep t
  end.

(** A declaration [varname = new Array(v1,v2,...);] as the IP150 writes it. *)
Definition js_array_decl (varname : pystr) (l : list Z) : pystr :=
  varname ++ of_string " = new Array(" ++ join (of_string ",") (map py_str_int l)
  ++ of_string ");".

(** The outcome of one poll, [self.get_info()], as the polling thread sees it. *)
Definition poll_tick (E : env) (s : session) : tick :=
  let '(r, _, _) := get_info E s in WaitTimedOut r.

(** A value of one byte. *)
Definition byte_range (x : Z) : Prop := 0 <= x < 256.

(** ** The [KeepAlive] thread *)

(** [while not self.stopped.wait(self.interval): self._one_keepalive()]:
    each element says whether [wait] returned [True]. *)
Fixpoint keepalive_run (ip150url : pystr) (waits : list bool) : list effect :=
  match waits with
  | [] => []
  | true :: _ => []
  | false :: rest =>
      HttpGet (ip150url ++ of_string "/keep_alive.html") [(of_string "msgid", of_string "1")]
        :: keepalive_run ip150url rest
  end.

(** * The MQTT adapter ([ip150_mqtt.py]) *)

(** A value of the JSON configuration. *)
Inductive cfg_value := CStr (s : pystr) | CBool (b : bool).

Definition config := list (string * cfg_value).

Fixpoint cfg_get (cfg : config) (k : string) : option cfg_value :=
  match cfg with
  | [] => None
  | (k', v) :: t => if String.eqb k k' then Some v else cfg_get t k
  end.

(** [f'{v}'] *)
Definition cfg_format (v : cfg_value) : pystr :=
  match v with
  | CStr s => s
  | CBool true => of_string "True"
  | CBool false => of_string "False"
  end.

(** [bool(v)] *)
Definition cfg_truthy (v : cfg_value) : bool :=
  match v with
  | CStr s => match s with [] => false | _ => true end
  | CBool b => b
  end.

(** [IP150_MQTT._status_map] *)
Definition status_map : list (string * (string * list (string * string))) :=
  [("areas_status",
    ("ALARM_PUBLISH_TOPIC",
     [("Disarmed", "disarmed"); ("Armed", "armed_away"); ("Triggered", "triggered");
      ("Armed_sleep", "armed_night"); ("Armed_stay", "armed_home");
      ("Entry_delay", "pending"); ("Exit_delay", "arming"); ("Ready", "disarmed")]));
   ("zones_status",
    ("ZONE_PUBLISH_TOPIC",
     [("Closed", "off"); ("Open", "on"); ("In_alarm", "on"); ("Closed_Trouble", "off");
      ("Open_Trouble", "on"); ("Closed_Memory", "off"); ("Open_Memory", "on");
      ("Bypass", "off"); ("Closed_Trouble2", "off"); ("Open_Trouble2", "on")]))]%string.

(** [IP150_MQTT._alarm_action_map] *)
Definition alarm_action_map : list (string * string) :=
  [("DISARM", "Disarm"); ("ARM_AWAY", "Arm"); ("ARM_NIGHT", "Arm_sleep");
   ("ARM_HOME", "Arm_stay")]%string.

(** [d.get(k, None)] on a dict with string keys. *)
Fixpoint sdict_get {V} (m : list (string * V)) (k : pystr) : option V :=
  match m with
  | [] => None
  | (k', v) :: t => if pystr_eqb (of_string k') k then Some v else sdict_get t k
  end.

(** Exceptions out of the adapter's callbacks. *)
Inductive mexc :=
| IpError (e : exc)
| IP150_MQTT_Error (msg : pystr)
| MqttOther (name : string).

(** What the adapter does to the MQTT client, and the client's calls into
    the [Paradox_IP150] object. *)
Inductive mqtt_effect :=
| Ip (e : effect)
| Publish (topic payload : pystr) (qos : Z) (retain : bool)
| Subscribe (topics : list (pystr * Z))
| Disconnect.

Inductive moutcome (A : Type) :=
| MRet (a : A)
| MRaise (e : mexc).
Arguments MRet {A} a.
Arguments MRaise {A} e.

(** The adapter's callbacks run against the [Paradox_IP150] session [self.ip]. *)
Definition MM (A : Type) := session -> moutcome A * session * list mqtt_effect.

Definition mret {A} (a : A) : MM A := fun s => (MRet a, s, []).
Definition mraise {A} (e : mexc) : MM A := fun s => (MRaise e, s, []).
Definition mbind {A B} (m : MM A) (k : A -> MM B) : MM B :=
  fun s =>
    match m s with
    | (MRet a, s1, e1) => let '(r, s2, e2) := k a s1 in (r, s2, e1 ++ e2)
    | (MRaise e, s1, e1) => (MRaise e, s1, e1)
    end.
Definition memit (e : mqtt_effect) : MM unit := fun s => (MRet tt, s, [e]).

Notation "x <-- m ;;; k" := (mbind m (fun x => k))
  (at level 61, m at next level, right associativity).

(** A call of a [Paradox_IP150] method. *)
Definition lift {A} (m : M A) : MM A :=
  fun s =>
    let '(r, s', effs) := m s in
    (match r with Ret a => MRet a | Raise e => MRaise (IpError e) end, s', map Ip effs).

Fixpoint mfor {A} (l : list A) (f : A -> MM unit) : MM unit :=
  match l with
  | [] => mret tt
  | x :: t => _ <-- f x ;;; mfor t f
  end.

(** [self._cfg[k]] *)
Definition cfg_item (cfg : config) (k : string) : MM cfg_value :=
  match cfg_get cfg k with
  | Some v => mret v
  | None => mraise (MqttOther "KeyError")
  end.

(** A configuration value used directly as a topic string. *)
Definition cfg_topic (v : cfg_value) : MM pystr :=
  match v with
  | CStr s => mret s
  | CBool _ => mraise (MqttOther "TypeError")
  end.

(** ** The checks of paho-mqtt 1.x ([Client.publish], [Client.subscribe]) *)

Definition is_surrogate (c : Z) : bool := (55296 <=? c) && (c <=? 57343).

(** The length of [s.encode('utf-8')] when [s] has no surrogate. *)
Definition utf8_len (s : pystr) : Z :=
  fold_right (fun c n => (if c <? 128 then 1 else if c <? 2048 then 2
                          else if c <? 65536 then 3 else 4) + n) 0 s.

Definition wildcard (c : Z) : bool := (c =? 43) || (c =? 35).

(** [s.split('/')] *)
Definition split_slash (s : pystr) : list pystr :=
  let '(parts, cur) := fold_right (fun c '(ps, cur) => if c =? 47 then (cur :: ps, [])
                                                       else (ps, c :: cur)) ([], []) s in
  cur :: parts.

Fixpoint has_hash_slash (s : pystr) : bool :=
  match s with
  | 35 :: 47 :: _ => true
  | _ :: t => has_hash_slash t
  | [] => false
  end.

(** [_topic_wildcard_len_check] on the encoded topic. *)
Definition topic_wildcard_len_ok (t : pystr) : bool :=
  negb (existsb wildcard t) && (utf8_len t <=? 65535).

(** [_filter_wildcard_len_check] on the encoded filter: not empty, at most
    65535 bytes, a wildcard only as a level of its own, no [#/]. *)
Definition filter_wildcard_len_ok (t : pystr) : bool :=
  negb ((utf8_len t =? 0) || (65535 <? utf8_len t)
        || existsb (fun p => (1 <? utf8_len p) && existsb wildcard p) (split_slash t)
        || has_hash_slash t).

(** [client.publish(topic, payload, qos, retain)] (MQTT 3.1.1): the topic
    must be non-empty, encodable, and free of [+] and [#]. *)
Definition mpublish (topic payload : pystr) (qos : Z) (retain : bool) : MM unit :=
  if (length topic =? 0)%nat then mraise (MqttOther "ValueError")
  else if existsb is_surrogate topic then mraise (MqttOther "UnicodeEncodeError")
  else if negb (topic_wildcard_len_ok topic) then mraise (MqttOther "ValueError")
  else if (qos <? 0) || (2 <? qos) then mraise (MqttOther "ValueError")
  else if existsb is_surrogate payload then mraise (MqttOther "UnicodeEncodeError")
  else if 268435455 <? utf8_len payload then mraise (MqttOther "ValueError")
  else memit (Publish topic payload qos retain).

(** The loop of [subscribe] over a list of [(topic, qos)]: [len(t)] of a
    [bool] raises [TypeError], an empty topic [ValueError], a surrogate
    [UnicodeEncodeError]. *)
Fixpoint sub_encode (l : list (cfg_value * Z)) : MM (list (pystr * Z)) :=
  match l with
  | [] => mret []
  | (t, q) :: rest =>
      if (q <? 0) || (2 <? q) then mraise (MqttOther "ValueError") else
      match t with
      | CBool _ => mraise (MqttOther "TypeError")
      | CStr s =>
          if (length s =? 0)%nat then mraise (MqttOther "ValueError")
          else if existsb is_surrogate s then mraise (MqttOther "UnicodeEncodeError")
          else r <-- sub_encode rest ;;; mret ((s, q) :: r)
      end
  end.

(** [client.subscribe([(topic, qos), ...])] on a connected client. *)
Definition msubscribe (l : list (cfg_value * Z)) : MM unit :=
  if (length l =? 0)%nat then mraise (MqttOther "ValueError") else
  tl <-- sub_encode l ;;;
  if forallb (fun tq => filter_wildcard_len_ok (fst tq)) tl then memit (Subscribe tl)
  else mraise (MqttOther "ValueError").

(** The topics [publish] accepts. *)
Definition publish_topic_ok (t : pystr) : bool :=
  negb (length t =? 0)%nat && negb (existsb is_surrogate t) && topic_wildcard_len_ok t.

(** The filters [subscribe] accepts. *)
Definition subscribe_filter_ok (t : pystr) : bool :=
  negb (length t =? 0)%nat && negb (existsb is_surrogate t) && filter_wildcard_len_ok t.

(** What the adapter takes from outside: [str.isdigit] (Unicode data) and
    [bytes.decode()] (UTF-8, [None] on a decoding error). *)
Record mqtt_env := {
  isdigit : pystr -> bool;
  decode : list Z -> option pystr
}.

(** The adapter object: [self._cfg] and [self._will]. *)
Record adapter := { acfg : config; awill_topic : cfg_value }.

(** [IP150_MQTT.__init__] *)
Definition init_adapter (cfg : config) : option adapter :=
  match cfg_get cfg "CTRL_PUBLISH_TOPIC" with
  | Some v => Some {| acfg := cfg; awill_topic := v |}
  | None => None
  end.

(** [_on_paradox_new_state(state, client)] *)
Definition on_paradox_new_state (a : adapter) (state : snapshot) : MM unit :=
  mfor (map fst state) (fun d1 =>
    match sdict_get status_map d1 with
    | None => mret tt
    | Some (topic_key, m) =>
        match dict_get d1 state with
        | None => mret tt
        | Some entries =>
            mfor entries (fun d2 =>
              match sdict_get m (snd d2) with
              | None => mret tt
              | Some publish_state =>
                  if (String.length publish_state =? 0)%nat then mret tt else
                  t <-- cfg_item (acfg a) topic_key ;;;
                  mpublish (cfg_format t ++ of_string "/" ++ py_str_int (fst d2))
                           (of_string publish_state) 1 true
              end)
        end
    end).

(** [mqtt_ctrl_disconnect(client)]. The will topic is the one the broker
    accepted in the CONNECT of [loop_forever], where MQTT forbids an empty
    topic and wildcards, so [publish] passes it. *)
Definition mqtt_ctrl_disconnect (E : env) (a : adapter) : MM unit :=
  _ <-- lift cancel_updates ;;;
  will <-- cfg_topic (awill_topic a) ;;;
  _ <-- memit (Publish will (of_string "Disconnected") 1 true) ;;;
  _ <-- memit Disconnect ;;;
  lift (logout E).

(** [_on_paradox_update_error(e, client)] *)
Definition on_paradox_update_error (E : env) (a : adapter) (e : exc) : MM unit :=
  mqtt_ctrl_disconnect E a.

(** [_on_mqtt_connect(client, userdata, flags, rc)]: [get_updates] is
    called with the bound method [_on_paradox_new_state] (truthy) and the
    default [poll_interval=1.0]. *)
Definition on_mqtt_connect (a : adapter) (rc : Z) : MM unit :=
  if negb (rc =? 0) then
    mraise (IP150_MQTT_Error
              (of_string "Error while connecting to the MQTT broker. Reason code: "
               ++ py_str_int rc))
  else
    t1 <-- cfg_item (acfg a) "ALARM_SUBSCRIBE_TOPIC" ;;;
    v2 <-- cfg_item (acfg a) "CTRL_SUBSCRIBE_TOPIC" ;;;
    _ <-- msubscribe [(CStr (cfg_format t1 ++ of_string "/+"), 1); (v2, 1)] ;;;
    v3 <-- cfg_item (acfg a) "CTRL_PUBLISH_TOPIC" ;;;
    t3 <-- cfg_topic v3 ;;;
    _ <-- mpublish t3 (of_string "Connected") 1 true ;;;
    lift (get_updates true 1%Q).

(** [topic.rpartition('/')[2]]: what follows the last ['/'], or the
    whole topic when there is none. *)
Definition rpartition_tail (s : pystr) : pystr :=
  fold_left (fun acc c => if c =? 47 then [] else acc ++ [c]) s [].

(** [_on_mqtt_alarm_message(client, userdata, message)] *)
Definition on_mqtt_alarm_message (ME : mqtt_env) (E : env) (a : adapter)
           (topic : pystr) (payload : list Z) : MM unit :=
  let area := rpartition_tail topic in
  if isdigit ME area then
    match decode ME payload with
    | None => mraise (MqttOther "UnicodeDecodeError")
    | Some p =>
        match sdict_get alarm_action_map p with
        | None => mret tt
        | Some action =>
            if (String.length action =? 0)%nat then mret tt else
            ro <-- cfg_item (acfg a) "READ_ONLY" ;;;
            if cfg_truthy ro then mret tt
            else lift (set_area_action E (AreaStr area) (of_string action))
        end
    end
  else mret tt.

(** [_on_mqtt_ctrl_message(client, userdata, message)] *)
Definition on_mqtt_ctrl_message (ME : mqtt_env) (E : env) (a : adapter)
           (payload : list Z) : MM unit :=
  match decode ME payload with
  | None => mraise (MqttOther "UnicodeDecodeError")
  | Some p =>
      if pystr_eqb p (of_string "Disconnect") then mqtt_ctrl_disconnect E a else mret tt
  end.

(** The parts of [urllib.parse.urlsplit(...)] that [_parse_mqtt_url] reads. *)
Record split_result := { sr_scheme : pystr; sr_hostname : option pystr; sr_port : option Z }.

(** [_parse_mqtt_url()] *)
Definition parse_mqtt_url (parsed : split_result) : moutcome (option pystr * Z) :=
  match (match sr_port parsed with Some p => if p =? 0 then None else Some p | None => None end) with
  | Some port => MRet (sr_hostname parsed, port)
  | None =>
      if pystr_eqb (sr_scheme parsed) (of_string "mqtt") then MRet (sr_hostname parsed, 1883)
      else if pystr_eqb (sr_scheme parsed) (of_string "mqtts") then MRet (sr_hostname parsed, 8883)
      else MRaise (IP150_MQTT_Error
                    (of_string "No port defined, nor " ++ q34 ++ of_string "mqtt" ++ q34
                     ++ of_string " nor " ++ q34 ++ of_string "mqtts" ++ q34
                     ++ of_string " scheme."))
  end.

(** ** Sample inputs for the further properties *)

(** A panel that answers every request with the same page. *)
Definition page_env (text : pystr) (code : Z) (doc : html_doc) : env :=
  {| server := fun _ _ => Response text code; parse_html := fun _ => doc |}.

(** A panel whose requests all end in the same way. *)
Definition failing_env (r : http_result) : env :=
  {| server := fun _ _ => r; parse_html := fun _ => example_doc |}.

(** A login page carrying the session salt [0123456789ABCDEF]. *)
Definition login_page_text : pystr :=
  of_string "loginaff(" ++ q34 ++ of_string "0123456789ABCDEF" ++ q34 ++ of_string ");".

Definition redirect_text : pystr := of_string "top.location.href='login_page.html';".

Definition test_config (read_only : bool) : config :=
  [("ALARM_PUBLISH_TOPIC", CStr (of_string "paradox/alarm/state"));
   ("ZONE_PUBLISH_TOPIC", CStr (of_string "paradox/zone/state"));
   ("ALARM_SUBSCRIBE_TOPIC", CStr (of_string "paradox/alarm/cmnd"));
   ("CTRL_SUBSCRIBE_TOPIC", CStr (of_string "paradox/ctrl/cmnd"));
   ("CTRL_PUBLISH_TOPIC", CStr (of_string "paradox/ctrl/state"));
   ("READ_ONLY", CBool read_only)]%string.

Definition test_adapter (read_only : bool) : adapter :=
  {| acfg := test_config read_only; awill_topic := CStr (of_string "paradox/ctrl/state") |}.

(** The test adapter (not read-only) with the entry [k] set to [v]. *)
Definition test_adapter_set (k : string) (v : cfg_value) : adapter :=
  {| acfg := (k, v) :: test_config false; awill_topic := CStr (of_string "paradox/ctrl/state") |}.

(** [str.isdigit] on ASCII text and a decoder that accepts every payload. *)
Definition test_mqtt_env : mqtt_env :=
  {| isdigit := fun s => match s with [] => false | _ => forallb is_digit s end;
     decode := fun b => Some b |}.

(** * Lemmas about the embedding *)

Lemma set_nth_length {A} (l : list A) k v : length (set_nth l k v) = length l.
Proof.
  revert k; induction l as [|x t IH]; intros [|k]; simpl; auto.
Qed.

Lemma py_get_in_range (l : list Z) i :
  0 <= i < Z.of_nat (length l) -> exists v, py_get l i = Some v.
Proof.
  intros Hi; unfold py_get.
  replace ((0 <=? i) && (i <? Z.of_nat (length l))) with true
    by (symmetry; apply andb_true_intro; split; [apply Z.leb_le | apply Z.ltb_lt]; lia).
  destruct (nth_error l (Z.to_nat i)) eqn:E; [eauto|].
  apply nth_error_None in E; lia.
Qed.

Lemma py_set_in_range (l : list Z) i v :
  0 <= i < Z.of_nat (length l) ->
  exists l', py_set l i v = Some l' /\ length l' = length l.
Proof.
  intros Hi; unfold py_set.
  replace ((0 <=? i) && (i <? Z.of_nat (length l))) with true
    by (symmetry; apply andb_true_intro; split; [apply Z.leb_le | apply Z.ltb_lt]; lia).
  eexists; split; [reflexivity | apply set_nth_length].
Qed.

Lemma py_swap_in_range (l : list Z) i j :
  0 <= i < Z.of_nat (length l) -> 0 <= j < Z.of_nat (length l) ->
  exists l', py_swap l i j = Some l' /\ length l' = length l.
Proof.
  intros Hi Hj; unfold py_swap.
  destruct (py_get_in_range l j Hj) as [sj ->].
  destruct (py_get_in_range l i Hi) as [si ->].
  destruct (py_set_in_range l i sj Hi) as [l1 [-> L1]].
  destruct (py_set_in_range l1 j si) as [l2 [-> L2]]; [lia|].
  exists l2; split; [reflexivity | lia].
Qed.

Lemma py_get_above (l : list Z) i : Z.of_nat (length l) <= i -> py_get l i = None.
Proof.
  intros Hi; unfold py_get.
  replace (i <? Z.of_nat (length l)) with false by (symmetry; apply Z.ltb_ge; lia).
  replace (i <? 0) with false by (symmetry; apply Z.ltb_ge; lia).
  rewrite !andb_false_r; reflexivity.
Qed.

Lemma ksa_fold_none key l : fold_left (ksa_step key) l None = None.
Proof. induction l; simpl; auto. Qed.

Lemma ksa_fold_ok key l st :
  length (ksa_S st) = 256%nat ->
  Forall (fun i => 0 <= i < Z.of_nat (length key) /\ i < 256) l ->
  exists st', fold_left (ksa_step key) l (Some st) = Some st' /\
              ksa_visited st' = ksa_visited st ++ l /\
              length (ksa_S st') = 256%nat.
Proof.
  revert st; induction l as [|i l IH]; intros st HS HF; simpl.
  - exists st; rewrite app_nil_r; auto.
  - inversion HF as [|? ? [Hik Hi256] HF']; subst.
    destruct (py_get_in_range (ksa_S st) i) as [si Hsi]; [rewrite HS; lia|].
    destruct (py_get_in_range key i Hik) as [ki Hki].
    rewrite Hsi, Hki.
    set (j := (ksa_j st + si + ki) mod 256).
    destruct (py_swap_in_range (ksa_S st) i j) as [S' [HSw LS]];
      [rewrite HS; lia | rewrite HS; subst j; pose proof (Z.mod_pos_bound (ksa_j st + si + ki) 256); lia |].
    rewrite HSw.
    destruct (IH {| ksa_S := S'; ksa_j := j; ksa_visited := ksa_visited st ++ [i] |})
      as [st' [H1 [H2 H3]]]; simpl; [lia | exact HF' |].
    exists st'; split; [exact H1|]; split; [rewrite H2; simpl; rewrite <- app_assoc; reflexivity | exact H3].
Qed.

Lemma py_range_down_spec start :
  Forall (fun i => 0 <= i <= start) (py_range_down start).
Proof.
  unfold py_range_down; apply Forall_forall; intros x Hx.
  apply in_map_iff in Hx as [k [<- Hk]]; apply in_seq in Hk; lia.
Qed.

Lemma py_range_down_length start :
  0 <= start + 1 -> length (py_range_down start) = Z.to_nat (start + 1).
Proof. intros; unfold py_range_down; rewrite length_map, length_seq; reflexivity. Qed.

Lemma py_range_down_head start :
  0 <= start -> py_range_down start = start :: py_range_down (start - 1).
Proof.
  intros H; unfold py_range_down.
  replace (Z.to_nat (start + 1)) with (S (Z.to_nat (start - 1 + 1))) by lia.
  simpl; f_equal; [lia|].
  rewrite <- seq_shift, map_map; apply map_ext; intros; lia.
Qed.

Lemma py_range_down_rev (n : nat) :
  py_range_down (Z.of_nat n - 1) = rev (py_range (Z.of_nat n)).
Proof.
  induction n as [|n IH]; [reflexivity|].
  rewrite py_range_down_head by lia.
  replace (Z.of_nat (S n) - 1 - 1) with (Z.of_nat n - 1) by lia.
  replace (Z.of_nat (S n) - 1) with (Z.of_nat n) by lia.
  rewrite IH; unfold py_range; rewrite !Nat2Z.id, seq_S, map_app, rev_app_distr.
  reflexivity.
Qed.

(** * The claims *)

(** ** Cipher and credential encoder *)

(** C3: [_prep_cred("1234", "test", "7BB0A0C78D08A8CE")] returns
    [{p: "14A3DD3D3BFD389B272BB5BCD27FF88E", u: "80815A09"}]; along the way
    the salted pass is the upper-case MD5 of the 8-bit password followed by
    the salt, ["098F6BCD4621D373CADE4E832627B4F67BB0A0C78D08A8CE"], and the
    cipher of ["1234"] under that key is ["80815A09"]. *)
Theorem prep_cred_test_vector :
  salted_pass (of_string "test") (of_string "7BB0A0C78D08A8CE")
    = Some (of_string "098F6BCD4621D373CADE4E832627B4F67BB0A0C78D08A8CE") /\
  py_upper (MD5.hexdigest (to_8bits (of_string "test")))
    = of_string "098F6BCD4621D373CADE4E832627B4F6" /\
  paradox_rc4 (of_string "1234")
              (of_string "098F6BCD4621D373CADE4E832627B4F67BB0A0C78D08A8CE")
    = Some (of_string "80815A09") /\
  prep_cred (of_string "1234") (of_string "test") (of_string "7BB0A0C78D08A8CE")
    = Some {| cred_p := of_string "14A3DD3D3BFD389B272BB5BCD27FF88E";
              cred_u := of_string "80815A09" |}.
Proof. vm_compute. repeat split. Qed.

(** C4 (counterexample): with the 48-character key of the credential test
    vector the key-scheduling loop visits [i = 47, 46, ..., 0], not
    [i = 255, 254, ..., 0]. *)
Lemma ksa_visits_not_255_down :
  option_map ksa_visited
    (ksa (of_string "098F6BCD4621D373CADE4E832627B4F67BB0A0C78D08A8CE"))
    = Some (rev (py_range 48)) /\
  rev (py_range 48) <> rev (py_range 256).
Proof.
  split; [vm_compute; reflexivity|].
  intros H; apply (f_equal (@length Z)) in H; vm_compute in H; discriminate.
Qed.

(** C4 (amended): the key-scheduling loop of [_paradox_rc4] iterates [i]
    from [len(key) - 1] down to [0], in reverse order, [len(key)]
    iterations; a key longer than 256 characters makes [S[i]] raise
    [IndexError] on the first iteration. *)
Theorem ksa_visits_key_indices (key : pystr) :
  ((length key <= 256)%nat ->
   exists st, ksa key = Some st /\
              ksa_visited st = rev (py_range (Z.of_nat (length key))) /\
              length (ksa_visited st) = length key) /\
  ((256 < length key)%nat -> ksa key = None).
Proof.
  split.
  - intros Hlen; unfold ksa.
    destruct (ksa_fold_ok key (ksa_range key)
                {| ksa_S := py_range 256; ksa_j := 0; ksa_visited := [] |})
      as [st [H1 [H2 _]]]; [reflexivity| |].
    + eapply Forall_impl; [|apply py_range_down_spec]; simpl; intros; lia.
    + exists st; split; [exact H1|].
      unfold ksa_range in H2; simpl in H2; rewrite py_range_down_rev in H2.
      split; [exact H2|].
      rewrite H2, length_rev; unfold py_range; rewrite length_map, length_seq; lia.
  - intros Hlen; unfold ksa, ksa_range.
    rewrite py_range_down_head by lia; simpl.
    rewrite py_get_above; [apply ksa_fold_none|].
    reflexivity || (simpl; lia).
Qed.

(** ** Lemmas about the polling loop *)

Section UpdatesLoop.

Variable max_retry_count : Z.

Lemma updates_loop_app pre rest prev rc effs prev' rc' :
  updates_loop max_retry_count prev rc pre = (effs, LoopRunning prev' rc') ->
  updates_loop max_retry_count prev rc (pre ++ rest)
  = let '(e2, fin) := updates_loop max_retry_count prev' rc' rest in (effs ++ e2, fin).
Proof.
  revert prev rc effs; induction pre as [|t pre IH]; intros prev rc effs H.
  - simpl in H; injection H as <- <- <-; simpl.
    destruct (updates_loop max_retry_count prev rc rest); reflexivity.
  - destruct t as [|[cur|[m|n]]]; simpl in H |- *; try discriminate.
    + destruct (updates_loop max_retry_count cur 0 pre) as [e1 f1] eqn:E1.
      injection H as <- ->.
      rewrite (IH _ _ _ E1).
      destruct (updates_loop max_retry_count prev' rc' rest).
      rewrite app_assoc; reflexivity.
    + destruct (max_retry_count <? rc + 1); [discriminate|].
      apply IH; exact H.
Qed.

Lemma updates_loop_failures msgs prev rc rest :
  rc + Z.of_nat (length msgs) <= max_retry_count ->
  updates_loop max_retry_count prev rc (fetch_failures msgs ++ rest)
  = updates_loop max_retry_count prev (rc + Z.of_nat (length msgs)) rest.
Proof.
  revert rc; induction msgs as [|m msgs IH]; intros rc H; simpl in *.
  - rewrite Z.add_0_r; reflexivity.
  - replace (max_retry_count <? rc + 1) with false by (symmetry; apply Z.ltb_ge; lia).
    rewrite IH by lia; f_equal; lia.
Qed.

Lemma updates_loop_exhausted msgs prev rc rest :
  msgs <> [] ->
  rc + Z.of_nat (length msgs) = max_retry_count + 1 ->
  updates_loop max_retry_count prev rc (fetch_failures msgs ++ rest)
  = ([], LoopRaised max_retry_error).
Proof.
  intros Hne Hlen.
  destruct (exists_last Hne) as [msgs' [m ->]].
  rewrite length_app in Hlen; simpl in Hlen.
  unfold fetch_failures; rewrite map_app, <- app_assoc.
  fold (fetch_failures msgs').
  rewrite updates_loop_failures by lia; simpl.
  replace (max_retry_count <? rc + Z.of_nat (length msgs') + 1) with true
    by (symmetry; apply Z.ltb_lt; lia).
  reflexivity.
Qed.

Lemma updates_loop_only_updates prev rc ticks :
  Forall is_update_call (fst (updates_loop max_retry_count prev rc ticks)).
Proof.
  revert prev rc; induction ticks as [|t ticks IH]; intros prev rc; simpl; auto.
  destruct t as [|[cur|[m|n]]]; simpl; auto.
  - destruct (updates_loop max_retry_count cur 0 ticks) as [e f] eqn:E; simpl.
    apply Forall_app; split.
    + unfold update_calls; destruct (0 <? _); constructor; [eexists; reflexivity|]; auto.
    + specialize (IH cur 0); rewrite E in IH; exact IH.
  - destruct (max_retry_count <? rc + 1); simpl; auto.
Qed.

End UpdatesLoop.

Lemma emit_all effs s :
  fold_right (fun e m => _ <- emit e ;; m) (ret tt) effs s = (Ret tt, s, effs).
Proof.
  induction effs as [|e effs IH]; [reflexivity|].
  simpl; unfold bind at 1; simpl; rewrite IH; reflexivity.
Qed.

(** ** The polling thread *)

(** C1: with [max_retry_count = 5], each [Paradox_IP150_Error] from
    [get_info] increments [retry_count] without any callback while the
    count stays at most 5; a successful fetch after at most five failures
    resets the count to 0 and the loop goes on; the sixth consecutive
    failure ends the loop with the ["Max retry count exceeded"] error,
    and the thread then calls [on_error] exactly once, after only
    [on_update] calls, and clears [_stop_updates]. *)
Theorem updates_retry_bound :
  (forall prev rc msgs rest,
     0 <= rc -> rc + Z.of_nat (length msgs) <= 5 ->
     updates_loop 5 prev rc (fetch_failures msgs ++ rest)
     = updates_loop 5 prev (rc + Z.of_nat (length msgs)) rest) /\
  (forall prev msgs cur rest,
     (length msgs <= 5)%nat ->
     updates_loop 5 prev 0 (fetch_failures msgs ++ WaitTimedOut (Ret cur) :: rest)
     = let '(effs, fin) := updates_loop 5 cur 0 rest in
       (update_calls cur prev ++ effs, fin)) /\
  (forall prev rc msgs rest,
     0 <= rc -> msgs <> [] -> rc + Z.of_nat (length msgs) = 6 ->
     updates_loop 5 prev rc (fetch_failures msgs ++ rest)
     = ([], LoopRaised max_retry_error)) /\
  (forall (on_error : bool) s pre effs prev msgs rest,
     updates_loop 5 [] 0 pre = (effs, LoopRunning prev 0) ->
     length msgs = 6%nat ->
     Forall is_update_call effs /\
     get_updates_body on_error 5 (pre ++ fetch_failures msgs ++ rest) s
     = (Ret tt, set_stop s false,
        effs ++ (if on_error then [CallOnError max_retry_error] else [])
             ++ [StopUpdatesClear])).
Proof.
  split; [|split; [|split]].
  - intros; apply updates_loop_failures; lia.
  - intros prev msgs cur rest Hlen.
    rewrite updates_loop_failures by lia; simpl; reflexivity.
  - intros; apply updates_loop_exhausted; auto; lia.
  - intros on_error s pre effs prev msgs rest Hpre Hlen; split.
    + pose proof (updates_loop_only_updates 5 [] 0 pre) as H; rewrite Hpre in H; exact H.
    + unfold get_updates_body.
      rewrite (updates_loop_app 5 pre _ [] 0 effs prev 0 Hpre).
      rewrite updates_loop_exhausted;
        [| intros ->; discriminate | rewrite Hlen; reflexivity].
      rewrite app_nil_r; simpl.
      unfold bind at 1; rewrite emit_all.
      destruct on_error; reflexivity.
Qed.

(** ** Lemmas about dictionaries and the diff *)

Lemma pystr_eqb_eq a b : pystr_eqb a b = true <-> a = b.
Proof. unfold pystr_eqb; destruct (list_eq_dec Z.eq_dec a b); split; congruence. Qed.

Lemma pystr_eqb_refl a : pystr_eqb a a = true.
Proof. apply pystr_eqb_eq; reflexivity. Qed.

Lemma entry_eqb_eq a b : entry_eqb a b = true <-> a = b.
Proof.
  destruct a as [i x], b as [j y]; unfold entry_eqb; simpl.
  rewrite andb_true_iff, Z.eqb_eq, pystr_eqb_eq; split.
  - intros [-> ->]; reflexivity.
  - intros H; injection H; auto.
Qed.

Lemma entry_eqb_refl a : entry_eqb a a = true.
Proof. apply entry_eqb_eq; reflexivity. Qed.

Section Dict.

Context {V : Type}.

Lemma dict_get_set_same k (v : V) d : dict_get k (dict_set k v d) = Some v.
Proof.
  induction d as [|[k' v'] t IH]; simpl.
  - rewrite pystr_eqb_refl; reflexivity.
  - destruct (pystr_eqb k k') eqn:E; simpl; rewrite E; auto.
Qed.

Lemma dict_set_get k (v : V) d : dict_get k d = Some v -> dict_set k v d = d.
Proof.
  induction d as [|[k' v'] t IH]; simpl; [discriminate|].
  destruct (pystr_eqb k k'); [congruence|].
  intros H; rewrite IH; auto.
Qed.

Lemma dict_set_set k (v1 v2 : V) d : dict_set k v2 (dict_set k v1 d) = dict_set k v2 d.
Proof.
  induction d as [|[k' v'] t IH]; simpl.
  - rewrite pystr_eqb_refl; reflexivity.
  - destruct (pystr_eqb k k') eqn:E; simpl; rewrite E; [reflexivity|].
    rewrite IH; reflexivity.
Qed.

Lemma dict_get_none k (d : list (pystr * V)) : ~ In k (map fst d) -> dict_get k d = None.
Proof.
  induction d as [|[k' v'] t IH]; simpl; auto.
  intros Hn; destruct (pystr_eqb k k') eqn:E.
  - apply pystr_eqb_eq in E; subst; tauto.
  - apply IH; tauto.
Qed.

Lemma dict_set_new k (v : V) d : dict_get k d = None -> dict_set k v d = d ++ [(k, v)].
Proof.
  induction d as [|[k' v'] t IH]; simpl; auto.
  destruct (pystr_eqb k k'); [discriminate|].
  intros H; rewrite IH; auto.
Qed.

Lemma dict_get_in_nodup k (v : V) d :
  NoDup (map fst d) -> In (k, v) d -> dict_get k d = Some v.
Proof.
  induction d as [|[k' v'] t IH]; simpl; [tauto|].
  intros Hnd Hin; inversion Hnd as [|? ? Hn Hnd']; subst.
  destruct Hin as [Heq | Hin].
  - injection Heq as -> ->; rewrite pystr_eqb_refl; reflexivity.
  - destruct (pystr_eqb k k') eqn:E.
    + apply pystr_eqb_eq in E; subst.
      exfalso; apply Hn; apply in_map_iff; exists (k', v); auto.
    + auto.
Qed.

End Dict.

Lemma diff_pairs_some d1 pairs upd l0 :
  dict_get d1 upd = Some l0 ->
  diff_pairs d1 pairs upd = dict_set d1 (l0 ++ changed pairs) upd.
Proof.
  unfold diff_pairs, changed.
  revert upd l0; induction pairs as [|[c p] ps IH]; intros upd l0 H; simpl.
  - rewrite app_nil_r, dict_set_get; auto.
  - destruct (entry_eqb c p); simpl.
    + apply IH; exact H.
    + rewrite H, (IH _ (l0 ++ [c])) by apply dict_get_set_same.
      rewrite dict_set_set, <- app_assoc; reflexivity.
Qed.

Lemma diff_pairs_cons d1 c p ps upd :
  diff_pairs d1 ((c, p) :: ps) upd
  = diff_pairs d1 ps (if negb (entry_eqb c p) then
                        match dict_get d1 upd with
                        | Some l => dict_set d1 (l ++ [c]) upd
                        | None => dict_set d1 [c] upd
                        end
                      else upd).
Proof. reflexivity. Qed.

Lemma changed_cons c p ps :
  changed ((c, p) :: ps) = if entry_eqb c p then changed ps else c :: changed ps.
Proof. unfold changed; simpl; destruct (entry_eqb c p); reflexivity. Qed.

Lemma diff_pairs_none d1 pairs upd :
  dict_get d1 upd = None ->
  diff_pairs d1 pairs upd
  = match changed pairs with [] => upd | ch => dict_set d1 ch upd end.
Proof.
  revert upd; induction pairs as [|[c p] ps IH]; intros upd H; [reflexivity|].
  rewrite diff_pairs_cons, changed_cons.
  destruct (entry_eqb c p) eqn:E; simpl.
  - apply IH; exact H.
  - rewrite H.
    rewrite (diff_pairs_some d1 ps _ [c]) by apply dict_get_set_same.
    rewrite dict_set_set; reflexivity.
Qed.

Lemma diff_pairs_equal d1 pairs upd :
  Forall (fun p => entry_eqb (fst p) (snd p) = true) pairs ->
  diff_pairs d1 pairs upd = upd.
Proof.
  revert upd; induction pairs as [|[c p] ps IH]; intros upd H; [reflexivity|].
  inversion H as [|? ? Hp Hps]; subst; simpl in Hp.
  unfold diff_pairs; simpl; rewrite Hp; simpl; apply IH; exact Hps.
Qed.

Lemma combine_self_equal (l : list entry) :
  Forall (fun p => entry_eqb (fst p) (snd p) = true) (combine l l).
Proof. induction l; simpl; constructor; simpl; auto using entry_eqb_refl. Qed.

Lemma combine_app_l {A B} (l1 : list A) (l2 : list B) x :
  length l1 = length l2 -> combine (l1 ++ x) l2 = combine l1 l2.
Proof.
  revert l2; induction l1 as [|a l1 IH]; intros [|b l2] H; simpl in *; try discriminate; auto.
  - destruct x; reflexivity.
  - rewrite IH; auto.
Qed.

Lemma combine_app_r {A B} (l1 : list A) (l2 : list B) x :
  length l1 = length l2 -> combine l1 (l2 ++ x) = combine l1 l2.
Proof.
  revert l2; induction l1 as [|a l1 IH]; intros [|b l2] H; simpl in *; try discriminate; auto.
  rewrite IH; auto.
Qed.

Lemma combine_firstn {A B} (l1 : list A) (l2 : list B) :
  combine l1 l2 = combine (firstn (length l2) l1) (firstn (length l1) l2).
Proof.
  revert l2; induction l1 as [|a l1 IH]; intros [|b l2]; simpl; try reflexivity.
  f_equal; apply IH.
Qed.

Lemma diff_fold_unchanged prev L upd :
  Forall (fun kv => exists pl, dict_get (fst kv) prev = Some pl /\
                     Forall (fun p => entry_eqb (fst p) (snd p) = true) (combine (snd kv) pl)) L ->
  fold_left (diff_step prev) L upd = upd.
Proof.
  revert upd; induction L as [|[k v] L IH]; intros upd H; [reflexivity|].
  inversion H as [|? ? [pl [Hg Heq]] HL]; subst; simpl in *.
  rewrite Hg, diff_pairs_equal by exact Heq.
  apply IH; exact HL.
Qed.

Lemma diff_fold_fresh L upd :
  NoDup (map fst (upd ++ L)) -> fold_left (diff_step []) L upd = upd ++ L.
Proof.
  revert upd; induction L as [|[k v] L IH]; intros upd H; simpl.
  - rewrite app_nil_r; reflexivity.
  - rewrite dict_set_new.
    + rewrite IH; [rewrite <- app_assoc; reflexivity|].
      rewrite <- app_assoc; exact H.
    + apply dict_get_none; intros Hin.
      rewrite map_app in H; simpl in H.
      apply NoDup_remove_2 in H; apply H; apply in_or_app; left; exact Hin.
Qed.

Lemma changed_set_nth (l : list entry) n e e' :
  nth_error l n = Some e -> e <> e' ->
  changed (combine (set_nth l n e') l) = [e'].
Proof.
  revert n; induction l as [|x l IH]; intros [|n] Hn Hne; simpl in *; try discriminate.
  - injection Hn as ->.
    unfold changed; simpl.
    destruct (entry_eqb e' e) eqn:E; [apply entry_eqb_eq in E; congruence|]; simpl.
    pose proof (combine_self_equal l) as Hs.
    f_equal.
    induction Hs as [|p ps Hp Hps IHs]; simpl; [reflexivity|].
    rewrite Hp; exact IHs.
  - unfold changed in *; simpl; rewrite entry_eqb_refl; simpl.
    apply IH; auto.
Qed.

(** C2: the diff of the polling thread. (a) While the previous snapshot
    is empty (first successful tick), every category is new and the
    update callback receives the whole snapshot. (b) Two equal
    consecutive snapshots give an empty delta and no callback. (c) When
    the new snapshot differs from the previous one only in the state of
    one entry of one category, the delta maps that category to the list
    holding just the new entry. In every case the fetched snapshot is the
    previous one of the next tick. *)
Theorem updates_diff_law :
  (forall cur rc rest,
     NoDup (map fst cur) -> cur <> [] ->
     diff cur [] = cur /\
     updates_loop 5 [] rc (WaitTimedOut (Ret cur) :: rest)
     = let '(effs, fin) := updates_loop 5 cur 0 rest in
       (CallOnUpdate cur :: effs, fin)) /\
  (forall cur rc rest,
     NoDup (map fst cur) ->
     diff cur cur = [] /\
     updates_loop 5 cur rc (WaitTimedOut (Ret cur) :: rest)
     = updates_loop 5 cur 0 rest) /\
  (forall pre post c l n i st st' rc rest,
     NoDup (map fst (pre ++ (c, l) :: post)) ->
     nth_error l n = Some (i, st) -> st <> st' ->
     diff (pre ++ (c, set_nth l n (i, st')) :: post) (pre ++ (c, l) :: post)
       = [(c, [(i, st')])] /\
     updates_loop 5 (pre ++ (c, l) :: post) rc
       (WaitTimedOut (Ret (pre ++ (c, set_nth l n (i, st')) :: post)) :: rest)
     = let '(effs, fin) :=
         updates_loop 5 (pre ++ (c, set_nth l n (i, st')) :: post) 0 rest in
       (CallOnUpdate [(c, [(i, st')])] :: effs, fin)).
Proof.
  split; [|split].
  - intros cur rc rest Hnd Hne.
    assert (Hd : diff cur [] = cur) by (apply (diff_fold_fresh cur []); exact Hnd).
    split; [exact Hd|].
    simpl; unfold update_calls; rewrite Hd.
    destruct cur as [|kv cur]; [congruence|]; simpl.
    destruct (updates_loop 5 (kv :: cur) 0 rest); reflexivity.
  - intros cur rc rest Hnd.
    assert (Hd : diff cur cur = []).
    { apply diff_fold_unchanged, Forall_forall; intros [k v] Hin.
      exists v; split; [apply dict_get_in_nodup; auto | apply combine_self_equal]. }
    split; [exact Hd|].
    simpl; unfold update_calls; rewrite Hd; simpl.
    destruct (updates_loop 5 cur 0 rest); reflexivity.
  - intros pre post c l n i st st' rc rest Hnd Hn Hst.
    set (prev := pre ++ (c, l) :: post).
    assert (Hin : forall k v, In (k, v) prev -> dict_get k prev = Some v)
      by (intros; apply dict_get_in_nodup; auto).
    assert (Hd : diff (pre ++ (c, set_nth l n (i, st')) :: post) prev = [(c, [(i, st')])]).
    { unfold diff; rewrite fold_left_app.
      rewrite (diff_fold_unchanged _ pre).
      2: { apply Forall_forall; intros [k v] Hk; exists v; split;
           [apply Hin; unfold prev; apply in_or_app; auto | apply combine_self_equal]. }
      assert (Hc : diff_step prev [] (c, set_nth l n (i, st')) = [(c, [(i, st')])]).
      { unfold diff_step; cbn beta iota.
        rewrite (Hin c l) by (unfold prev; apply in_or_app; right; left; reflexivity).
        rewrite diff_pairs_none by reflexivity.
        rewrite (changed_set_nth l n (i, st) (i, st')) by (auto; congruence).
        reflexivity. }
      cbn [fold_left]; rewrite Hc.
      apply diff_fold_unchanged, Forall_forall; intros [k v] Hk; exists v; split;
        [apply Hin; unfold prev; apply in_or_app; right; right; exact Hk
        | apply combine_self_equal]. }
    split; [exact Hd|].
    simpl; unfold update_calls; rewrite Hd; simpl.
    destruct (updates_loop 5 _ 0 rest); reflexivity.
Qed.

(** C10: in the diff, a category present in both snapshots is compared
    through [zip], up to the shorter of the two entry lists: entries past
    the common length (new ones in the current snapshot, or vanished ones
    of the previous snapshot) never reach the delta, and a change of
    length alone, with the common entries unchanged, gives an empty delta
    and no update callback. *)
Theorem diff_zip_truncates :
  (forall d1 cur_l prev_l upd,
     diff_pairs d1 (combine cur_l prev_l) upd
     = diff_pairs d1 (combine (firstn (length prev_l) cur_l)
                              (firstn (length cur_l) prev_l)) upd) /\
  (forall d1 cur_l prev_l extra upd,
     length cur_l = length prev_l ->
     diff_pairs d1 (combine (cur_l ++ extra) prev_l) upd
       = diff_pairs d1 (combine cur_l prev_l) upd /\
     diff_pairs d1 (combine cur_l (prev_l ++ extra)) upd
       = diff_pairs d1 (combine cur_l prev_l) upd) /\
  (forall cur prev rc rest,
     Forall (fun kv => exists pl x, dict_get (fst kv) prev = Some pl /\
                                    (snd kv = pl ++ x \/ pl = snd kv ++ x)) cur ->
     diff cur prev = [] /\
     updates_loop 5 prev rc (WaitTimedOut (Ret cur) :: rest)
     = updates_loop 5 cur 0 rest).
Proof.
  split; [|split].
  - intros; rewrite <- combine_firstn; reflexivity.
  - intros d1 cur_l prev_l extra upd Hlen.
    rewrite combine_app_l, combine_app_r by exact Hlen; auto.
  - intros cur prev rc rest H.
    assert (Hd : diff cur prev = []).
    { apply diff_fold_unchanged.
      eapply Forall_impl; [|exact H]; intros [k v] [pl [x [Hg Hx]]]; simpl in *.
      exists pl; split; [exact Hg|].
      destruct Hx as [-> | ->].
      - rewrite combine_app_l by reflexivity; apply combine_self_equal.
      - rewrite combine_app_r by reflexivity; apply combine_self_equal. }
    split; [exact Hd|].
    simpl; unfold update_calls; rewrite Hd; simpl.
    destruct (updates_loop 5 cur 0 rest); reflexivity.
Qed.

(** ** The session *)

(** C7: [login] on a logged-in session raises the already-logged-in
    error with no effect and no change of state; [logout], [get_info],
    [set_area_action], [get_updates] and [cancel_updates] on a session
    that is not logged in raise the not-logged-in error, again with no
    effect and no change of state. *)
Theorem state_guards :
  (forall E s user pwd ka,
     logged_in s = true ->
     login E user pwd ka s
     = (Raise (Paradox_IP150_Error
                 (of_string "Already logged in; please use logout() first.")), s, [])) /\
  (forall E s,
     logged_in s = false ->
     logout E s = (Raise not_logged_in_error, s, []) /\
     get_info E s = (Raise not_logged_in_error, s, []) /\
     (forall area action,
        set_area_action E area action s = (Raise not_logged_in_error, s, [])) /\
     (forall on_update poll_interval,
        get_updates on_update poll_interval s = (Raise not_logged_in_error, s, [])) /\
     cancel_updates s = (Raise not_logged_in_error, s, [])).
Proof.
  split.
  - intros E s user pwd ka H.
    unfold login, bind, get; rewrite H; reflexivity.
  - intros E s H.
    unfold logout, get_info, set_area_action, get_updates, cancel_updates,
      logged_only, bind, get, perr, raise.
    rewrite H; repeat split; reflexivity.
Qed.

(** C6: when [logout] runs on a logged-in session and the panel answers
    the logout request with a status other than 200, the keepalive
    thread has already been cancelled and joined and its handle cleared,
    a running poller has been signalled and its handle cleared, and the
    error is raised while the session is still logged in. *)
Theorem logout_http_failure :
  forall E s text code,
    logged_in s = true ->
    server E (ip150url s ++ of_string "/logout.html") [] = Response text code ->
    code <> 200 ->
    let '(r, s', effs) := logout E s in
    r = Raise (Paradox_IP150_Error (of_string "Error logging out")) /\
    logged_in s' = true /\
    keepalive_h s' = None /\
    updates s' = None /\
    stop_updates s' = stop_updates s || is_some (updates s) /\
    effs = (if is_some (keepalive_h s) then [KeepaliveCancel; KeepaliveJoin] else [])
           ++ (if is_some (updates s) then [StopUpdatesSet] else [])
           ++ [HttpGet (ip150url s ++ of_string "/logout.html") []].
Proof.
  intros E [url li ka up st] text code Hli Hsrv Hcode; simpl in *; subst li.
  destruct ka, up; cbn -[of_string]; rewrite Hsrv; cbn -[of_string];
    replace (code =? 200) with false by (symmetry; apply Z.eqb_neq; exact Hcode);
    cbn -[of_string]; repeat split; try reflexivity; destruct st; reflexivity.
Qed.

(** ** The status decoder *)

Lemma enumerate1_nth {A} (l : list A) k :
  nth_error (enumerate1 l) k = option_map (fun v => (Z.of_nat k + 1, v)) (nth_error l k).
Proof.
  unfold enumerate1.
  assert (G : forall s, nth_error (combine (map (fun k => Z.of_nat k + 1) (seq s (length l))) l) k
                        = option_map (fun v => (Z.of_nat (s + k) + 1, v)) (nth_error l k)).
  { revert k; induction l as [|x l IH]; intros [|k] s; simpl; auto.
    - rewrite Nat.add_0_r; reflexivity.
    - rewrite IH; destruct (nth_error l k); simpl; [do 2 f_equal; lia | reflexivity]. }
  apply G.
Qed.

Lemma map_codes_nth m codes names k x :
  map_codes m codes = JOk names -> nth_error codes k = Some x ->
  exists v, py_key_lookup m x = JOk v /\ nth_error names k = Some (of_string v).
Proof.
  revert names k; induction codes as [|c codes IH]; intros names [|k] Hm Hk;
    simpl in *; try discriminate.
  - injection Hk as ->.
    destruct (py_key_lookup m x) as [v|]; [|discriminate].
    destruct (map_codes m codes); [|discriminate].
    injection Hm as <-; exists v; auto.
  - destruct (py_key_lookup m c); [|discriminate].
    destruct (map_codes m codes) as [r|] eqn:Er; [|discriminate].
    injection Hm as <-; simpl; apply (IH r k eq_refl Hk).
Qed.

Lemma decode_tables_ok script res :
  decode_tables tables_map script [] = Ret res ->
  exists zs zn as_ an,
    js2array (of_string "tbl_statuszone") script = Ret zs /\
    map_codes zones_map zs = JOk zn /\
    js2array (of_string "tbl_useraccess") script = Ret as_ /\
    map_codes areas_map as_ = JOk an /\
    res = [(of_string "zones_status", enumerate1 zn);
           (of_string "areas_status", enumerate1 an)].
Proof.
  unfold tables_map; cbn [decode_tables].
  destruct (js2array (of_string "tbl_statuszone") script) as [zs|e] eqn:Ez; [|discriminate].
  destruct (map_codes zones_map zs) as [zn|] eqn:Ezn; [|discriminate].
  destruct (js2array (of_string "tbl_useraccess") script) as [as_|e] eqn:Ea; [|discriminate].
  destruct (map_codes areas_map as_) as [an|] eqn:Ean; [|discriminate].
  intros H; injection H as <-.
  exists zs, zn, as_, an; repeat split; auto.
Qed.

Lemma array_items_list f s acc v r :
  array_items f s acc = JOk (v, r) -> exists l, v = JList l.
Proof.
  revert s acc; induction f as [|f IH]; intros s acc; [discriminate|].
  cbn [array_items].
  destruct (scan_once f s) as [[v' r']|e]; [|discriminate].
  destruct (skip_ws r') as [|c u]; [discriminate|].
  destruct (c =? 93); [intros H; injection H as <- _; eauto|].
  destruct (c =? 44); [apply IH | discriminate].
Qed.

Lemma json_loads_bracket s v : json_loads (91 :: s) = JOk v -> exists l, v = JList l.
Proof.
  unfold json_loads; cbv beta iota; change (skip_ws (91 :: s)) with (91 :: s).
  set (n := Nat.mul 2 (length (91 :: s))).
  change (scan_once (S n) (91 :: s)) with
    (match skip_ws s with
     | c' :: r => if c' =? 93 then JOk (JList [], r) else array_items n (c' :: r) []
     | [] => array_items n [] []
     end).
  destruct (skip_ws s) as [|c t]; [|destruct (c =? 93)].
  - destruct (array_items _ [] []) as [[w r]|e] eqn:Ex; [|discriminate].
    destruct (skip_ws r); [|discriminate]; intros H; injection H as <-.
    exact (array_items_list _ _ _ _ _ Ex).
  - destruct (skip_ws t); [|discriminate]; intros H; injection H as <-; eauto.
  - destruct (array_items _ (c :: t) []) as [[w r]|e] eqn:Ex; [|discriminate].
    destruct (skip_ws r); [|discriminate]; intros H; injection H as <-.
    exact (array_items_list _ _ _ _ _ Ex).
Qed.

(** C8: on a logged-in session, a status page with the [statuslive]
    form whose script declares [tbl_statuszone = new Array(0,0,1);] and
    [tbl_useraccess = new Array(9,8,0,0);] decodes to the zones
    [(1,Closed),(2,Closed),(3,Open)] and the areas
    [(1,Not_ready),(2,Ready),(3,Unset),(4,Unset)]. In general every
    successful decode pairs the [k]-th value of each array (counting from
    0) with the position [k + 1] and the state [map[x]] finds for that
    value, in the order of the array; the values are whatever [json.loads]
    decodes, so a code may also be written as a float or a boolean equal
    to it. *)
Theorem get_info_decode :
  (forall E s text code,
     logged_in s = true ->
     server E (ip150url s ++ of_string "/statuslive.html") [] = Response text code ->
     parse_html E text = example_doc ->
     get_info E s
     = (Ret [(of_string "zones_status",
              [(1, of_string "Closed"); (2, of_string "Closed"); (3, of_string "Open")]);
             (of_string "areas_status",
              [(1, of_string "Not_ready"); (2, of_string "Ready");
               (3, of_string "Unset"); (4, of_string "Unset")])],
        s, [HttpGet (ip150url s ++ of_string "/statuslive.html") []])) /\
  (forall E s res s' effs,
     get_info E s = (Ret res, s', effs) ->
     exists script zs zn as_ an,
       first_script (parse_html E (match server E (ip150url s ++ of_string "/statuslive.html") [] with
                                   | Response t _ => t | _ => [] end)) = Some script /\
       js2array (of_string "tbl_statuszone") script = Ret zs /\
       map_codes zones_map zs = JOk zn /\
       js2array (of_string "tbl_useraccess") script = Ret as_ /\
       map_codes areas_map as_ = JOk an /\
       res = [(of_string "zones_status", enumerate1 zn);
              (of_string "areas_status", enumerate1 an)] /\
       (forall k x, nth_error zs k = Some x ->
          exists v, py_key_lookup zones_map x = JOk v /\
                    nth_error (enumerate1 zn) k = Some (Z.of_nat k + 1, of_string v)) /\
       (forall k x, nth_error as_ k = Some x ->
          exists v, py_key_lookup areas_map x = JOk v /\
                    nth_error (enumerate1 an) k = Some (Z.of_nat k + 1, of_string v))).
Proof.
  split.
  - intros E [url li ka up st] text code Hli Hsrv Hdoc; simpl in *; subst li.
    unfold get_info, logged_only, bind, get, requests_get, emit, ret; cbn -[of_string decode_tables].
    rewrite Hsrv; cbn -[of_string decode_tables]; rewrite Hdoc.
    vm_compute; reflexivity.
  - intros E [url li ka up st] res s' effs H; simpl in *.
    unfold get_info, logged_only, bind, get, requests_get, emit, ret in H.
    cbn -[of_string decode_tables] in H.
    destruct li; [|discriminate].
    cbn -[of_string decode_tables] in H.
    destruct (server E (url ++ of_string "/statuslive.html") []) as [text code| |];
      cbn -[of_string decode_tables] in H; try discriminate.
    destruct (has_statuslive_form (parse_html E text)); cbn -[of_string decode_tables] in H;
      [|discriminate].
    destruct (first_script (parse_html E text)) as [script|]; cbn -[of_string decode_tables] in H;
      [|discriminate].
    destruct (decode_tables tables_map script []) as [r|e] eqn:Ed;
      cbn -[of_string decode_tables] in H; [|discriminate].
    injection H as -> _ _.
    destruct (decode_tables_ok script _ Ed) as [zs [zn [as_ [an [H1 [H2 [H3 [H4 H5]]]]]]]].
    exists script, zs, zn, as_, an; repeat split; auto.
    + intros k x Hk; destruct (map_codes_nth _ _ _ _ _ H2 Hk) as [v [Hv Hn]].
      exists v; split; [exact Hv|]; rewrite enumerate1_nth, Hn; reflexivity.
    + intros k x Hk; destruct (map_codes_nth _ _ _ _ _ H4 Hk) as [v [Hv Hn]].
      exists v; split; [exact Hv|]; rewrite enumerate1_nth, Hn; reflexivity.
Qed.

(** ** The action dispatcher *)

Lemma str_lookup_not_in action :
  ~ In action (map (fun kv => of_string (fst kv)) areas_action_map) ->
  str_lookup areas_action_map action = None.
Proof.
  intros Hn; unfold areas_action_map in *; simpl in Hn; cbn [str_lookup].
  repeat match goal with
         | |- context [pystr_eqb ?a action] =>
             let E := fresh in
             destruct (pystr_eqb a action) eqn:E;
             [apply pystr_eqb_eq in E; exfalso; apply Hn; tauto|]
         end.
  reflexivity.
Qed.

(** C9 (counterexample): area [0] together with the unknown action
    ["test"] raises the invalid-area error, not the invalid-action
    error: the area is checked first. *)
Lemma set_area_action_area_checked_first :
  fst (fst (set_area_action (const_env 200 example_doc) (AreaInt 0) (of_string "test")
                            logged_session))
  = Raise (Paradox_IP150_Error (of_string "Invalid area provided.")) /\
  Raise (Paradox_IP150_Error (of_string "Invalid area provided."))
  <> Raise (A := unit) (Paradox_IP150_Error (invalid_action_msg (of_string "test"))).
Proof.
  split; [reflexivity|].
  intros H; vm_compute in H; discriminate H.
Qed.

(** C9 (amended): on a logged-in session, area [1] with action ["Arm"]
    issues exactly one request, to [/statuslive.html] with the parameters
    [{area: "00", value: "r"}]; every area [<= 0] raises
    ["Invalid area provided."] before any request, whatever the action;
    and for every area [>= 1], every action outside
    [{Disarm, Arm, Arm_sleep, Arm_stay}] raises the invalid-action error,
    whose message lists the four valid names, before any request. *)
Theorem set_area_action_spec :
  (forall E s,
     logged_in s = true ->
     let '(_, s', effs) := set_area_action E (AreaInt 1) (of_string "Arm") s in
     s' = s /\
     effs = [HttpGet (ip150url s ++ of_string "/statuslive.html")
                     [(of_string "area", of_string "00"); (of_string "value", of_string "r")]]) /\
  (forall E s area action,
     logged_in s = true -> area <= 0 ->
     set_area_action E (AreaInt area) action s
     = (Raise (Paradox_IP150_Error (of_string "Invalid area provided.")), s, [])) /\
  (forall E s area action,
     logged_in s = true -> 1 <= area ->
     ~ In action (map (fun kv => of_string (fst kv)) areas_action_map) ->
     set_area_action E (AreaInt area) action s
     = (Raise (Paradox_IP150_Error (invalid_action_msg action)), s, [])) /\
  (forall action,
     invalid_action_msg action
     = of_string "Invalid action " ++ q34 ++ action ++ q34
       ++ of_string " provided. Valid actions are ['Disarm', 'Arm', 'Arm_sleep', 'Arm_stay']").
Proof.
  split; [|split; [|split]].
  - intros E [url li ka up st] Hli; simpl in Hli; subst li.
    unfold set_area_action, logged_only, bind, get, requests_get, emit, ret.
    change (str_lookup areas_action_map (of_string "Arm")) with (Some "r"%string).
    change (fmt_02d (1 - 1)) with (of_string "00").
    cbn -[of_string].
    destruct (server E (url ++ of_string "/statuslive.html")
                [(of_string "area", of_string "00"); (of_string "value", of_string "r")])
      as [t c| |]; cbn -[of_string]; [destruct (c =? 200)|..];
      cbn -[of_string]; split; reflexivity.
  - intros E s area action Hli Ha.
    unfold set_area_action, logged_only, bind, get, perr, raise; rewrite Hli; cbn -[of_string].
    replace (area - 1 <? 0) with true by (symmetry; apply Z.ltb_lt; lia); reflexivity.
  - intros E s area action Hli Ha Hn.
    unfold set_area_action, logged_only, bind, get, perr, raise; rewrite Hli;
      cbn -[of_string str_lookup].
    replace (area - 1 <? 0) with false by (symmetry; apply Z.ltb_ge; lia).
    rewrite str_lookup_not_in by exact Hn; reflexivity.
  - intros action; unfold invalid_action_msg.
    replace valid_actions_repr with (of_string "['Disarm', 'Arm', 'Arm_sleep', 'Arm_stay']")
      by (vm_compute; reflexivity).
    reflexivity.
Qed.

(** ** Restarting the poller *)

Lemma get_updates_body_raised on_error m ticks s e :
  snd (updates_loop m [] 0 ticks) = LoopRaised e ->
  exists effs, get_updates_body on_error m ticks s = (Ret tt, set_stop s false, effs).
Proof.
  intros H; unfold get_updates_body.
  destruct (updates_loop m [] 0 ticks) as [effs fin]; simpl in H; subst fin.
  unfold bind at 1; rewrite emit_all.
  destruct on_error; eexists; reflexivity.
Qed.

Lemma get_updates_ok on_update pi s s1 effs :
  get_updates on_update pi s = (Ret tt, s1, effs) ->
  logged_in s = true /\ updates s = None /\
  s1 = set_updates s (Some (UpdatesThread pi)) /\ effs = [ThreadStart].
Proof.
  unfold get_updates, logged_only, bind, get, perr, raise, put, emit.
  destruct (logged_in s); [|discriminate].
  destruct on_update; [|discriminate]; simpl.
  destruct (Qle_bool pi 0); [discriminate|].
  destruct (updates s); [discriminate|].
  intros H; injection H as <- <-; auto.
Qed.

(** C5 (counterexample): a poller started by [get_updates] on a
    logged-in session that then fails six times in a row leaves the
    session logged in with [_stop_updates] cleared, but a new
    [get_updates] call without [cancel_updates] is rejected with
    ["Already getting updates."]. *)
Lemma poller_restart_rejected :
  match get_updates true 1%Q logged_session with
  | (Ret _, s1, _) =>
      match get_updates_body true 5 (fetch_failures (repeat [] 6)) s1 with
      | (Ret _, s2, _) =>
          logged_in s2 = true /\ stop_updates s2 = false /\
          fst (fst (get_updates true 1%Q s2))
          = Raise (Paradox_IP150_Error (of_string "Already getting updates."))
      | _ => False
      end
  | _ => False
  end.
Proof. vm_compute; repeat split; reflexivity. Qed.

(** C5 (amended): when the poller started by [get_updates] exits
    because the retries are exhausted, [_stop_updates] is cleared and the
    session stays logged in, but the handle [_updates] of the finished
    thread is kept: [get_updates] is rejected with
    ["Already getting updates."] until [cancel_updates] is called, after
    which [get_updates] is accepted again. *)
Theorem poller_exhaustion_keeps_handle :
  forall (on_error : bool) s s1 effs pi ticks pi',
    get_updates true pi s = (Ret tt, s1, effs) ->
    snd (updates_loop 5 [] 0 ticks) = LoopRaised max_retry_error ->
    Qlt 0 pi' ->
    let '(_, s2, _) := get_updates_body on_error 5 ticks s1 in
    logged_in s2 = true /\ stop_updates s2 = false /\
    updates s2 = Some (UpdatesThread pi) /\
    get_updates true pi' s2
      = (Raise (Paradox_IP150_Error (of_string "Already getting updates.")), s2, []) /\
    exists s3, cancel_updates s2 = (Ret tt, s3, [StopUpdatesSet]) /\
               exists s4, get_updates true pi' s3 = (Ret tt, s4, [ThreadStart]).
Proof.
  intros on_error s s1 effs pi ticks pi' Hstart Hloop Hpi.
  destruct (get_updates_ok _ _ _ _ _ Hstart) as [Hli [Hup [-> ->]]].
  destruct (get_updates_body_raised on_error 5 ticks
              (set_updates s (Some (UpdatesThread pi))) _ Hloop) as [effs' ->].
  assert (Hq : Qle_bool pi' 0 = false).
  { destruct (Qle_bool pi' 0) eqn:E; [|reflexivity].
    apply Qle_bool_iff in E; exfalso; apply (Qlt_not_le _ _ Hpi E). }
  destruct s as [url li ka up st]; simpl in *; subst li up.
  repeat split.
  - unfold get_updates, logged_only, bind, get, perr, raise; simpl; rewrite Hq; reflexivity.
  - eexists; split; [reflexivity|].
    unfold get_updates, logged_only, bind, get, put, emit; simpl; rewrite Hq.
    eexists; reflexivity.
Qed.

(** * Instances of the claims at concrete inputs *)

Lemma updates_retry_bound_witness :
  updates_loop 5 [] 0 [WaitTimedOut (Ret [(zones_key, test_zones)])]
    = ([CallOnUpdate [(zones_key, test_zones)]], LoopRunning [(zones_key, test_zones)] 0) /\
  length (repeat (@nil Z) 6) = 6%nat /\
  get_updates_body true 5
    ([WaitTimedOut (Ret [(zones_key, test_zones)])] ++ fetch_failures (repeat [] 6) ++ [])
    logged_session
  = (Ret tt, set_stop logged_session false,
     [CallOnUpdate [(zones_key, test_zones)]] ++ [CallOnError max_retry_error]
       ++ [StopUpdatesClear]).
Proof.
  assert (H1 : updates_loop 5 [] 0 [WaitTimedOut (Ret [(zones_key, test_zones)])]
               = ([CallOnUpdate [(zones_key, test_zones)]], LoopRunning [(zones_key, test_zones)] 0))
    by (vm_compute; reflexivity).
  assert (H2 : length (repeat (@nil Z) 6) = 6%nat) by reflexivity.
  split; [exact H1|]; split; [exact H2|].
  exact (proj2 (proj2 (proj2 (proj2 updates_retry_bound)) true logged_session _ _ _ _ [] H1 H2)).
Defined.

Lemma updates_diff_law_witness :
  NoDup (map fst ([] ++ (zones_key, test_zones) :: [(areas_key, test_areas)])) /\
  nth_error test_zones 2 = Some (3, of_string "Open") /\
  of_string "Open" <> of_string "Closed" /\
  diff ([] ++ (zones_key, set_nth test_zones 2 (3, of_string "Closed")) :: [(areas_key, test_areas)])
       ([] ++ (zones_key, test_zones) :: [(areas_key, test_areas)])
  = [(zones_key, [(3, of_string "Closed")])].
Proof.
  assert (H1 : NoDup (map fst ([] ++ (zones_key, test_zones) :: [(areas_key, test_areas)]))).
  { simpl; constructor; [simpl; intros [H|H]; [vm_compute in H; discriminate H | exact H]|].
    constructor; [intros []| constructor]. }
  assert (H2 : nth_error test_zones 2 = Some (3, of_string "Open")) by reflexivity.
  assert (H3 : of_string "Open" <> of_string "Closed") by (intros H; vm_compute in H; discriminate H).
  split; [exact H1|]; split; [exact H2|]; split; [exact H3|].
  exact (proj1 (proj2 (proj2 updates_diff_law) [] [(areas_key, test_areas)] zones_key test_zones
                  2%nat 3 (of_string "Open") (of_string "Closed") 0 [] H1 H2 H3)).
Defined.

Lemma ksa_visits_key_indices_witness :
  (length test_key <= 256)%nat /\
  exists st, ksa test_key = Some st /\
             ksa_visited st = rev (py_range (Z.of_nat (length test_key))) /\
             length (ksa_visited st) = length test_key.
Proof.
  assert (H : (length test_key <= 256)%nat) by (vm_compute; lia).
  split; [exact H|].
  exact (proj1 (ksa_visits_key_indices test_key) H).
Defined.

Lemma poller_exhaustion_keeps_handle_witness :
  get_updates true 1%Q logged_session
    = (Ret tt, set_updates logged_session (Some (UpdatesThread 1)), [ThreadStart]) /\
  snd (updates_loop 5 [] 0 (fetch_failures (repeat [] 6))) = LoopRaised max_retry_error /\
  Qlt 0 1 /\
  let '(_, s2, _) := get_updates_body true 5 (fetch_failures (repeat [] 6))
                       (set_updates logged_session (Some (UpdatesThread 1))) in
  logged_in s2 = true /\ stop_updates s2 = false /\
  updates s2 = Some (UpdatesThread 1) /\
  get_updates true 1%Q s2
    = (Raise (Paradox_IP150_Error (of_string "Already getting updates.")), s2, []) /\
  exists s3, cancel_updates s2 = (Ret tt, s3, [StopUpdatesSet]) /\
             exists s4, get_updates true 1%Q s3 = (Ret tt, s4, [ThreadStart]).
Proof.
  assert (H1 : get_updates true 1%Q logged_session
               = (Ret tt, set_updates logged_session (Some (UpdatesThread 1)), [ThreadStart]))
    by reflexivity.
  assert (H2 : snd (updates_loop 5 [] 0 (fetch_failures (repeat [] 6))) = LoopRaised max_retry_error)
    by reflexivity.
  assert (H3 : Qlt 0 1) by reflexivity.
  split; [exact H1|]; split; [exact H2|]; split; [exact H3|].
  exact (poller_exhaustion_keeps_handle true logged_session _ _ 1%Q _ 1%Q H1 H2 H3).
Defined.

Lemma logout_http_failure_witness :
  logged_in busy_session = true /\
  server (const_env 404 example_doc) (ip150url busy_session ++ of_string "/logout.html") []
    = Response [] 404 /\
  404 <> 200 /\
  let '(r, s', effs) := logout (const_env 404 example_doc) busy_session in
  r = Raise (Paradox_IP150_Error (of_string "Error logging out")) /\
  logged_in s' = true /\ keepalive_h s' = None /\ updates s' = None /\
  stop_updates s' = stop_updates busy_session || is_some (updates busy_session) /\
  effs = (if is_some (keepalive_h busy_session) then [KeepaliveCancel; KeepaliveJoin] else [])
         ++ (if is_some (updates busy_session) then [StopUpdatesSet] else [])
         ++ [HttpGet (ip150url busy_session ++ of_string "/logout.html") []].
Proof.
  assert (H1 : logged_in busy_session = true) by reflexivity.
  assert (H2 : server (const_env 404 example_doc)
                 (ip150url busy_session ++ of_string "/logout.html") [] = Response [] 404)
    by reflexivity.
  assert (H3 : 404 <> 200) by lia.
  split; [exact H1|]; split; [exact H2|]; split; [exact H3|].
  exact (logout_http_failure (const_env 404 example_doc) busy_session [] 404 H1 H2 H3).
Defined.

Lemma state_guards_witness :
  logged_in logged_session = true /\
  login (const_env 200 example_doc) (of_string "1234") (of_string "test") 5%Q logged_session
    = (Raise (Paradox_IP150_Error
                (of_string "Already logged in; please use logout() first.")), logged_session, []) /\
  logged_in (new_session test_url) = false /\
  logout (const_env 200 example_doc) (new_session test_url)
    = (Raise not_logged_in_error, new_session test_url, []).
Proof.
  assert (H1 : logged_in logged_session = true) by reflexivity.
  assert (H2 : logged_in (new_session test_url) = false) by reflexivity.
  split; [exact H1|]; split;
    [exact (proj1 state_guards (const_env 200 example_doc) logged_session
              (of_string "1234") (of_string "test") 5%Q H1)|].
  split; [exact H2|].
  exact (proj1 (proj2 state_guards (const_env 200 example_doc) (new_session test_url) H2)).
Defined.

Lemma get_info_decode_witness :
  logged_in logged_session = true /\
  server (const_env 200 example_doc) (ip150url logged_session ++ of_string "/statuslive.html") []
    = Response [] 200 /\
  parse_html (const_env 200 example_doc) [] = example_doc /\
  get_info (const_env 200 example_doc) logged_session
  = (Ret [(of_string "zones_status",
           [(1, of_string "Closed"); (2, of_string "Closed"); (3, of_string "Open")]);
          (of_string "areas_status",
           [(1, of_string "Not_ready"); (2, of_string "Ready");
            (3, of_string "Unset"); (4, of_string "Unset")])],
     logged_session, [HttpGet (ip150url logged_session ++ of_string "/statuslive.html") []]).
Proof.
  assert (H1 : logged_in logged_session = true) by reflexivity.
  assert (H2 : server (const_env 200 example_doc)
                 (ip150url logged_session ++ of_string "/statuslive.html") [] = Response [] 200)
    by reflexivity.
  assert (H3 : parse_html (const_env 200 example_doc) [] = example_doc) by reflexivity.
  split; [exact H1|]; split; [exact H2|]; split; [exact H3|].
  exact (proj1 get_info_decode (const_env 200 example_doc) logged_session [] 200 H1 H2 H3).
Defined.

Lemma set_area_action_spec_witness :
  logged_in logged_session = true /\ 1 <= 2 /\
  ~ In (of_string "test") (map (fun kv => of_string (fst kv)) areas_action_map) /\
  set_area_action (const_env 200 example_doc) (AreaInt 2) (of_string "test") logged_session
  = (Raise (Paradox_IP150_Error (invalid_action_msg (of_string "test"))), logged_session, []).
Proof.
  assert (H1 : logged_in logged_session = true) by reflexivity.
  assert (H2 : 1 <= 2) by lia.
  assert (H3 : ~ In (of_string "test") (map (fun kv => of_string (fst kv)) areas_action_map)).
  { intros H; simpl in H; repeat (destruct H as [H|H]; [discriminate H|]); exact H. }
  split; [exact H1|]; split; [exact H2|]; split; [exact H3|].
  exact (proj1 (proj2 (proj2 set_area_action_spec)) (const_env 200 example_doc) logged_session
           2 (of_string "test") H1 H2 H3).
Defined.

Lemma diff_zip_truncates_witness :
  Forall (fun kv => exists pl x, dict_get (fst kv) [(zones_key, test_zones)] = Some pl /\
                                 (snd kv = pl ++ x \/ pl = snd kv ++ x))
         [(zones_key, test_zones ++ [(4, of_string "Open")])] /\
  diff [(zones_key, test_zones ++ [(4, of_string "Open")])] [(zones_key, test_zones)] = [].
Proof.
  assert (H : Forall (fun kv => exists pl x, dict_get (fst kv) [(zones_key, test_zones)] = Some pl /\
                                 (snd kv = pl ++ x \/ pl = snd kv ++ x))
                [(zones_key, test_zones ++ [(4, of_string "Open")])]).
  { constructor; [|constructor].
    exists test_zones, [(4, of_string "Open")]; split; [vm_compute; reflexivity | left; reflexivity]. }
  split; [exact H|].
  exact (proj1 (proj2 (proj2 diff_zip_truncates) _ _ 0 [] H)).
Defined.

(** * Further properties of the client and of the MQTT adapter *)

(** ** Lemmas: list updates and the swap *)

Lemma set_nth_app_len {A} (P R : list A) x v :
  set_nth (P ++ x :: R) (length P) v = P ++ v :: R.
Proof. induction P as [|y P IH]; simpl; [reflexivity | rewrite IH; reflexivity]. Qed.

Lemma set_nth_same {A} (l : list A) k x : nth_error l k = Some x -> set_nth l k x = l.
Proof.
  revert k; induction l as [|y l IH]; intros [|k] H; simpl in *; try discriminate.
  - injection H as ->; reflexivity.
  - rewrite IH; auto.
Qed.

Lemma set_nth_twice {A} (l : list A) k v w : set_nth (set_nth l k v) k w = set_nth l k w.
Proof. revert k; induction l as [|y l IH]; intros [|k]; simpl; f_equal; auto. Qed.

Lemma perm_swap_mid {A} (P B C : list A) x y :
  Permutation (P ++ x :: B ++ y :: C) (P ++ y :: B ++ x :: C).
Proof.
  apply Permutation_app_head.
  transitivity (x :: y :: B ++ C); [apply perm_skip; symmetry; apply Permutation_middle|].
  transitivity (y :: x :: B ++ C); [apply perm_swap|].
  apply perm_skip; apply Permutation_middle.
Qed.

Lemma swap_nat_perm (l : list Z) a b x y :
  nth_error l a = Some x -> nth_error l b = Some y ->
  Permutation l (set_nth (set_nth l a y) b x).
Proof.
  intros Ha Hb.
  destruct (Nat.lt_total a b) as [Hlt|[->|Hgt]].
  - destruct (nth_error_split l a Ha) as [P [R [-> HP]]].
    assert (HR : nth_error R (b - a - 1) = Some y).
    { rewrite nth_error_app2 in Hb by lia.
      replace (b - length P)%nat with (S (b - a - 1)) in Hb by lia; exact Hb. }
    destruct (nth_error_split R _ HR) as [B [C [-> HB]]].
    subst a. rewrite set_nth_app_len.
    replace b with (length (P ++ y :: B)) by (rewrite length_app; simpl; lia).
    replace (P ++ y :: B ++ y :: C) with ((P ++ y :: B) ++ y :: C)
      by (rewrite <- app_assoc; reflexivity).
    rewrite set_nth_app_len, <- app_assoc; simpl.
    apply perm_swap_mid.
  - rewrite Ha in Hb; injection Hb as ->.
    rewrite set_nth_twice, set_nth_same by exact Ha; reflexivity.
  - destruct (nth_error_split l b Hb) as [P [R [-> HP]]].
    assert (HR : nth_error R (a - b - 1) = Some x).
    { rewrite nth_error_app2 in Ha by lia.
      replace (a - length P)%nat with (S (a - b - 1)) in Ha by lia; exact Ha. }
    destruct (nth_error_split R _ HR) as [B [C [-> HB]]].
    subst b.
    replace a with (length (P ++ y :: B)) by (rewrite length_app; simpl; lia).
    replace (P ++ y :: B ++ x :: C) with ((P ++ y :: B) ++ x :: C)
      by (rewrite <- app_assoc; reflexivity).
    rewrite set_nth_app_len.
    replace ((P ++ y :: B) ++ y :: C) with (P ++ y :: B ++ y :: C)
      by (rewrite <- app_assoc; reflexivity).
    rewrite set_nth_app_len, <- app_assoc.
    apply perm_swap_mid.
Qed.

Lemma py_get_index (l : list Z) i v :
  py_get l i = Some v ->
  exists k, nth_error l k = Some v /\
            forall (l1 : list Z) w, length l1 = length l -> py_set l1 i w = Some (set_nth l1 k w).
Proof.
  unfold py_get, py_set; intros H.
  destruct ((0 <=? i) && (i <? Z.of_nat (length l))) eqn:C1.
  - exists (Z.to_nat i); split; [exact H|]; intros l1 w L; rewrite L, C1; reflexivity.
  - destruct ((- Z.of_nat (length l) <=? i) && (i <? 0)) eqn:C2; [|discriminate].
    exists (Z.to_nat (Z.of_nat (length l) + i)); split; [exact H|].
    intros l1 w L; rewrite L, C1, C2; reflexivity.
Qed.

Lemma py_swap_perm (l : list Z) i j l' : py_swap l i j = Some l' -> Permutation l l'.
Proof.
  unfold py_swap.
  destruct (py_get l j) as [sj|] eqn:Gj; [|discriminate].
  destruct (py_get l i) as [si|] eqn:Gi; [|discriminate].
  destruct (py_get_index _ _ _ Gj) as [kj [Nj Sj]].
  destruct (py_get_index _ _ _ Gi) as [ki [Ni Si]].
  rewrite (Si l sj eq_refl); simpl.
  rewrite (Sj (set_nth l ki sj) si (set_nth_length _ _ _)).
  intros H; injection H as <-.
  apply swap_nat_perm; assumption.
Qed.

Lemma ksa_fold_perm key l st st' :
  fold_left (ksa_step key) l (Some st) = Some st' -> Permutation (ksa_S st) (ksa_S st').
Proof.
  revert st; induction l as [|i l IH]; intros st H; simpl in H.
  - injection H as <-; reflexivity.
  - idtac.
    destruct (py_get (ksa_S st) i) as [si|]; [|rewrite ksa_fold_none in H; discriminate].
    destruct (py_get key i) as [ki|]; [|rewrite ksa_fold_none in H; discriminate].
    destruct (py_swap (ksa_S st) i ((ksa_j st + si + ki) mod 256)) as [S'|] eqn:Sw;
      [|rewrite ksa_fold_none in H; discriminate].
    apply IH in H; simpl in H.
    eapply perm_trans; [apply (py_swap_perm _ _ _ _ Sw) | exact H].
Qed.

(** A permutation of [range(256)]: 256 entries, each in [0, 256). *)
Lemma perm256_length S0 : Permutation (py_range 256) S0 -> length S0 = 256%nat.
Proof. intros H; apply Permutation_length in H; rewrite <- H; reflexivity. Qed.

Lemma perm256_elem S0 x : Permutation (py_range 256) S0 -> In x S0 -> 0 <= x < 256.
Proof.
  intros H Hx; apply (Permutation_in _ (Permutation_sym H)) in Hx.
  unfold py_range in Hx; apply in_map_iff in Hx as [k [<- Hk]]; apply in_seq in Hk.
  simpl in Hk; lia.
Qed.

Lemma perm256_get S0 k :
  Permutation (py_range 256) S0 -> 0 <= k < 256 -> exists v, py_get S0 k = Some v /\ 0 <= v < 256.
Proof.
  intros H Hk.
  destruct (py_get_in_range S0 k) as [v Hv]; [rewrite (perm256_length _ H); lia|].
  exists v; split; [exact Hv|].
  apply (perm256_elem S0); [exact H|].
  unfold py_get in Hv.
  replace ((0 <=? k) && (k <? Z.of_nat (length S0))) with true in Hv
    by (rewrite (perm256_length _ H); symmetry; apply andb_true_intro;
        split; [apply Z.leb_le | apply Z.ltb_lt]; lia).
  eapply nth_error_In; exact Hv.
Qed.

Lemma lxor_byte a b : 0 <= a < 256 -> 0 <= b < 256 -> 0 <= Z.lxor a b < 256.
Proof.
  intros Ha Hb.
  assert (Hnn : 0 <= Z.lxor a b) by (apply Z.lxor_nonneg; split; intros; lia).
  split; [exact Hnn|].
  destruct (Z.eq_dec (Z.lxor a b) 0) as [->|Hne]; [lia|].
  assert (Hpos : 0 < Z.lxor a b) by lia.
  apply (Z.log2_lt_pow2 _ 8 Hpos).
  eapply Z.le_lt_trans; [apply Z.log2_lxor; lia|].
  apply Z.max_lub_lt.
  - destruct (Z.eq_dec a 0) as [->|]; [reflexivity|apply Z.log2_lt_pow2; lia].
  - destruct (Z.eq_dec b 0) as [->|]; [reflexivity|apply Z.log2_lt_pow2; lia].
Qed.

Lemma prga_fold_ok data S0 i j out :
  Permutation (py_range 256) S0 -> 0 <= i ->
  exists S' i' j' bytes,
    fold_left prga_step data (Some (S0, i, j, out)) = Some (S', i', j', out ++ bytes) /\
    Permutation (py_range 256) S' /\ 0 <= i' /\
    length bytes = length data /\
    (Forall byte_range data -> Forall byte_range bytes).
Proof.
  revert S0 i j out; induction data as [|ch data IH]; intros S0 i j out HP Hi; simpl.
  - exists S0, i, j, []; rewrite app_nil_r; repeat split; auto.
  - idtac.
    pose proof (Z.mod_pos_bound i 256 eq_refl) as Hm.
    destruct (perm256_get S0 (i mod 256) HP Hm) as [si [Hsi Rsi]]; rewrite Hsi.
    set (j1 := (j + si) mod 256).
    pose proof (Z.mod_pos_bound (j + si) 256 eq_refl) as Hj1; fold j1 in Hj1.
    destruct (py_swap_in_range S0 (i mod 256) j1) as [S1 [Sw _]];
      [rewrite (perm256_length _ HP); lia | rewrite (perm256_length _ HP); lia|].
    rewrite Sw.
    assert (HP1 : Permutation (py_range 256) S1) by (eapply perm_trans; [exact HP | apply (py_swap_perm _ _ _ _ Sw)]).
    destruct (perm256_get S1 (i mod 256) HP1 Hm) as [si' [Hsi' Rsi']]; rewrite Hsi'.
    destruct (perm256_get S1 j1 HP1 Hj1) as [sj' [Hsj' Rsj']]; rewrite Hsj'.
    pose proof (Z.mod_pos_bound (si' + sj') 256 eq_refl) as Hk.
    destruct (perm256_get S1 ((si' + sj') mod 256) HP1 Hk) as [k [Hkv Rk]]; rewrite Hkv.
    destruct (IH S1 (i mod 256 + 1) j1 (out ++ [Z.lxor ch k]) HP1 ltac:(lia))
      as [S' [i' [j' [bytes [H1 [H2 [H3 [H4 H5]]]]]]]].
    exists S', i', j', (Z.lxor ch k :: bytes).
    rewrite H1, <- app_assoc; simpl.
    split; [reflexivity|]; split; [exact H2|]; split; [exact H3|]; split; [simpl; lia|].
    intros HF; inversion HF as [|? ? Hch HF']; subst.
    constructor; [apply lxor_byte; [exact Hch | exact Rk] | exact (H5 HF')].
Qed.

Lemma fmt_02X_byte x :
  0 <= x < 256 -> length (fmt_02X x) = 2%nat /\ forallb is_upper_hex (fmt_02X x) = true.
Proof.
  intros Hx.
  assert (Hall : forallb (fun y => (length (fmt_02X y) =? 2)%nat && forallb is_upper_hex (fmt_02X y))
                         (py_range 256) = true) by (vm_compute; reflexivity).
  rewrite forallb_forall in Hall.
  assert (Hin : In x (py_range 256)).
  { unfold py_range; apply in_map_iff; exists (Z.to_nat x); split; [lia|].
    apply in_seq; simpl; lia. }
  specialize (Hall x Hin); apply andb_true_iff in Hall as [H1 H2].
  split; [apply Nat.eqb_eq; exact H1 | exact H2].
Qed.

Lemma hex_bytes_shape bytes :
  Forall byte_range bytes ->
  length (flat_map fmt_02X bytes) = (2 * length bytes)%nat /\
  forallb is_upper_hex (flat_map fmt_02X bytes) = true.
Proof.
  induction bytes as [|b bytes IH]; intros HF; [split; reflexivity|].
  inversion HF as [|? ? Hb HF']; subst.
  destruct (fmt_02X_byte b Hb) as [L U]; destruct (IH HF') as [L' U'].
  simpl; rewrite length_app, L, L', forallb_app, U, U'; split; [lia | reflexivity].
Qed.

Lemma ksa_ok_perm key :
  (length key <= 256)%nat ->
  exists st, ksa key = Some st /\ Permutation (py_range 256) (ksa_S st).
Proof.
  intros Hlen; unfold ksa.
  destruct (ksa_fold_ok key (ksa_range key)
              {| ksa_S := py_range 256; ksa_j := 0; ksa_visited := [] |})
    as [st [H1 _]]; [reflexivity| |].
  - eapply Forall_impl; [|apply py_range_down_spec]; simpl; intros; lia.
  - exists st; split; [exact H1|].
    apply (ksa_fold_perm _ _ _ _ H1).
Qed.

Lemma ksa_too_long key : (256 < length key)%nat -> ksa key = None.
Proof.
  intros Hlen; unfold ksa, ksa_range.
  rewrite py_range_down_head by lia; simpl.
  rewrite py_get_above; [apply ksa_fold_none|].
  reflexivity || (simpl; lia).
Qed.

Lemma rc4_ok data key :
  (length key <= 256)%nat ->
  exists bytes, paradox_rc4 data key = Some (flat_map fmt_02X bytes) /\
                length bytes = length data /\
                (Forall byte_range data -> Forall byte_range bytes).
Proof.
  intros Hlen; destruct (ksa_ok_perm key Hlen) as [st [Hk HP]].
  unfold paradox_rc4; rewrite Hk.
  destruct (prga_fold_ok data (ksa_S st) 0 0 [] HP ltac:(lia))
    as [S' [i' [j' [bytes [H1 [_ [_ [H4 H5]]]]]]]].
  rewrite H1; simpl; exists bytes; auto.
Qed.

(** ** Lemmas: the shape of the MD5 hex digest *)

Lemma le_bytes_bytes n x : Forall byte_range (MD5.le_bytes n x) /\ length (MD5.le_bytes n x) = n.
Proof.
  revert x; induction n as [|n IH]; intros x; simpl; [split; auto|].
  destruct (IH (Z.shiftr x 8)) as [H1 H2]; split; [|rewrite H2; reflexivity].
  constructor; [|exact H1].
  unfold byte_range; change 255 with (Z.ones 8); rewrite Z.land_ones by lia.
  apply Z.mod_pos_bound; reflexivity.
Qed.

Lemma md5_digest_bytes m : Forall byte_range (MD5.digest m) /\ length (MD5.digest m) = 16%nat.
Proof.
  unfold MD5.digest.
  destruct (fold_left MD5.chunk _ _) as [[[a b] c] d].
  destruct (le_bytes_bytes 4 a) as [A1 A2]; destruct (le_bytes_bytes 4 b) as [B1 B2];
  destruct (le_bytes_bytes 4 c) as [C1 C2]; destruct (le_bytes_bytes 4 d) as [D1 D2].
  split; [apply Forall_app; split; [exact A1|]; apply Forall_app; split; [exact B1|];
          apply Forall_app; split; [exact C1 | exact D1]|].
  rewrite !length_app, A2, B2, C2, D2; reflexivity.
Qed.

Lemma upper_hex_pair b :
  byte_range b ->
  forallb is_upper_hex (py_upper [hex_char_lower (b / 16); hex_char_lower (b mod 16)])
  = true /\
  forallb (fun c => (0 <=? c) && (c <? 128))
          (py_upper [hex_char_lower (b / 16); hex_char_lower (b mod 16)]) = true.
Proof.
  intros Hb.
  assert (Hall : forallb (fun y =>
             forallb is_upper_hex (py_upper [hex_char_lower (y / 16); hex_char_lower (y mod 16)])
             && forallb (fun c => (0 <=? c) && (c <? 128))
                        (py_upper [hex_char_lower (y / 16); hex_char_lower (y mod 16)]))
             (py_range 256) = true) by (vm_compute; reflexivity).
  rewrite forallb_forall in Hall.
  assert (Hin : In b (py_range 256)).
  { unfold py_range; apply in_map_iff; exists (Z.to_nat b); split; [unfold byte_range in Hb; lia|].
    apply in_seq; unfold byte_range in Hb; simpl; lia. }
  apply andb_true_iff; exact (Hall b Hin).
Qed.

Lemma md5_upper_hex m :
  length (py_upper (MD5.hexdigest m)) = 32%nat /\
  forallb is_upper_hex (py_upper (MD5.hexdigest m)) = true /\
  forallb (fun c => (0 <=? c) && (c <? 128)) (py_upper (MD5.hexdigest m)) = true.
Proof.
  destruct (md5_digest_bytes m) as [HF HL].
  unfold MD5.hexdigest; generalize (MD5.digest m) HF HL; clear.
  intros l HF HL.
  assert (Gen : length (py_upper (flat_map (fun b => [hex_char_lower (b / 16);
                                                     hex_char_lower (b mod 16)]) l))
                = (2 * length l)%nat /\
                forallb is_upper_hex (py_upper (flat_map (fun b => [hex_char_lower (b / 16);
                                                     hex_char_lower (b mod 16)]) l)) = true /\
                forallb (fun c => (0 <=? c) && (c <? 128))
                        (py_upper (flat_map (fun b => [hex_char_lower (b / 16);
                                                     hex_char_lower (b mod 16)]) l)) = true).
  { clear HL; induction l as [|b l IH]; [split; [reflexivity | split; reflexivity]|].
    inversion HF as [|? ? Hb HF']; subst.
    destruct (IH HF') as [L1 [U1 A1]]; destruct (upper_hex_pair b Hb) as [U0 A0].
    cbn [flat_map]; unfold py_upper in *; rewrite map_app, length_app, forallb_app, forallb_app.
    rewrite L1, U1, A1; rewrite U0, A0; simpl; split; [lia | split; reflexivity]. }
  rewrite HL in Gen; exact Gen.
Qed.

Lemma forallb_ascii_app a b :
  forallb (fun c => (0 <=? c) && (c <? 128)) (a ++ b)
  = forallb (fun c => (0 <=? c) && (c <? 128)) a && forallb (fun c => (0 <=? c) && (c <? 128)) b.
Proof. apply forallb_app. Qed.

Lemma forallb_Forall_iff {A} (f : A -> bool) (P : A -> Prop) l :
  (forall x, f x = true <-> P x) -> (forallb f l = true <-> Forall P l).
Proof.
  intros H; rewrite forallb_forall, Forall_forall; split; intros G x Hx; apply H; auto.
Qed.

Lemma to_8bits_ascii pwd :
  forallb (fun c => (0 <=? c) && (c <? 128)) (to_8bits pwd) = true <->
  Forall (fun c => c mod 256 < 128) pwd.
Proof.
  unfold to_8bits; induction pwd as [|c pwd IH]; simpl; [split; auto|].
  rewrite andb_true_iff, IH, andb_true_iff, Z.leb_le, Z.ltb_lt.
  pose proof (Z.mod_pos_bound c 256 eq_refl).
  split; [intros [[_ H1] H2]; constructor; auto | intros HF; inversion HF; subst; repeat split; auto; lia].
Qed.

Lemma paradox_rc4_long data key : (256 < length key)%nat -> paradox_rc4 data key = None.
Proof. intros H; unfold paradox_rc4; rewrite (ksa_too_long key H); reflexivity. Qed.

(** ** The cipher and the credential encoder *)

(** X1: [_paradox_rc4]: the key-scheduling loop leaves [S] a permutation of
    [range(256)] for every key of at most 256 characters. *)
Theorem ksa_keeps_permutation (key : pystr) :
  (length key <= 256)%nat ->
  exists st, ksa key = Some st /\ Permutation (py_range 256) (ksa_S st).
Proof. intros H; exact (ksa_ok_perm key H). Qed.

(** X2: [_paradox_rc4(data, key)] never fails for a key of at most 256
    characters; for data of 8-bit characters its result is two upper-case
    hexadecimal digits per character of [data]. A longer key raises
    [IndexError] whatever the data. *)
Theorem paradox_rc4_hex_output (data key : pystr) :
  ((length key <= 256)%nat -> Forall byte_range data ->
   exists out, paradox_rc4 data key = Some out /\
               length out = (2 * length data)%nat /\
               forallb is_upper_hex out = true) /\
  ((256 < length key)%nat -> paradox_rc4 data key = None).
Proof.
  split.
  - intros Hk Hd; destruct (rc4_ok data key Hk) as [bytes [H1 [H2 H3]]].
    destruct (hex_bytes_shape bytes (H3 Hd)) as [L U].
    exists (flat_map fmt_02X bytes); split; [exact H1|]; split; [rewrite L, H2; reflexivity | exact U].
  - apply paradox_rc4_long.
Qed.

(** X3: [_paradox_rc4] is a stream cipher: under the same key (of at most 256
    characters) the cipher of [d1 + d2] starts with the cipher of [d1]. *)
Theorem paradox_rc4_prefix (d1 d2 key : pystr) :
  (length key <= 256)%nat ->
  exists o1 o2, paradox_rc4 d1 key = Some o1 /\ paradox_rc4 (d1 ++ d2) key = Some (o1 ++ o2).
Proof.
  intros Hk; destruct (ksa_ok_perm key Hk) as [st [Hks HP]].
  unfold paradox_rc4; rewrite Hks.
  destruct (prga_fold_ok d1 (ksa_S st) 0 0 [] HP ltac:(lia))
    as [S1 [i1 [j1 [b1 [F1 [P1 [I1 _]]]]]]].
  destruct (prga_fold_ok d2 S1 i1 j1 ([] ++ b1) P1 I1)
    as [S2 [i2 [j2 [b2 [F2 _]]]]].
  rewrite fold_left_app, F1, F2; simpl.
  exists (flat_map fmt_02X b1), (flat_map fmt_02X b2); split; [reflexivity|].
  rewrite flat_map_app; reflexivity.
Qed.

(** X4: [_prep_cred(user, pwd, sess)] succeeds exactly when every password
    character is below 128 modulo 256, the salt is ASCII and at most 224
    characters long (the salted pass, 32 + len(sess) characters, is the
    cipher key); then [p] is 32 upper-case hexadecimal digits, and for a
    user name of 8-bit characters [u] is two upper-case hexadecimal digits
    per character. *)
Theorem prep_cred_domain (user pwd sess : pystr) :
  (prep_cred user pwd sess <> None <->
     Forall (fun c => c mod 256 < 128) pwd /\ Forall (fun c => 0 <= c < 128) sess /\
     (length sess <= 224)%nat) /\
  (forall c, prep_cred user pwd sess = Some c ->
     length (cred_p c) = 32%nat /\ forallb is_upper_hex (cred_p c) = true /\
     (Forall byte_range user ->
        length (cred_u c) = (2 * length user)%nat /\ forallb is_upper_hex (cred_u c) = true)).
Proof.
  assert (Asc : forall s, forallb (fun c => (0 <=? c) && (c <? 128)) s = true <->
                          Forall (fun c => 0 <= c < 128) s).
  { intros s; apply forallb_Forall_iff; intros x; rewrite andb_true_iff, Z.leb_le, Z.ltb_lt; tauto. }
  unfold prep_cred, salted_pass, encode_ascii.
  destruct (forallb (fun c => (0 <=? c) && (c <? 128)) (to_8bits pwd)) eqn:Hp.
  2:{ split; [|discriminate]. split; [intros H; exfalso; apply H; reflexivity|].
      intros [H _]; apply to_8bits_ascii in H; congruence. }
  apply to_8bits_ascii in Hp.
  set (h := py_upper (MD5.hexdigest (to_8bits pwd))).
  destruct (md5_upper_hex (to_8bits pwd)) as [HL [HU HA]]; fold h in HL, HU, HA.
  rewrite forallb_ascii_app, HA; simpl.
  destruct (forallb (fun c => (0 <=? c) && (c <? 128)) sess) eqn:Hs.
  2:{ split; [|discriminate]. split; [intros H; exfalso; apply H; reflexivity|].
      intros [_ [H _]]; apply Asc in H; congruence. }
  apply Asc in Hs.
  destruct (le_gt_dec (length (h ++ sess)) 256) as [Hk|Hk].
  - destruct (rc4_ok user (h ++ sess) Hk) as [bytes [R1 [R2 R3]]]; rewrite R1.
    split; [split; [intros _; rewrite length_app, HL in Hk; repeat split; auto; lia | intros _; discriminate]|].
    intros c Hc; injection Hc as <-; simpl.
    destruct (md5_upper_hex (h ++ sess)) as [L2 [U2 _]].
    split; [exact L2|]; split; [exact U2|].
    intros Hu; destruct (hex_bytes_shape bytes (R3 Hu)) as [L U]; rewrite L, R2; split; auto.
  - rewrite (paradox_rc4_long user _ Hk).
    split; [|discriminate].
    split; [intros H; exfalso; apply H; reflexivity|].
    intros [_ [_ H]]; rewrite length_app, HL in Hk; lia.
Qed.

(** ** Logging in and out *)

(** X5: [login]: from a logged-out session, when the login page contains
    ["loginaff"], the salt is the 16 characters that start 10 characters
    after it; the credentials computed from it are sent to [default.html];
    when the answer has no redirect to the login page, the client sleeps
    3 seconds, starts a keepalive thread unless the interval is 0, and is
    logged in. The status codes of both pages are never looked at. *)
Theorem login_success E s user pwd ka ltext lcode off c dtext dcode :
  logged_in s = false ->
  server E (ip150url s ++ of_string "/login_page.html") [] = Response ltext lcode ->
  py_find ltext (of_string "loginaff") = off -> off <> -1 ->
  prep_cred user pwd (py_slice ltext (off + 10) (off + 26)) = Some c ->
  server E (ip150url s ++ of_string "/default.html")
         [(of_string "p", cred_p c); (of_string "u", cred_u c)] = Response dtext dcode ->
  py_count dtext (of_string "top.location.href='login_page.html';") = 0 ->
  login E user pwd ka s =
  (Ret tt,
   {| ip150url := ip150url s; logged_in := true;
      keepalive_h := if Qeq_bool ka 0 then keepalive_h s
                     else Some {| ka_url := ip150url s; ka_interval := ka |};
      updates := updates s; stop_updates := stop_updates s |},
   [HttpGet (ip150url s ++ of_string "/login_page.html") [];
    HttpGet (ip150url s ++ of_string "/default.html")
            [(of_string "p", cred_p c); (of_string "u", cred_u c)];
    Sleep 3] ++ (if Qeq_bool ka 0 then [] else [KeepaliveStart])).
Proof.
  destruct s as [url li kh up st]; simpl.
  intros Hli Hl Hoff Hne Hc Hd Hcnt; subst li.
  unfold login, bind, get, put, emit, ret, requests_get; simpl.
  rewrite Hl, Hoff.
  replace (off =? -1) with false by (symmetry; apply Z.eqb_neq; exact Hne).
  rewrite Hc, Hd, Hcnt; simpl.
  destruct (Qeq_bool ka 0); reflexivity.
Qed.

(** X6: [login] from a logged-out session fails without changing the session
    when the login page has no ["loginaff"] (after one request, with the
    page in the message), when the password or salt cannot be encoded
    (after one request), or when [default.html] redirects to the login
    page (after both requests). *)
Theorem login_failure_keeps_session E s user pwd ka ltext lcode :
  logged_in s = false ->
  server E (ip150url s ++ of_string "/login_page.html") [] = Response ltext lcode ->
  (py_find ltext (of_string "loginaff") = -1 ->
   login E user pwd ka s =
   (Raise (Paradox_IP150_Error
             (of_string "Wrong page fetched. Did you connect to the right server and port? Server returned: "
              ++ ltext)),
    s, [HttpGet (ip150url s ++ of_string "/login_page.html") []])) /\
  (py_find ltext (of_string "loginaff") <> -1 ->
   prep_cred user pwd (py_slice ltext (py_find ltext (of_string "loginaff") + 10)
                                      (py_find ltext (of_string "loginaff") + 26)) = None ->
   login E user pwd ka s =
   (Raise (OtherError "UnicodeEncodeError"), s,
    [HttpGet (ip150url s ++ of_string "/login_page.html") []])) /\
  (forall c dtext dcode,
   py_find ltext (of_string "loginaff") <> -1 ->
   prep_cred user pwd (py_slice ltext (py_find ltext (of_string "loginaff") + 10)
                                      (py_find ltext (of_string "loginaff") + 26)) = Some c ->
   server E (ip150url s ++ of_string "/default.html")
          [(of_string "p", cred_p c); (of_string "u", cred_u c)] = Response dtext dcode ->
   0 < py_count dtext (of_string "top.location.href='login_page.html';") ->
   login E user pwd ka s =
   (Raise (Paradox_IP150_Error (of_string "Could not login, wrong credentials provided.")), s,
    [HttpGet (ip150url s ++ of_string "/login_page.html") [];
     HttpGet (ip150url s ++ of_string "/default.html")
             [(of_string "p", cred_p c); (of_string "u", cred_u c)]])).
Proof.
  destruct s as [url li kh up st]; simpl.
  intros Hli Hl; subst li.
  unfold login, bind, get, put, emit, ret, raise, perr, requests_get; simpl.
  rewrite Hl.
  split; [|split].
  - intros Hf; rewrite Hf; reflexivity.
  - intros Hne Hc.
    replace (py_find ltext (of_string "loginaff") =? -1) with false
      by (symmetry; apply Z.eqb_neq; exact Hne).
    rewrite Hc; reflexivity.
  - intros c dtext dcode Hne Hc Hd Hcnt.
    replace (py_find ltext (of_string "loginaff") =? -1) with false
      by (symmetry; apply Z.eqb_neq; exact Hne).
    rewrite Hc, Hd.
    replace (py_count dtext (of_string "top.location.href='login_page.html';") >? 0) with true
      by (symmetry; apply Z.gtb_lt; exact Hcnt).
    reflexivity.
Qed.

(** X7: [logout] on a logged-in session whose logout request answers 200
    leaves the session logged out with no keepalive thread and no
    [_updates] handle; the stop flag is set when a poller was running. *)
Theorem logout_success E s text :
  logged_in s = true ->
  server E (ip150url s ++ of_string "/logout.html") [] = Response text 200 ->
  logout E s =
  (Ret tt,
   {| ip150url := ip150url s; logged_in := false; keepalive_h := None; updates := None;
      stop_updates := stop_updates s || is_some (updates s) |},
   (if is_some (keepalive_h s) then [KeepaliveCancel; KeepaliveJoin] else [])
   ++ (if is_some (updates s) then [StopUpdatesSet] else [])
   ++ [HttpGet (ip150url s ++ of_string "/logout.html") []]).
Proof.
  destruct s as [url li kh up st]; simpl.
  intros Hli Hsrv; subst li.
  destruct kh, up; cbn -[of_string]; rewrite Hsrv; cbn -[of_string];
    destruct st; reflexivity.
Qed.

(** ** Starting and stopping the poller *)

(** X13: [get_updates] checks its arguments before the [_updates] handle:
    without an [on_update] callable, or with a polling interval of at most
    0, it raises whether or not a poller is running, and changes nothing. *)
Theorem get_updates_argument_checks s pi :
  logged_in s = true ->
  get_updates false pi s
    = (Raise (Paradox_IP150_Error (of_string "The callable on_update must be provided.")), s, []) /\
  (Qle pi 0 ->
   get_updates true pi s
   = (Raise (Paradox_IP150_Error
               (of_string "The polling interval must be greater than 0.0 seconds.")), s, [])).
Proof.
  intros Hli; unfold get_updates, logged_only, bind, get, perr, raise; rewrite Hli; simpl.
  split; [reflexivity|].
  intros Hle; apply Qle_bool_iff in Hle; rewrite Hle; reflexivity.
Qed.

(** X14: [cancel_updates] with no poller running raises and changes nothing;
    after a successful [cancel_updates], a second one raises. *)
Theorem cancel_updates_twice s :
  logged_in s = true ->
  (updates s = None ->
   cancel_updates s
   = (Raise (Paradox_IP150_Error
               (of_string "Not currently getting updates. Use get_updates() first.")), s, [])) /\
  (forall s1 effs, cancel_updates s = (Ret tt, s1, effs) ->
   effs = [StopUpdatesSet] /\
   cancel_updates s1
   = (Raise (Paradox_IP150_Error
               (of_string "Not currently getting updates. Use get_updates() first.")), s1, [])).
Proof.
  destruct s as [url li kh up st]; simpl; intros Hli; subst li.
  split.
  - intros Hu; subst up; reflexivity.
  - intros s1 effs; destruct up; [|discriminate].
    cbn; intros H; injection H as <- <-; split; reflexivity.
Qed.

(** ** What [get_info] and [set_area_action] never do *)

(** X9: [get_info] never changes the session; it sends exactly one request,
    to [statuslive.html], when logged in, and none otherwise. *)
Theorem get_info_session_unchanged E s :
  let '(_, s', effs) := get_info E s in
  s' = s /\
  effs = (if logged_in s then [HttpGet (ip150url s ++ of_string "/statuslive.html") []] else []).
Proof.
  unfold get_info, logged_only, bind, get, ret, raise, perr, requests_get, emit.
  destruct (logged_in s); cbn -[decode_tables of_string]; [|split; reflexivity].
  destruct (server E _ _) as [text code| |]; cbn -[decode_tables of_string];
    try (split; reflexivity).
  destruct (has_statuslive_form (parse_html E text)); cbn -[decode_tables of_string]; [|split; reflexivity].
  destruct (first_script (parse_html E text)) as [sc|]; cbn -[decode_tables of_string]; [|split; reflexivity].
  destruct (decode_tables tables_map sc []); split; reflexivity.
Qed.

(** X16: [set_area_action] never changes the session, and sends at most one
    request, to [statuslive.html]. *)
Theorem set_area_action_session_unchanged E area action s :
  let '(_, s', effs) := set_area_action E area action s in
  s' = s /\
  (effs = [] \/ exists params, effs = [HttpGet (ip150url s ++ of_string "/statuslive.html") params]).
Proof.
  unfold set_area_action, logged_only, bind, get, ret, raise, perr, requests_get, emit.
  destruct (logged_in s); cbn -[str_lookup of_string py_int fmt_02d]; [|split; auto].
  destruct (match area with AreaInt n => Some n | AreaStr t => py_int t end) as [a0|]; cbn -[str_lookup of_string py_int fmt_02d];
    [|split; auto].
  destruct (a0 - 1 <? 0); cbn -[str_lookup of_string py_int fmt_02d]; [split; auto|].
  destruct (str_lookup areas_action_map action) as [code|]; cbn -[str_lookup of_string py_int fmt_02d]; [|split; auto].
  destruct (server E _ _) as [text st| |]; cbn -[str_lookup of_string py_int fmt_02d];
    [destruct (negb (st =? 200)); cbn -[str_lookup of_string py_int fmt_02d]| |]; split; auto; right; eexists; reflexivity.
Qed.

(** ** The polling thread and [get_info]'s errors *)

Lemma js2array_error name sc e :
  js2array name sc = Raise e -> exists n, e = OtherError n.
Proof.
  unfold js2array.
  destruct (re_search_array _ sc); [|intros H; injection H as <-; eauto].
  destruct (json_loads _) as [v|n]; [destruct v|];
    try discriminate; intros H; injection H as <-; eauto.
Qed.

Lemma decode_tables_error tables sc res e :
  decode_tables tables sc res = Raise e -> exists name, e = OtherError name.
Proof.
  revert res; induction tables as [|[[table name] m] rest IH]; intros res; simpl; [discriminate|].
  destruct (js2array (of_string name) sc) as [l|e'] eqn:Ej.
  - destruct (map_codes m l) as [names|n]; [apply IH|].
    intros H; injection H as <-; eauto.
  - intros H; injection H as <-; revert Ej; apply js2array_error.
Qed.

(** X10: How the polling thread treats what [get_info] raises: a timeout and a
    page without the [statuslive] form raise [Paradox_IP150_Error] and
    only count as a retry, while a refused connection and a status script
    that does not decode (the [AttributeError] of a missing declaration,
    the [JSONDecodeError] or [ValueError] of [json.loads], the [KeyError]
    or [TypeError] of a value the table does not map) end the loop on the
    first occurrence, whatever the retry count. *)
Theorem poll_error_classes E s prev rc rest :
  logged_in s = true ->
  (server E (ip150url s ++ of_string "/statuslive.html") [] = TimeoutErr -> rc + 1 <= 5 ->
   updates_loop 5 prev rc (poll_tick E s :: rest) = updates_loop 5 prev (rc + 1) rest) /\
  (forall text code,
   server E (ip150url s ++ of_string "/statuslive.html") [] = Response text code ->
   has_statuslive_form (parse_html E text) = false -> rc + 1 <= 5 ->
   updates_loop 5 prev rc (poll_tick E s :: rest) = updates_loop 5 prev (rc + 1) rest) /\
  (server E (ip150url s ++ of_string "/statuslive.html") [] = ConnectionErr ->
   updates_loop 5 prev rc (poll_tick E s :: rest)
   = ([], LoopRaised (OtherError "ConnectionError"))) /\
  (forall text code sc e,
   server E (ip150url s ++ of_string "/statuslive.html") [] = Response text code ->
   has_statuslive_form (parse_html E text) = true ->
   first_script (parse_html E text) = Some sc ->
   decode_tables tables_map sc [] = Raise e ->
   (exists name, e = OtherError name) /\
   updates_loop 5 prev rc (poll_tick E s :: rest) = ([], LoopRaised e)).
Proof.
  intros Hli.
  unfold poll_tick, get_info, logged_only, bind, get, ret, raise, perr, requests_get, emit.
  rewrite Hli; cbn -[decode_tables of_string updates_loop].
  split; [|split; [|split]].
  - intros Hs Hrc; rewrite Hs; cbn -[of_string].
    replace (5 <? rc + 1) with false by (symmetry; apply Z.ltb_ge; lia); reflexivity.
  - intros text code Hs Hf Hrc; rewrite Hs; cbn -[of_string decode_tables]; rewrite Hf; cbn -[of_string].
    replace (5 <? rc + 1) with false by (symmetry; apply Z.ltb_ge; lia); reflexivity.
  - intros Hs; rewrite Hs; reflexivity.
  - intros text code sc e Hs Hf Hsc Hd; rewrite Hs; cbn -[of_string decode_tables]; rewrite Hf, Hsc.
    cbn -[of_string decode_tables]; rewrite Hd.
    destruct (decode_tables_error _ _ _ _ Hd) as [name ->].
    split; [eauto | reflexivity].
Qed.

(** X11: When [_stop_updates.wait] returns [True] the thread ends without
    calling [on_error], after the [on_update] calls of the earlier ticks,
    and clears the stop flag. *)
Theorem poller_stop_is_clean (on_error : bool) s pre effs prev rc rest :
  updates_loop 5 [] 0 pre = (effs, LoopRunning prev rc) ->
  get_updates_body on_error 5 (pre ++ WaitStopped :: rest) s
  = (Ret tt, set_stop s false, effs ++ [StopUpdatesClear]).
Proof.
  intros Hpre; unfold get_updates_body.
  rewrite (updates_loop_app 5 pre _ [] 0 effs prev rc Hpre); simpl.
  rewrite app_nil_r.
  unfold bind at 1; rewrite emit_all; reflexivity.
Qed.

(** ** The diff reports only current entries *)

Lemma dict_set_in {V} (d1 k : pystr) (v v' : V) u :
  In (k, v') (dict_set d1 v u) -> (k = d1 /\ v' = v) \/ In (k, v') u.
Proof.
  induction u as [|[k0 w] t IH]; simpl.
  - intros [H|[]]; injection H as -> ->; auto.
  - destruct (pystr_eqb d1 k0) eqn:E.
    + apply pystr_eqb_eq in E; subst k0.
      intros [H|H]; [injection H as -> ->; auto | auto].
    + intros [H|H]; [auto|]. destruct (IH H) as [?|?]; auto.
Qed.

Lemma dict_get_in' {V} k (l : V) u : dict_get k u = Some l -> In (k, l) u.
Proof.
  induction u as [|[k0 w] t IH]; simpl; [discriminate|].
  destruct (pystr_eqb k k0) eqn:E; [apply pystr_eqb_eq in E; subst; intros H; injection H as ->; auto|].
  intros H; right; auto.
Qed.

Lemma nodup_fst_unique {V} (cur : list (pystr * V)) k a b :
  NoDup (map fst cur) -> In (k, a) cur -> In (k, b) cur -> a = b.
Proof.
  induction cur as [|[k0 w] t IH]; simpl; [tauto|].
  intros Hnd; inversion Hnd as [|? ? Hn Hnd']; subst.
  intros [Ha|Ha] [Hb|Hb].
  - injection Ha as -> ->; injection Hb as ->; reflexivity.
  - injection Ha as -> ->; exfalso; apply Hn; apply (in_map fst _ _ Hb).
  - injection Hb as -> ->; exfalso; apply Hn; apply (in_map fst _ _ Ha).
  - apply IH; auto.
Qed.

Lemma diff_pairs_sound (cur : snapshot) d1 cur_l pairs upd :
  NoDup (map fst cur) -> In (d1, cur_l) cur ->
  (forall p, In p pairs -> In (fst p) cur_l) ->
  (forall k l, In (k, l) upd -> exists cl, In (k, cl) cur /\ incl l cl) ->
  forall k l, In (k, l) (diff_pairs d1 pairs upd) -> exists cl, In (k, cl) cur /\ incl l cl.
Proof.
  intros Hnd Hin; unfold diff_pairs; revert upd.
  induction pairs as [|[c p] t IH]; intros upd Hp Hinv; simpl; [exact Hinv|].
  apply IH; [intros q Hq; apply Hp; right; exact Hq|].
  assert (Hc : In c cur_l) by (apply (Hp (c, p)); left; reflexivity).
  destruct (negb (entry_eqb c p)); [|exact Hinv].
  destruct (dict_get d1 upd) as [l0|] eqn:Hg; intros k l Hkl;
    destruct (dict_set_in _ _ _ _ _ Hkl) as [[-> ->]|H]; auto.
  - exists cur_l; split; [exact Hin|].
    destruct (Hinv _ _ (dict_get_in' _ _ _ Hg)) as [cl [Hcl Hincl]].
    rewrite (nodup_fst_unique _ _ _ _ Hnd Hcl Hin) in Hincl.
    intros x Hx; apply in_app_or in Hx; destruct Hx as [Hx|[<-|[]]]; auto.
  - exists cur_l; split; [exact Hin|]. intros x [<-|[]]; exact Hc.
Qed.

(** X12: Every entry that [_get_updates] passes to [on_update] belongs to the
    current state: each reported key is a key of [cur_state], and the
    entries reported under it are entries of [cur_state] under that key
    (the keys of [cur_state] being distinct, as in a dict). *)
Theorem diff_reports_current_entries (cur prev : snapshot) :
  NoDup (map fst cur) ->
  forall k l, In (k, l) (diff cur prev) -> exists cl, In (k, cl) cur /\ incl l cl.
Proof.
  intros Hnd; unfold diff.
  assert (Hgen : forall rest upd, incl rest cur ->
            (forall k l, In (k, l) upd -> exists cl, In (k, cl) cur /\ incl l cl) ->
            forall k l, In (k, l) (fold_left (diff_step prev) rest upd) ->
            exists cl, In (k, cl) cur /\ incl l cl).
  { induction rest as [|[d1 cur_l] t IH]; intros upd Hincl Hinv; simpl; [exact Hinv|].
    apply IH; [intros x Hx; apply Hincl; right; exact Hx|].
    assert (Hin : In (d1, cur_l) cur) by (apply Hincl; left; reflexivity).
    unfold diff_step; destruct (dict_get d1 prev) as [prev_l|].
    - apply (diff_pairs_sound cur d1 cur_l); auto.
      intros [c p] Hq; exact (in_combine_l _ _ _ _ Hq).
    - intros k l Hkl; destruct (dict_set_in _ _ _ _ _ Hkl) as [[-> ->]|H]; auto.
      exists cur_l; split; [exact Hin | apply incl_refl]. }
  apply Hgen; [apply incl_refl | intros k l []].
Qed.

(** ** Decimal numerals: [str], [int()], [f'{n:02d}'] and [json.loads] *)

Lemma is_digit_cases d : is_digit d = true ->
  d = 48 \/ d = 49 \/ d = 50 \/ d = 51 \/ d = 52 \/ d = 53 \/ d = 54 \/ d = 55 \/ d = 56 \/ d = 57.
Proof.
  unfold is_digit; intros H; apply andb_true_iff in H as [H1 H2].
  apply Z.leb_le in H1; apply Z.leb_le in H2; lia.
Qed.

Ltac digit_split Hd :=
  destruct (is_digit_cases _ Hd) as [->|[->|[->|[->|[->|[->|[->|[->|[->| ->]]]]]]]]].

Lemma is_digit_range c : 0 <= c < 10 -> is_digit (48 + c) = true.
Proof. intros H; unfold is_digit; apply andb_true_iff; split; apply Z.leb_le; lia. Qed.

Lemma dec_digits_fuel_small fuel x acc : 0 <= x < 10 ->
  dec_digits_fuel (S fuel) x acc = (48 + x) :: acc.
Proof.
  intros Hx; cbn [dec_digits_fuel].
  rewrite Z.mod_small by lia.
  replace (x <? 10) with true by (symmetry; apply Z.ltb_lt; lia); reflexivity.
Qed.

Lemma dec_digits_fuel_spec fuel : forall x acc, 0 <= x < 10 ^ Z.of_nat (S fuel) ->
  exists d ds, dec_digits_fuel (S fuel) x acc = d :: ds ++ acc /\
    Forall (fun c => is_digit c = true) (d :: ds) /\ (d = 48 -> x = 0 /\ ds = []) /\
    forall a r, take_digits (d :: ds ++ r) a
                = take_digits r (a * 10 ^ Z.of_nat (S (length ds)) + x).
Proof.
  induction fuel as [|f IH]; intros x acc Hx.
  - assert (Hx' : 0 <= x < 10) by (simpl in Hx; lia).
    rewrite dec_digits_fuel_small by exact Hx'.
    exists (48 + x), []; split; [reflexivity|].
    split; [constructor; [apply is_digit_range; exact Hx' | constructor]|].
    split; [intros H; split; [lia | reflexivity]|].
    intros a r; cbn [take_digits app]; rewrite is_digit_range by exact Hx'.
    f_equal; change (Z.of_nat (S (length (@nil Z)))) with 1; rewrite Z.pow_1_r; lia.
  - destruct (Z.ltb_spec x 10) as [Hs|Hb].
    + rewrite dec_digits_fuel_small by lia.
      exists (48 + x), []; split; [reflexivity|].
      split; [constructor; [apply is_digit_range; lia | constructor]|].
      split; [intros H; split; [lia | reflexivity]|].
      intros a r; cbn [take_digits app]; rewrite is_digit_range by lia.
      f_equal; change (Z.of_nat (S (length (@nil Z)))) with 1; rewrite Z.pow_1_r; lia.
    + assert (Hp : 0 < 10 ^ Z.of_nat (S f)) by (apply Z.pow_pos_nonneg; lia).
      assert (Hq : 0 <= x / 10 < 10 ^ Z.of_nat (S f)).
      { split; [apply Z.div_pos; lia|].
        apply Z.div_lt_upper_bound; [lia|].
        rewrite (Nat2Z.inj_succ (S f)), Z.pow_succ_r in Hx by lia; lia. }
      assert (Hm : 0 <= x mod 10 < 10) by (apply Z.mod_pos_bound; lia).
      assert (Hd10 : 1 <= x / 10) by (apply Z.div_le_lower_bound; lia).
      destruct (IH (x / 10) ((48 + x mod 10) :: acc) Hq) as [d [ds [Heq [HF [H48 Htk]]]]].
      exists d, (ds ++ [48 + x mod 10]).
      split.
      { change (dec_digits_fuel (S (S f)) x acc)
          with (if x <? 10 then (48 + x mod 10) :: acc
                else dec_digits_fuel (S f) (x / 10) ((48 + x mod 10) :: acc)).
        replace (x <? 10) with false by (symmetry; apply Z.ltb_ge; lia).
        rewrite Heq, <- app_assoc; reflexivity. }
      split.
      { change (d :: ds ++ [48 + x mod 10]) with ((d :: ds) ++ [48 + x mod 10]).
        apply Forall_app; split; [exact HF | constructor; [apply is_digit_range; exact Hm | constructor]]. }
      split; [intros H; destruct (H48 H); lia|].
      intros a r.
      replace (d :: (ds ++ [48 + x mod 10]) ++ r) with (d :: ds ++ (48 + x mod 10) :: r)
        by (rewrite <- app_assoc; reflexivity).
      rewrite Htk.
      cbn [take_digits]; rewrite is_digit_range by exact Hm.
      rewrite length_app; simpl length.
      f_equal.
      replace (Z.of_nat (S (length ds + 1))) with (Z.of_nat (S (length ds)) + 1) by lia.
      rewrite Z.pow_add_r, Z.pow_1_r by lia.
      pose proof (Z.div_mod x 10 ltac:(lia)) as Hdm.
      nia.
Qed.

Lemma dec_digits_fuel_enough x : 0 <= x ->
  x < 10 ^ Z.of_nat (S (Z.to_nat (Z.log2_up (x + 1)))).
Proof.
  intros Hx.
  assert (Hl : 0 <= Z.log2_up (x + 1)) by apply Z.log2_up_nonneg.
  rewrite Nat2Z.inj_succ, Z2Nat.id by exact Hl.
  pose proof (Z.log2_log2_up_spec (x + 1) ltac:(lia)) as [_ H2].
  assert (H3 : 2 ^ Z.log2_up (x + 1) <= 10 ^ Z.log2_up (x + 1))
    by (apply Z.pow_le_mono_l; lia).
  assert (H4 : 0 < 10 ^ Z.log2_up (x + 1)) by (apply Z.pow_pos_nonneg; lia).
  rewrite Z.pow_succ_r by exact Hl; lia.
Qed.

Lemma dec_digits_spec x : 0 <= x ->
  exists d ds, dec_digits x = d :: ds /\
    Forall (fun c => is_digit c = true) (d :: ds) /\ (d = 48 -> x = 0 /\ ds = []) /\
    forall r, take_digits (d :: ds ++ r) 0 = take_digits r x.
Proof.
  intros Hx; unfold dec_digits.
  destruct (dec_digits_fuel_spec _ x [] (conj Hx (dec_digits_fuel_enough x Hx)))
    as [d [ds [Heq [HF [H48 Htk]]]]].
  exists d, ds; rewrite app_nil_r in Heq; split; [exact Heq|].
  split; [exact HF|]; split; [exact H48|].
  intros r; rewrite Htk; reflexivity.
Qed.

Lemma take_digits_stop r a :
  (forall c t, r = c :: t -> is_digit c = false) -> take_digits r a = (a, r).
Proof. intros H; destruct r as [|c t]; [reflexivity|]; simpl; rewrite (H c t eq_refl); reflexivity. Qed.

Lemma take_digits_zeros k t : take_digits (repeat 48 k ++ t) 0 = take_digits t 0.
Proof. induction k as [|k IH]; [reflexivity|]; exact IH. Qed.

Lemma py_int_digit d t : is_digit d = true ->
  py_int (d :: t) = let '(v, r) := take_digits (d :: t) 0 in
                    match skip_ws r with [] => Some (1 * v) | _ => None end.
Proof. intros Hd; digit_split Hd; reflexivity. Qed.

Lemma py_int_neg d t : is_digit d = true ->
  py_int (45 :: d :: t) = let '(v, r) := take_digits (d :: t) 0 in
                          match skip_ws r with [] => Some (-1 * v) | _ => None end.
Proof. intros Hd; digit_split Hd; reflexivity. Qed.

(** [int(str(n)) == n]. *)
Lemma py_int_str n : py_int (py_str_int n) = Some n.
Proof.
  unfold py_str_int; destruct (Z.ltb_spec n 0) as [Hn|Hn].
  - destruct (dec_digits_spec (- n) ltac:(lia)) as [d [ds [Heq [HF [_ Htk]]]]].
    rewrite Heq, py_int_neg by exact (Forall_inv HF).
    specialize (Htk []); rewrite app_nil_r in Htk; rewrite Htk; cbn [take_digits skip_ws].
    f_equal; lia.
  - destruct (dec_digits_spec n Hn) as [d [ds [Heq [HF [_ Htk]]]]].
    rewrite Heq, py_int_digit by exact (Forall_inv HF).
    specialize (Htk []); rewrite app_nil_r in Htk; rewrite Htk; cbn [take_digits skip_ws].
    f_equal; lia.
Qed.

Lemma py_int_fmt_02d n : 0 <= n -> py_int (fmt_02d n) = Some n.
Proof.
  intros Hn.
  change (fmt_02d n) with (repeat 48 (2 - length (dec_digits n)) ++ dec_digits n).
  destruct (dec_digits_spec n Hn) as [d [ds [Heq [HF [_ Htk]]]]].
  rewrite Heq.
  assert (Hs : exists h t, repeat 48 (2 - length (d :: ds)) ++ d :: ds = h :: t /\ is_digit h = true).
  { destruct (2 - length (d :: ds))%nat; simpl; eauto. exists d, ds; split; [reflexivity | exact (Forall_inv HF)]. }
  destruct Hs as [h [t [Hht Hh]]].
  rewrite Hht, py_int_digit by exact Hh.
  rewrite <- Hht, take_digits_zeros.
  specialize (Htk []); rewrite app_nil_r in Htk; rewrite Htk; cbn [take_digits skip_ws].
  f_equal; lia.
Qed.

Lemma fmt_02d_two_digits n : 0 <= n < 100 -> fmt_02d n = [48 + n / 10; 48 + n mod 10].
Proof.
  intros Hn.
  assert (Hall : forallb (fun m => pystr_eqb (fmt_02d m) [48 + m / 10; 48 + m mod 10])
                         (py_range 100) = true) by (vm_compute; reflexivity).
  rewrite forallb_forall in Hall.
  apply pystr_eqb_eq, Hall.
  unfold py_range; apply in_map_iff; exists (Z.to_nat n); split; [lia|].
  apply in_seq; simpl; lia.
Qed.

Lemma py_str_int_head v :
  exists h t, py_str_int v = h :: t /\ (is_digit h || (h =? 45)) = true.
Proof.
  unfold py_str_int; destruct (Z.ltb_spec v 0) as [Hv|Hv].
  - exists 45; eexists; split; reflexivity.
  - destruct (dec_digits_spec v Hv) as [d [ds [Heq [HF _]]]].
    exists d, ds; split; [exact Heq|].
    rewrite (Forall_inv HF); reflexivity.
Qed.

Lemma py_str_int_chars v :
  Forall (fun c => (is_digit c || (c =? 44) || (c =? 45)) = true) (py_str_int v).
Proof.
  unfold py_str_int; destruct (Z.ltb_spec v 0) as [Hv|Hv].
  - destruct (dec_digits_spec (- v) ltac:(lia)) as [d [ds [Heq [HF _]]]].
    rewrite Heq; constructor; [reflexivity|].
    eapply Forall_impl; [|exact HF]; intros c Hc; simpl; rewrite Hc; reflexivity.
  - destruct (dec_digits_spec v Hv) as [d [ds [Heq [HF _]]]].
    rewrite Heq; eapply Forall_impl; [|exact HF]; intros c Hc; simpl; rewrite Hc; reflexivity.
Qed.

Lemma skip_ws_lead h t : (is_digit h || (h =? 45)) = true -> skip_ws (h :: t) = h :: t.
Proof.
  intros H; apply orb_true_iff in H as [Hd|Hm].
  - digit_split Hd; reflexivity.
  - apply Z.eqb_eq in Hm; subst h; reflexivity.
Qed.

Lemma join_cons sep x t :
  join sep (x :: t) = x ++ match t with [] => [] | _ => sep ++ join sep t end.
Proof. destruct t; simpl; [rewrite app_nil_r|]; reflexivity. Qed.

Lemma join_chars (P : Z -> Prop) sep l :
  Forall P sep -> Forall (Forall P) l -> Forall P (join sep l).
Proof.
  intros Hs; induction l as [|x t IH]; intros Hl; [constructor|].
  inversion Hl as [|? ? Hx Ht]; subst.
  rewrite join_cons; apply Forall_app; split; [exact Hx|].
  destruct t; [constructor|]; apply Forall_app; split; [exact Hs | apply IH; exact Ht].
Qed.

Lemma join_length sep l :
  Forall (fun x => x <> []) l -> (length l <= length (join sep l))%nat.
Proof.
  induction l as [|x t IH]; intros Hl; [simpl; lia|].
  inversion Hl as [|? ? Hx Ht]; subst.
  rewrite join_cons, length_app.
  destruct x; [congruence|]; destruct t as [|y u]; simpl; [lia|].
  rewrite length_app; specialize (IH Ht); simpl in IH; lia.
Qed.

Lemma span_digits_app ds r :
  Forall (fun c => is_digit c = true) ds -> (forall c t, r = c :: t -> is_digit c = false) ->
  span_digits (ds ++ r) = (ds, r).
Proof.
  intros Hd Hr; induction Hd as [|c ds Hc _ IH]; simpl.
  - destruct r as [|c t]; [reflexivity|]; simpl; rewrite (Hr c t eq_refl); reflexivity.
  - rewrite Hc, IH; reflexivity.
Qed.

Lemma take_digits_all ds : forall a, Forall (fun c => is_digit c = true) ds ->
  exists w, take_digits ds a = (a * 10 ^ Z.of_nat (length ds) + w, []) /\
            0 <= w < 10 ^ Z.of_nat (length ds).
Proof.
  induction ds as [|c ds IH]; intros a Hd.
  - exists 0; simpl; split; [f_equal; lia | lia].
  - inversion Hd as [|? ? Hc Hds]; subst.
    destruct (IH (10 * a + (c - 48)) Hds) as [w [Hw Hb]].
    unfold is_digit in Hc; apply andb_true_iff in Hc as [H1 H2];
      apply Z.leb_le in H1; apply Z.leb_le in H2.
    exists ((c - 48) * 10 ^ Z.of_nat (length ds) + w).
    cbn [take_digits]; unfold is_digit at 1.
    replace ((48 <=? c) && (c <=? 57)) with true
      by (symmetry; apply andb_true_iff; split; apply Z.leb_le; lia).
    rewrite Hw; cbn [length]; rewrite Nat2Z.inj_succ, Z.pow_succ_r by lia.
    split; [f_equal; ring | nia].
Qed.

Lemma dec_digits_len n x : (1 <= n)%nat -> 0 <= x < 10 ^ Z.of_nat n -> (length (dec_digits x) <= n)%nat.
Proof.
  intros Hn Hx.
  destruct (dec_digits_spec x ltac:(lia)) as [d [ds [Heq [HF [H48 Htk]]]]].
  rewrite Heq.
  destruct (Z.eq_dec d 48) as [E|E]; [destruct (H48 E) as [-> ->]; simpl; lia|].
  inversion HF as [|? ? Hd Hds]; subst.
  specialize (Htk []); rewrite app_nil_r in Htk.
  destruct (take_digits_all ds (10 * 0 + (d - 48)) Hds) as [w [Hw Hb]].
  cbn [take_digits] in Htk; rewrite Hd, Hw in Htk.
  injection Htk as Hv.
  unfold is_digit in Hd; apply andb_true_iff in Hd as [H1 H2];
    apply Z.leb_le in H1; apply Z.leb_le in H2.
  destruct (Nat.le_gt_cases (length (d :: ds)) n) as [Hl|Hl]; [exact Hl|].
  exfalso; cbn [length] in Hl.
  assert (Hp : 10 ^ Z.of_nat n <= 10 ^ Z.of_nat (length ds)) by (apply Z.pow_le_mono_r; lia).
  nia.
Qed.

Lemma match_number_int (neg : bool) d ds c t :
  Forall (fun x => is_digit x = true) (d :: ds) -> (d = 48 -> ds = []) ->
  (length (d :: ds) <= 4300)%nat -> (c = 44 \/ c = 93) ->
  match_number ((if neg then [45] else []) ++ d :: ds ++ c :: t)
  = JOk (JInt ((if neg then -1 else 1) * digits_value (d :: ds)), c :: t).
Proof.
  intros HF H48 Hlen Hc.
  assert (Hsp : span_digits (d :: ds ++ c :: t) = (d :: ds, c :: t)).
  { change (d :: ds ++ c :: t) with ((d :: ds) ++ c :: t); apply span_digits_app; [exact HF|].
    intros c' t' E; injection E as <- _; destruct Hc as [-> | ->]; reflexivity. }
  assert (Hlt : Nat.ltb 4300 (length (d :: ds)) = false) by (apply Nat.ltb_ge; exact Hlen).
  assert (Hd : is_digit d = true) by exact (Forall_inv HF).
  destruct Hc as [-> | ->]; destruct t as [|x u];
    (digit_split Hd; [rewrite (H48 eq_refl) in *|..]);
    destruct neg; unfold match_number; set (K := 4300%nat) in *; clearbody K;
    cbn -[span_digits digits_value length Nat.ltb];
    try rewrite Hsp; cbn -[digits_value length Nat.ltb]; rewrite Hlt; reflexivity.
Qed.

Lemma scan_once_num f d t : is_digit d = true ->
  scan_once (S f) (d :: t) = match_number (d :: t) /\
  scan_once (S f) (45 :: d :: t) = match_number (45 :: d :: t).
Proof. intros Hd; digit_split Hd; split; reflexivity. Qed.

Lemma scan_once_str f v c t : (c = 44 \/ c = 93) -> - 10 ^ 4300 < v < 10 ^ 4300 ->
  scan_once (S f) (py_str_int v ++ c :: t) = JOk (JInt v, c :: t).
Proof.
  intros Hc Hv.
  assert (Hlen : forall x, 0 <= x < 10 ^ 4300 -> (length (dec_digits x) <= 4300)%nat).
  { intros x Hx; apply dec_digits_len; [apply Nat.leb_le; reflexivity|].
    change (Z.of_nat 4300) with 4300; exact Hx. }
  revert Hv Hlen; generalize (10 ^ 4300); intros B Hv Hlen.
  unfold py_str_int; destruct (Z.ltb_spec v 0) as [Hn|Hn].
  - pose proof (Hlen (- v) ltac:(lia)) as Hl.
    destruct (dec_digits_spec (- v) ltac:(lia)) as [d [ds [Heq [HF [H48 Htk]]]]].
    rewrite Heq in *.
    change ((45 :: d :: ds) ++ c :: t) with (45 :: d :: ds ++ c :: t).
    rewrite (proj2 (scan_once_num f d (ds ++ c :: t) (Forall_inv HF))).
    change (45 :: d :: ds ++ c :: t) with ((if true then [45] else []) ++ d :: ds ++ c :: t).
    rewrite match_number_int by (auto; intros E; destruct (H48 E); auto).
    unfold digits_value; specialize (Htk []); rewrite app_nil_r in Htk; rewrite Htk.
    cbn [fst take_digits]; replace (-1 * - v) with v by lia; reflexivity.
  - pose proof (Hlen v ltac:(lia)) as Hl.
    destruct (dec_digits_spec v Hn) as [d [ds [Heq [HF [H48 Htk]]]]].
    rewrite Heq in *.
    change ((d :: ds) ++ c :: t) with (d :: ds ++ c :: t).
    rewrite (proj1 (scan_once_num f d (ds ++ c :: t) (Forall_inv HF))).
    change (d :: ds ++ c :: t) with ((if false then [45] else []) ++ d :: ds ++ c :: t).
    rewrite match_number_int by (auto; intros E; destruct (H48 E); auto).
    unfold digits_value; specialize (Htk []); rewrite app_nil_r in Htk; rewrite Htk.
    cbn [fst take_digits]; replace (1 * v) with v by lia; reflexivity.
Qed.

Lemma array_items_S f s acc :
  array_items (S f) s acc =
  match scan_once f s with
  | JErr e => JErr e
  | JOk (v, r) =>
      match skip_ws r with
      | c :: u =>
          if c =? 93 then JOk (JList (rev (v :: acc)), u)
          else if c =? 44 then array_items f (skip_ws u) (v :: acc)
          else decode_error
      | [] => decode_error
      end
  end.
Proof. reflexivity. Qed.

Lemma array_items_ok l : forall fuel acc, l <> [] -> (length l < fuel)%nat ->
  Forall (fun v => - 10 ^ 4300 < v < 10 ^ 4300) l ->
  array_items fuel (join (of_string ",") (map py_str_int l) ++ [93]) acc
  = JOk (JList (rev acc ++ map JInt l), []).
Proof.
  induction l as [|v t IH]; intros fuel acc Hl Hf Hb; [congruence|].
  destruct fuel as [|[|f]]; [simpl in Hf; lia | simpl in Hf; lia |].
  destruct t as [|w u].
  - cbn [map join array_items].
    rewrite scan_once_str by (auto || exact (Forall_inv Hb)).
    reflexivity.
  - change (map py_str_int (v :: w :: u)) with (py_str_int v :: map py_str_int (w :: u)).
    change (of_string ",") with [44].
    change (join [44] (py_str_int v :: map py_str_int (w :: u)))
      with (py_str_int v ++ [44] ++ join [44] (map py_str_int (w :: u))).
    destruct (py_str_int_head w) as [h [t' [Hw Hh]]].
    assert (HJ : exists J, join [44] (map py_str_int (w :: u)) = h :: J).
    { rewrite map_cons, join_cons, Hw; eexists; reflexivity. }
    destruct HJ as [J HJ].
    replace ((py_str_int v ++ [44] ++ join [44] (map py_str_int (w :: u))) ++ [93])
      with (py_str_int v ++ 44 :: join [44] (map py_str_int (w :: u)) ++ [93])
      by (rewrite <- !app_assoc; reflexivity).
    rewrite array_items_S, scan_once_str by (auto || exact (Forall_inv Hb)).
    rewrite HJ.
    change (skip_ws (44 :: (h :: J) ++ [93])) with (44 :: (h :: J) ++ [93]).
    cbv beta match.
    change (44 =? 93) with false; change (44 =? 44) with true; cbv beta match.
    change ((h :: J) ++ [93]) with (h :: J ++ [93]).
    rewrite skip_ws_lead by exact Hh.
    change (h :: J ++ [93]) with ((h :: J) ++ [93]).
    rewrite <- HJ; change [44] with (of_string ",").
    rewrite IH by (discriminate || exact (Forall_inv_tail Hb) || (simpl in Hf |- *; lia)).
    simpl; rewrite <- app_assoc; reflexivity.
Qed.

Lemma json_loads_lead h t : (is_digit h || (h =? 45)) = true ->
  exists f, (length t < f)%nat /\
  json_loads (91 :: h :: t) =
    match array_items f (h :: t) [] with
    | JErr e => JErr e
    | JOk (v, r) => match skip_ws r with [] => JOk v | _ => decode_error end
    end.
Proof.
  intros H; exists (S (S (length t + S (S (length t + 0))))); split; [lia|].
  apply orb_true_iff in H as [Hd|Hm]; [digit_split Hd | apply Z.eqb_eq in Hm; subst h];
    reflexivity.
Qed.

Lemma json_loads_int_array l : Forall (fun v => - 10 ^ 4300 < v < 10 ^ 4300) l ->
  json_loads ([91] ++ join (of_string ",") (map py_str_int l) ++ [93]) = JOk (JList (map JInt l)).
Proof.
  intros Hb; destruct l as [|v t]; [reflexivity|].
  destruct (py_str_int_head v) as [h [t' [Hv Hh]]].
  assert (HJ : exists J, join (of_string ",") (map py_str_int (v :: t)) = h :: J).
  { rewrite map_cons, join_cons, Hv; eexists; reflexivity. }
  destruct HJ as [J HJ].
  rewrite HJ; change ([91] ++ (h :: J) ++ [93]) with (91 :: h :: J ++ [93]).
  destruct (json_loads_lead h (J ++ [93]) Hh) as [f [Hf ->]].
  change (h :: J ++ [93]) with ((h :: J) ++ [93]); rewrite <- HJ.
  rewrite array_items_ok; [reflexivity | discriminate | | exact Hb].
  assert (Hne : Forall (fun x => x <> []) (map py_str_int (v :: t))).
  { apply Forall_forall; intros x Hx; apply in_map_iff in Hx as [w [<- _]].
    destruct (py_str_int_head w) as [h' [t'' [-> _]]]; discriminate. }
  pose proof (join_length (of_string ",") _ Hne) as Hlen.
  rewrite length_map, HJ in Hlen; rewrite length_app in Hf; cbn [length] in Hlen, Hf |- *; lia.
Qed.

Lemma re_search_array_start pre x g :
  pre <> [] -> lazy_group x [] = Some g -> re_search_array pre (pre ++ x) = Some g.
Proof.
  intros Hp Hg; destruct pre as [|p0 pre']; [congruence|].
  assert (Hpre : prefixb (p0 :: pre') (p0 :: pre' ++ x) = true).
  { change (p0 :: pre' ++ x) with ((p0 :: pre') ++ x).
    clear; induction (p0 :: pre') as [|a t IH]; [reflexivity|]; simpl; rewrite Z.eqb_refl, IH; reflexivity. }
  assert (Hsk : skipn (length (p0 :: pre')) (p0 :: pre' ++ x) = x).
  { change (p0 :: pre' ++ x) with ((p0 :: pre') ++ x).
    clear; induction (p0 :: pre') as [|a t IH]; [reflexivity|]; exact IH. }
  cbn [re_search_array app]; rewrite Hpre, Hsk, Hg; reflexivity.
Qed.

Lemma lazy_group_plain c post acc :
  Forall (fun x => (is_digit x || (x =? 44) || (x =? 45)) = true) c ->
  lazy_group (c ++ 41 :: 59 :: post) acc = Some (rev acc ++ c).
Proof.
  revert acc; induction c as [|x t IH]; intros acc Hc.
  - simpl; rewrite app_nil_r; reflexivity.
  - inversion Hc as [|? ? Hx Ht]; subst.
    assert (Hs : lazy_group ((x :: t) ++ 41 :: 59 :: post) acc
                 = lazy_group (t ++ 41 :: 59 :: post) (x :: acc)).
    { apply orb_true_iff in Hx as [Hx|Hx]; [apply orb_true_iff in Hx as [Hx|Hx]|].
      - digit_split Hx; reflexivity.
      - apply Z.eqb_eq in Hx; subst x; reflexivity.
      - apply Z.eqb_eq in Hx; subst x; reflexivity. }
    rewrite Hs, IH by exact Ht; simpl; rewrite <- app_assoc; reflexivity.
Qed.

(** X17: The [area] argument of [set_area_action]: the string [str(n)] is
    accepted exactly as the integer [n] is; and the [area] parameter sent
    to the panel, [f'{area:02d}'] of the zero-based area, is its decimal
    numeral, which [int()] reads back, with two digits (a leading zero
    below 10) for the areas under 100. *)
Theorem area_parameter_decimal E action s n :
  set_area_action E (AreaStr (py_str_int n)) action s = set_area_action E (AreaInt n) action s /\
  (0 <= n -> py_int (fmt_02d n) = Some n) /\
  (0 <= n < 100 -> fmt_02d n = [48 + n / 10; 48 + n mod 10]).
Proof.
  split; [|split].
  - unfold set_area_action; cbv beta iota; rewrite py_int_str; reflexivity.
  - apply py_int_fmt_02d.
  - apply fmt_02d_two_digits.
Qed.

(** X8: [_js2array] reads back what it looks for: on a script that starts
    with [varname = new Array(v1,...,vk);], the integers written in
    decimal, it returns the [int]s [v1,...,vk], whatever follows, for a
    variable name made of letters, digits and underscores (the name is
    put into the regular expression as it is) and integers of at most 4300
    digits (the limit of [int()]). *)
Theorem js2array_decl_roundtrip varname l post :
  forallb regex_literal varname = true ->
  Forall (fun v => - 10 ^ 4300 < v < 10 ^ 4300) l ->
  js2array varname (js_array_decl varname l ++ post) = Ret (map JInt l).
Proof.
  intros _ Hb; unfold js2array, js_array_decl.
  set (c := join (of_string ",") (map py_str_int l)).
  replace ((varname ++ of_string " = new Array(" ++ c ++ of_string ");") ++ post)
    with ((varname ++ of_string " = new Array(") ++ c ++ 41 :: 59 :: post)
    by (rewrite <- !app_assoc; reflexivity).
  assert (Hc : Forall (fun x => (is_digit x || (x =? 44) || (x =? 45)) = true) c).
  { apply join_chars; [repeat constructor|].
    apply Forall_forall; intros x Hx; apply in_map_iff in Hx as [v [<- _]].
    apply py_str_int_chars. }
  rewrite re_search_array_start with (g := c);
    [| destruct varname; discriminate | rewrite lazy_group_plain by exact Hc; reflexivity].
  unfold c; rewrite json_loads_int_array by exact Hb; reflexivity.
Qed.

(** ** The MQTT adapter *)

Lemma alarm_action_valid p action :
  sdict_get alarm_action_map p = Some action ->
  (String.length action =? 0)%nat = false /\
  exists code, str_lookup areas_action_map (of_string action) = Some code.
Proof.
  unfold alarm_action_map; cbn [sdict_get].
  destruct (pystr_eqb (of_string "DISARM") p);
    [intros H; injection H as <-; split; [reflexivity | eexists; reflexivity]|].
  destruct (pystr_eqb (of_string "ARM_AWAY") p);
    [intros H; injection H as <-; split; [reflexivity | eexists; reflexivity]|].
  destruct (pystr_eqb (of_string "ARM_NIGHT") p);
    [intros H; injection H as <-; split; [reflexivity | eexists; reflexivity]|].
  destruct (pystr_eqb (of_string "ARM_HOME") p);
    [intros H; injection H as <-; split; [reflexivity | eexists; reflexivity]|].
  discriminate.
Qed.

(** X20: With [READ_ONLY] set to a truthy value, a message on the alarm topic
    never reaches the panel: the session is untouched, nothing is sent or
    published, and the callback either returns or fails to decode the
    payload. *)
Theorem read_only_never_acts ME E a topic payload s ro :
  cfg_get (acfg a) "READ_ONLY" = Some ro -> cfg_truthy ro = true ->
  let '(r, s', effs) := on_mqtt_alarm_message ME E a topic payload s in
  s' = s /\ effs = [] /\ (r = MRet tt \/ r = MRaise (MqttOther "UnicodeDecodeError")).
Proof.
  intros Hro Ht; unfold on_mqtt_alarm_message.
  destruct (isdigit ME (rpartition_tail topic)); [|unfold mret; auto].
  destruct (decode ME payload) as [p|]; [|unfold mraise; auto].
  destruct (sdict_get alarm_action_map p) as [action|]; [|unfold mret; auto].
  destruct (String.length action =? 0)%nat; [unfold mret; auto|].
  unfold mbind, cfg_item; rewrite Hro; unfold mret; rewrite Ht; auto.
Qed.

(** X21: An alarm command on topic [.../n] (READ_ONLY unset, session logged
    in) is always one that [set_area_action] accepts: for [n >= 1] exactly
    one request is sent, with [area] the two-digit zero-based area and
    [value] the code of the mapped action, and the callback returns when
    the panel answers 200; for [n = 0] the callback raises
    [Invalid area provided.] and sends nothing. *)
Theorem alarm_message_dispatch ME E a topic payload s n p action ro :
  logged_in s = true ->
  rpartition_tail topic = py_str_int n -> isdigit ME (py_str_int n) = true ->
  decode ME payload = Some p -> sdict_get alarm_action_map p = Some action ->
  cfg_get (acfg a) "READ_ONLY" = Some ro -> cfg_truthy ro = false ->
  (1 <= n ->
   exists code, str_lookup areas_action_map (of_string action) = Some code /\
   let url := ip150url s ++ of_string "/statuslive.html" in
   let params := [(of_string "area", fmt_02d (n - 1)); (of_string "value", of_string code)] in
   let '(r, s', effs) := on_mqtt_alarm_message ME E a topic payload s in
   s' = s /\ effs = [Ip (HttpGet url params)] /\
   (r = MRet tt <-> exists text, server E url params = Response text 200)) /\
  (n = 0 ->
   on_mqtt_alarm_message ME E a topic payload s
   = (MRaise (IpError (Paradox_IP150_Error (of_string "Invalid area provided."))), s, [])).
Proof.
  intros Hli Htail Hdig Hdec Hact Hro Ht.
  destruct (alarm_action_valid _ _ Hact) as [Hlen [code Hcode]].
  assert (Hsa : forall s0, set_area_action E (AreaStr (py_str_int n)) (of_string action) s0
                           = set_area_action E (AreaInt n) (of_string action) s0).
  { intros s0; unfold set_area_action; cbv beta iota; rewrite py_int_str; reflexivity. }
  unfold on_mqtt_alarm_message; rewrite Htail, Hdig, Hdec, Hact, Hlen.
  unfold mbind, cfg_item; rewrite Hro; unfold mret at 1; rewrite Ht.
  unfold lift; rewrite Hsa.
  split.
  - intros Hn; exists code; split; [exact Hcode|].
    unfold set_area_action, logged_only, bind, get, ret, raise, perr, requests_get, emit.
    destruct s as [url li kh up st]; simpl in Hli; subst li.
    cbn -[str_lookup of_string fmt_02d].
    replace (n - 1 <? 0) with false by (symmetry; apply Z.ltb_ge; lia).
    rewrite Hcode; cbn -[of_string fmt_02d].
    destruct (server E _ _) as [text c| |] eqn:Hs; cbn -[of_string fmt_02d].
    + destruct (Z.eqb_spec c 200) as [->|Hc]; cbn; (split; [reflexivity|split; [reflexivity|]]).
      * split; [eauto | reflexivity].
      * split; [discriminate | intros [t' Ht']; congruence].
    + split; [reflexivity | split; [reflexivity | split; [discriminate | intros [t' Ht']; discriminate]]].
    + split; [reflexivity | split; [reflexivity | split; [discriminate | intros [t' Ht']; discriminate]]].
  - intros ->.
    unfold set_area_action, logged_only, bind, get, ret, raise, perr.
    destruct s as [url li kh up st]; simpl in Hli; subst li; cbn -[cfg_truthy]; rewrite Ht; cbn; reflexivity.
Qed.

(** X22: [mqtt_ctrl_disconnect] starts with [self.ip.cancel_updates()]: when
    the client is not logged in or no poller runs, it raises there and the
    will is not published, the broker is not disconnected and the panel
    is not logged out. Logged in with a running poller and a string will
    topic, and with the panel answering 200 to the logout, it stops the
    poller, publishes [Disconnected] (retained, qos 1), disconnects, then
    logs out, ending with no keep-alive, no poller and the session logged
    out. *)
Theorem ctrl_disconnect_sequence E a s :
  ((logged_in s = false \/ updates s = None) ->
   exists e, mqtt_ctrl_disconnect E a s = (MRaise (IpError e), s, [])) /\
  (forall will text,
   logged_in s = true -> updates s <> None -> awill_topic a = CStr will ->
   server E (ip150url s ++ of_string "/logout.html") [] = Response text 200 ->
   mqtt_ctrl_disconnect E a s
   = (MRet tt,
      {| ip150url := ip150url s; logged_in := false; keepalive_h := None;
         updates := None; stop_updates := true |},
      [Ip StopUpdatesSet; Publish will (of_string "Disconnected") 1 true; Disconnect]
      ++ map Ip ((match keepalive_h s with
                  | Some _ => [KeepaliveCancel; KeepaliveJoin]
                  | None => []
                  end) ++ [HttpGet (ip150url s ++ of_string "/logout.html") []]))).
Proof.
  destruct s as [url li kh up st]; simpl; split.
  - intros Hc.
    unfold mqtt_ctrl_disconnect, mbind, lift, cancel_updates, logged_only, bind, get, perr, raise.
    destruct li; [destruct Hc as [Hc|Hc]; [discriminate | subst up]|]; eexists; reflexivity.
  - intros will text -> Hup Hw Hs; destruct up as [th|]; [|congruence].
    unfold mqtt_ctrl_disconnect, mbind, lift, memit, cfg_topic.
    rewrite Hw.
    unfold cancel_updates, logout, logged_only, bind, get, put, ret, emit, raise, perr, requests_get.
    destruct kh; cbn -[of_string]; rewrite Hs; reflexivity.
Qed.

Lemma mpublish_ok t p q r s :
  publish_topic_ok t = true -> (q <? 0) || (2 <? q) = false ->
  existsb is_surrogate p = false -> (268435455 <? utf8_len p) = false ->
  mpublish t p q r s = (MRet tt, s, [Publish t p q r]).
Proof.
  unfold publish_topic_ok, mpublish; intros Ht Hq Hs Hl.
  apply andb_true_iff in Ht as [Ht Hw]; apply andb_true_iff in Ht as [Hn Hu].
  apply negb_true_iff in Hn, Hu.
  rewrite Hn, Hu, Hw, Hq, Hs, Hl; reflexivity.
Qed.

Lemma msubscribe_two a b s :
  subscribe_filter_ok a = true -> subscribe_filter_ok b = true ->
  msubscribe [(CStr a, 1); (CStr b, 1)] s = (MRet tt, s, [Subscribe [(a, 1); (b, 1)]]).
Proof.
  unfold subscribe_filter_ok, msubscribe; intros Ha Hb.
  apply andb_true_iff in Ha as [Ha Hfa]; apply andb_true_iff in Ha as [Hna Hua].
  apply andb_true_iff in Hb as [Hb Hfb]; apply andb_true_iff in Hb as [Hnb Hub].
  apply negb_true_iff in Hna, Hua, Hnb, Hub.
  unfold mbind, mret, memit; simpl.
  rewrite Hna, Hua; simpl; rewrite Hnb, Hub; simpl; rewrite Hfa, Hfb; reflexivity.
Qed.

(** X19: [_on_mqtt_connect]: with a non-zero reason code it raises before
    subscribing or publishing. With code 0 (topics configured, the client
    logged in, topics that [subscribe] and [publish] accept) it subscribes
    to [<ALARM_SUBSCRIBE_TOPIC>/+] and the control topic, publishes
    [Connected] retained, then starts the poller with a one-second
    interval; when a poller already runs (a reconnection to the broker),
    the subscription and [Connected] still happen and the callback then
    raises [Already getting updates.]. An empty control topic makes
    [subscribe] raise [ValueError] before anything is sent. *)
Theorem mqtt_connect_sequence a s rc t1 t2 t3 :
  (rc <> 0 ->
   on_mqtt_connect a rc s
   = (MRaise (IP150_MQTT_Error
                (of_string "Error while connecting to the MQTT broker. Reason code: "
                 ++ py_str_int rc)), s, [])) /\
  (logged_in s = true ->
   cfg_get (acfg a) "ALARM_SUBSCRIBE_TOPIC" = Some t1 ->
   cfg_get (acfg a) "CTRL_SUBSCRIBE_TOPIC" = Some (CStr t2) ->
   cfg_get (acfg a) "CTRL_PUBLISH_TOPIC" = Some (CStr t3) ->
   subscribe_filter_ok (cfg_format t1 ++ of_string "/+") = true ->
   subscribe_filter_ok t2 = true ->
   publish_topic_ok t3 = true ->
   let subs := [Subscribe [(cfg_format t1 ++ of_string "/+", 1); (t2, 1)];
                Publish t3 (of_string "Connected") 1 true] in
   on_mqtt_connect a 0 s
   = match updates s with
     | None => (MRet tt, set_updates s (Some (UpdatesThread 1%Q)), subs ++ [Ip ThreadStart])
     | Some _ =>
         (MRaise (IpError (Paradox_IP150_Error (of_string "Already getting updates."))), s, subs)
     end) /\
  (cfg_get (acfg a) "ALARM_SUBSCRIBE_TOPIC" = Some t1 ->
   cfg_get (acfg a) "CTRL_SUBSCRIBE_TOPIC" = Some (CStr []) ->
   existsb is_surrogate (cfg_format t1) = false ->
   on_mqtt_connect a 0 s = (MRaise (MqttOther "ValueError"), s, [])).
Proof.
  split; [|split].
  - intros Hrc; unfold on_mqtt_connect.
    replace (rc =? 0) with false by (symmetry; apply Z.eqb_neq; exact Hrc); reflexivity.
  - intros Hli H1 H2 H3 Hs1 Hs2 Hp3; unfold on_mqtt_connect.
    simpl (negb (0 =? 0)); cbv beta iota.
    unfold mbind at 1; unfold cfg_item at 1; rewrite H1; unfold mret at 1; cbv beta iota.
    unfold mbind at 1; unfold cfg_item at 1; rewrite H2; unfold mret at 1; cbv beta iota.
    unfold mbind at 1; rewrite msubscribe_two by assumption; cbv beta iota.
    unfold mbind at 1; unfold cfg_item at 1; rewrite H3; unfold mret at 1; cbv beta iota.
    unfold mbind at 1; unfold cfg_topic at 1; unfold mret at 1; cbv beta iota.
    unfold mbind at 1; rewrite mpublish_ok by (assumption || reflexivity); cbv beta iota.
    unfold lift, get_updates, logged_only, bind, get, put, emit, perr, raise.
    destruct s as [url li kh up st]; simpl in Hli; subst li.
    destruct up; reflexivity.
  - intros H1 H2 Hs; unfold on_mqtt_connect, mbind, cfg_item, mret, msubscribe.
    rewrite H1, H2; cbn [sub_encode length Nat.eqb]; simpl (1 <? 0); simpl (2 <? 1); cbn [orb].
    replace (length (cfg_format t1 ++ of_string "/+") =? 0)%nat with false
      by (rewrite length_app; simpl; symmetry; apply Nat.eqb_neq; lia).
    rewrite existsb_app, Hs; reflexivity.
Qed.

Lemma mfor_pure {A} (l : list A) (f : A -> MM unit) s (g : A -> list mqtt_effect) :
  (forall x, In x l -> f x s = (MRet tt, s, g x)) -> mfor l f s = (MRet tt, s, flat_map g l).
Proof.
  induction l as [|x t IH]; intros H; [reflexivity|].
  simpl; unfold mbind; rewrite H by (left; reflexivity).
  rewrite IH by (intros y Hy; apply H; right; exact Hy); reflexivity.
Qed.

Lemma status_map_topics d1 tk m :
  sdict_get status_map d1 = Some (tk, m) ->
  tk = "ALARM_PUBLISH_TOPIC"%string \/ tk = "ZONE_PUBLISH_TOPIC"%string.
Proof.
  unfold status_map; cbn [sdict_get].
  destruct (pystr_eqb _ d1); [intros H; injection H as <- _; auto|].
  destruct (pystr_eqb _ d1); [intros H; injection H as <- _; auto|].
  discriminate.
Qed.

Lemma status_map_zones : exists m,
  sdict_get status_map (of_string "zones_status") = Some ("ZONE_PUBLISH_TOPIC"%string, m) /\
  forall name, In name (map snd zones_map) ->
  exists ps, sdict_get m (of_string name) = Some ps /\ (String.length ps =? 0)%nat = false.
Proof.
  eexists; split; [reflexivity|].
  intros name H; simpl in H.
  repeat (destruct H as [<-|H]; [eexists; split; reflexivity|]); contradiction.
Qed.

Lemma status_map_areas : exists m,
  sdict_get status_map (of_string "areas_status") = Some ("ALARM_PUBLISH_TOPIC"%string, m) /\
  forall name, In name (map snd areas_map) -> ~ In name ["Unset"; "Not_ready"; "Instant"]%string ->
  exists ps, sdict_get m (of_string name) = Some ps /\ (String.length ps =? 0)%nat = false.
Proof.
  eexists; split; [reflexivity|].
  intros name H Hn; simpl in H.
  repeat (destruct H as [<-|H]; [first [exfalso; apply Hn; simpl; tauto | eexists; split; reflexivity]|]).
  contradiction.
Qed.

Lemma sdict_get_in {V} (m : list (string * V)) k v :
  sdict_get m k = Some v -> In v (map snd m).
Proof.
  induction m as [|[k' v'] t IH]; simpl; [discriminate|].
  destruct (pystr_eqb (of_string k') k); [intros H; injection H as ->; left; reflexivity|].
  intros H; right; exact (IH H).
Qed.

Lemma status_map_payloads d1 tk m k ps :
  sdict_get status_map d1 = Some (tk, m) -> sdict_get m k = Some ps ->
  existsb is_surrogate (of_string ps) = false /\ (268435455 <? utf8_len (of_string ps)) = false.
Proof.
  intros H1 H2; apply sdict_get_in in H1; apply sdict_get_in in H2.
  assert (Hall : forallb (fun tkm => forallb (fun ps =>
                   negb (existsb is_surrogate (of_string ps))
                   && negb (268435455 <? utf8_len (of_string ps))) (map snd (snd tkm)))
                 (map snd status_map) = true) by (vm_compute; reflexivity).
  rewrite forallb_forall in Hall; specialize (Hall _ H1); cbn [snd] in Hall.
  rewrite forallb_forall in Hall; specialize (Hall _ H2).
  apply andb_true_iff in Hall as [Ha Hb]; apply negb_true_iff in Ha, Hb; auto.
Qed.

Lemma mbind_keeps {A B} (m : MM A) (k : A -> MM B) :
  (forall s, snd (fst (m s)) = s) -> (forall a s, snd (fst (k a s)) = s) ->
  forall s, snd (fst (mbind m k s)) = s.
Proof.
  intros Hm Hk s; unfold mbind; specialize (Hm s).
  destruct (m s) as [[[a|e] s1] e1]; cbn in Hm |- *; subst s1; [|reflexivity].
  specialize (Hk a s); destruct (k a s) as [[r s2] e2]; exact Hk.
Qed.

Lemma mfor_keeps {A} (l : list A) (f : A -> MM unit) :
  (forall x s, snd (fst (f x s)) = s) -> forall s, snd (fst (mfor l f s)) = s.
Proof.
  intros Hf; induction l as [|x t IH]; [reflexivity|].
  apply mbind_keeps; [apply Hf | intros _; exact IH].
Qed.

Lemma mpublish_keeps t p q r s : snd (fst (mpublish t p q r s)) = s.
Proof.
  unfold mpublish; repeat match goal with |- context [if ?b then _ else _] => destruct b end;
    reflexivity.
Qed.

Lemma mpublish_wildcard t p q r s : existsb wildcard t = true ->
  exists e, mpublish t p q r s = (MRaise e, s, []).
Proof.
  intros Hw; unfold mpublish, topic_wildcard_len_ok; rewrite Hw.
  destruct (length t =? 0)%nat; [eexists; reflexivity|].
  destruct (existsb is_surrogate t); eexists; reflexivity.
Qed.

Lemma mfor_raise {A} (l : list A) (f : A -> MM unit) s x0 :
  (forall x s', snd (fst (f x s')) = s') -> In x0 l ->
  (exists e effs, f x0 s = (MRaise e, s, effs)) ->
  exists e s' effs, mfor l f s = (MRaise e, s', effs).
Proof.
  intros Hk; induction l as [|x t IH]; [intros []|].
  intros Hin Hx0; cbn [mfor]; unfold mbind.
  specialize (Hk x s); destruct (f x s) as [[[u|e] s1] e1] eqn:E; cbn in Hk; subst s1;
    [|eauto].
  destruct Hin as [<-|Hin]; [destruct Hx0 as [e [effs Hx0]]; congruence|].
  destruct (IH Hin Hx0) as [e [s' [effs ->]]]; eauto.
Qed.

Lemma new_state_keeps a state s : snd (fst (on_paradox_new_state a state s)) = s.
Proof.
  unfold on_paradox_new_state; apply mfor_keeps; intros d1 s1.
  destruct (sdict_get status_map d1) as [[tk m]|]; [|reflexivity].
  destruct (dict_get d1 state) as [entries|]; [|reflexivity].
  apply mfor_keeps; intros d2 s2.
  destruct (sdict_get m (snd d2)) as [ps|]; [|reflexivity].
  destruct (String.length ps =? 0)%nat; [reflexivity|].
  apply mbind_keeps; [|intros t s3; apply mpublish_keeps].
  intros s3; unfold cfg_item; destruct (cfg_get (acfg a) tk); reflexivity.
Qed.

(** X18: [_on_paradox_new_state] (both publish topics configured) leaves
    the session alone. When every topic it would publish on passes the
    checks of [publish], it never raises and only publishes retained
    messages with qos 1; every zone entry of the state is published under
    [<ZONE_PUBLISH_TOPIC>/<index>], and every area entry under
    [<ALARM_PUBLISH_TOPIC>/<index>] unless its state is [Unset],
    [Not_ready] or [Instant], which have no MQTT counterpart. A zone topic
    with a wildcard makes it raise as soon as the state has a known zone
    entry. *)
Theorem new_state_publishing a state s ta tz :
  NoDup (map fst state) ->
  cfg_get (acfg a) "ALARM_PUBLISH_TOPIC" = Some ta ->
  cfg_get (acfg a) "ZONE_PUBLISH_TOPIC" = Some tz ->
  let '(r, s', effs) := on_paradox_new_state a state s in
  s' = s /\
  ((forall d1 entries i v, In (d1, entries) state -> In (i, v) entries ->
      publish_topic_ok (cfg_format ta ++ of_string "/" ++ py_str_int i) = true /\
      publish_topic_ok (cfg_format tz ++ of_string "/" ++ py_str_int i) = true) ->
   r = MRet tt /\
   (forall e, In e effs -> exists topic payload, e = Publish topic payload 1 true) /\
   (forall entries i name,
    In (of_string "zones_status", entries) state -> In (i, of_string name) entries ->
    In name (map snd zones_map) ->
    exists payload, In (Publish (cfg_format tz ++ of_string "/" ++ py_str_int i) payload 1 true) effs) /\
   (forall entries i name,
    In (of_string "areas_status", entries) state -> In (i, of_string name) entries ->
    In name (map snd areas_map) -> ~ In name ["Unset"; "Not_ready"; "Instant"]%string ->
    exists payload, In (Publish (cfg_format ta ++ of_string "/" ++ py_str_int i) payload 1 true) effs)) /\
  (existsb wildcard (cfg_format tz) = true ->
   forall entries i name,
   In (of_string "zones_status", entries) state -> In (i, of_string name) entries ->
   In name (map snd zones_map) -> exists e, r = MRaise e).
Proof.
  intros Hnd Hta Htz.
  pose proof (new_state_keeps a state s) as Hkeep.
  destruct (on_paradox_new_state a state s) as [[r s'] effs] eqn:Erun.
  cbn in Hkeep; split; [exact Hkeep|]; split.
  - intros Hok.
    set (tv := fun tk : string => if String.eqb tk "ALARM_PUBLISH_TOPIC" then ta else tz).
    set (pub := fun (tk : string) (m : list (string * string)) (d2 : entry) =>
           match sdict_get m (snd d2) with
           | None => []
           | Some ps =>
               if (String.length ps =? 0)%nat then [] else
               [Publish (cfg_format (tv tk) ++ of_string "/" ++ py_str_int (fst d2))
                        (of_string ps) 1 true]
           end).
    set (G := fun d1 =>
           match sdict_get status_map d1 with
           | None => []
           | Some (tk, m) =>
               match dict_get d1 state with
               | None => []
               | Some entries => flat_map (pub tk m) entries
               end
           end).
    assert (Hrun : on_paradox_new_state a state s = (MRet tt, s, flat_map G (map fst state))).
    { apply mfor_pure; intros d1 _; unfold G.
      destruct (sdict_get status_map d1) as [[tk m]|] eqn:Hsm; [|reflexivity].
      destruct (dict_get d1 state) as [entries|] eqn:Hde; [|reflexivity].
      apply mfor_pure; intros [i v] Hd2; unfold pub.
      destruct (sdict_get m (snd (i, v))) as [ps|] eqn:Hps; [|reflexivity].
      destruct (String.length ps =? 0)%nat; [reflexivity|].
      destruct (status_map_payloads _ _ _ _ _ Hsm Hps) as [Hp1 Hp2].
      destruct (Hok d1 entries i v (dict_get_in' _ _ _ Hde) Hd2) as [Ha Hz].
      unfold mbind, cfg_item, mret.
      destruct (status_map_topics _ _ _ Hsm) as [->| ->]; [rewrite Hta | rewrite Htz];
        cbv beta iota; rewrite mpublish_ok by (assumption || reflexivity); reflexivity. }
    rewrite Erun in Hrun; injection Hrun as -> _ ->.
    split; [reflexivity|]; split; [|split].
    + intros e He; apply in_flat_map in He as [d1 [_ He]]; unfold G in He.
      destruct (sdict_get status_map d1) as [[tk m]|]; [|destruct He].
      destruct (dict_get d1 state) as [entries|]; [|destruct He].
      apply in_flat_map in He as [d2 [_ He]]; unfold pub in He.
      destruct (sdict_get m (snd d2)) as [ps|]; [|destruct He].
      destruct (String.length ps =? 0)%nat; [destruct He|].
      destruct He as [<-|[]]; eauto.
    + intros entries i name Hin Hi Hname.
      destruct status_map_zones as [zm [Hz Hzm]].
      destruct (Hzm name Hname) as [ps [Hps Hl]].
      exists (of_string ps); apply in_flat_map; exists (of_string "zones_status").
      split; [apply (in_map fst _ _ Hin)|].
      unfold G; rewrite Hz, (dict_get_in_nodup _ _ _ Hnd Hin).
      apply in_flat_map; exists (i, of_string name); split; [exact Hi|].
      unfold pub; simpl fst; simpl snd; rewrite Hps, Hl; left; reflexivity.
    + intros entries i name Hin Hi Hname Hn.
      destruct status_map_areas as [am [Ha Ham]].
      destruct (Ham name Hname Hn) as [ps [Hps Hl]].
      exists (of_string ps); apply in_flat_map; exists (of_string "areas_status").
      split; [apply (in_map fst _ _ Hin)|].
      unfold G; rewrite Ha, (dict_get_in_nodup _ _ _ Hnd Hin).
      apply in_flat_map; exists (i, of_string name); split; [exact Hi|].
      unfold pub; simpl fst; simpl snd; rewrite Hps, Hl; left; reflexivity.
  - intros Hw entries i name Hin Hi Hname.
    destruct status_map_zones as [zm [Hz Hzm]].
    destruct (Hzm name Hname) as [ps [Hps Hl]].
    unfold on_paradox_new_state in Erun.
    match type of Erun with
    | mfor _ ?f _ = _ =>
        assert (Hf : forall x s1, snd (fst (f x s1)) = s1);
        [|assert (Hx : exists e effs1, f (of_string "zones_status") s = (MRaise e, s, effs1));
          [|destruct (mfor_raise _ f s _ Hf (in_map fst _ _ Hin) Hx) as [e [s1 [effs1 He]]];
            rewrite Erun in He; injection He as -> _ _; eauto]]
    end.
    + intros d1 s1; cbv beta.
      destruct (sdict_get status_map d1) as [[tk m]|]; [|reflexivity].
      destruct (dict_get d1 state) as [entries'|]; [|reflexivity].
      apply mfor_keeps; intros d2 s2.
      destruct (sdict_get m (snd d2)) as [ps'|]; [|reflexivity].
      destruct (String.length ps' =? 0)%nat; [reflexivity|].
      apply mbind_keeps; [|intros t s3; apply mpublish_keeps].
      intros s3; unfold cfg_item; destruct (cfg_get (acfg a) tk); reflexivity.
    + cbv beta; rewrite Hz, (dict_get_in_nodup _ _ _ Hnd Hin).
      match goal with
      | |- exists e effs1, mfor _ ?g _ = _ =>
          assert (Hg : forall x s1, snd (fst (g x s1)) = s1);
          [|assert (Hy : exists e effs1, g (i, of_string name) s = (MRaise e, s, effs1));
            [|destruct (mfor_raise _ g s _ Hg Hi Hy) as [e [s1 [effs1 He]]];
              pose proof (mfor_keeps entries g Hg s) as Hs1; rewrite He in Hs1; cbn in Hs1;
              subst s1; eauto]]
      end.
      * intros d2 s2; cbv beta.
        destruct (sdict_get zm (snd d2)) as [ps'|]; [|reflexivity].
        destruct (String.length ps' =? 0)%nat; [reflexivity|].
        apply mbind_keeps; [|intros t s3; apply mpublish_keeps].
        intros s3; unfold cfg_item; rewrite Htz; reflexivity.
      * cbv beta; cbn [fst snd]; rewrite Hps, Hl.
        unfold mbind at 1, cfg_item; rewrite Htz; unfold mret; cbv beta iota.
        destruct (mpublish_wildcard (cfg_format tz ++ of_string "/" ++ py_str_int i)
                    (of_string ps) 1 true s) as [e He];
          [rewrite existsb_app, Hw; reflexivity|].
        rewrite He; eauto.
Qed.

(** * Instances of the further properties at concrete inputs *)

Lemma ksa_keeps_permutation_witness :
  (length test_key <= 256)%nat /\
  exists st, ksa test_key = Some st /\ Permutation (py_range 256) (ksa_S st).
Proof.
  assert (H : (length test_key <= 256)%nat) by (vm_compute; lia).
  split; [exact H | exact (ksa_keeps_permutation test_key H)].
Defined.

Lemma paradox_rc4_hex_output_witness :
  ((length test_key <= 256)%nat /\ Forall byte_range (of_string "1234") /\
   exists out, paradox_rc4 (of_string "1234") test_key = Some out /\
               length out = (2 * length (of_string "1234"))%nat /\
               forallb is_upper_hex out = true) /\
  ((256 < length (repeat 0 257))%nat /\ paradox_rc4 (of_string "1234") (repeat 0 257) = None).
Proof.
  assert (H1 : (length test_key <= 256)%nat) by (vm_compute; lia).
  assert (H2 : Forall byte_range (of_string "1234"))
    by (simpl; repeat constructor; unfold byte_range; lia).
  assert (H3 : (256 < length (repeat 0 257))%nat) by (rewrite repeat_length; lia).
  split; [split; [exact H1|]; split; [exact H2|]|split; [exact H3|]].
  - exact (proj1 (paradox_rc4_hex_output (of_string "1234") test_key) H1 H2).
  - exact (proj2 (paradox_rc4_hex_output (of_string "1234") (repeat 0 257)) H3).
Defined.

Lemma paradox_rc4_prefix_witness :
  (length test_key <= 256)%nat /\
  exists o1 o2, paradox_rc4 (of_string "12") test_key = Some o1 /\
                paradox_rc4 (of_string "12" ++ of_string "34") test_key = Some (o1 ++ o2).
Proof.
  assert (H : (length test_key <= 256)%nat) by (vm_compute; lia).
  split; [exact H | exact (paradox_rc4_prefix (of_string "12") (of_string "34") test_key H)].
Defined.

Lemma prep_cred_domain_witness :
  (Forall (fun c => c mod 256 < 128) (of_string "test") /\
   Forall (fun c => 0 <= c < 128) (of_string "0123456789ABCDEF") /\
   (length (of_string "0123456789ABCDEF") <= 224)%nat /\
   prep_cred (of_string "1234") (of_string "test") (of_string "0123456789ABCDEF") <> None) /\
  exists c, prep_cred (of_string "1234") (of_string "test") (of_string "0123456789ABCDEF") = Some c /\
    Forall byte_range (of_string "1234") /\
    length (cred_p c) = 32%nat /\ forallb is_upper_hex (cred_p c) = true /\
    length (cred_u c) = (2 * length (of_string "1234"))%nat /\ forallb is_upper_hex (cred_u c) = true.
Proof.
  pose proof (prep_cred_domain (of_string "1234") (of_string "test") (of_string "0123456789ABCDEF"))
    as [Hiff Hout].
  assert (H1 : Forall (fun c => c mod 256 < 128) (of_string "test"))
    by (simpl; repeat constructor; vm_compute; reflexivity).
  assert (H2 : Forall (fun c => 0 <= c < 128) (of_string "0123456789ABCDEF"))
    by (simpl; repeat constructor; lia).
  assert (H3 : (length (of_string "0123456789ABCDEF") <= 224)%nat) by (simpl; lia).
  assert (H4 : Forall byte_range (of_string "1234"))
    by (simpl; repeat constructor; unfold byte_range; lia).
  split; [split; [exact H1|]; split; [exact H2|]; split; [exact H3|]; exact (proj2 Hiff (conj H1 (conj H2 H3)))|].
  destruct (prep_cred (of_string "1234") (of_string "test") (of_string "0123456789ABCDEF")) as [c|] eqn:Hc;
    [|exfalso; exact (proj2 Hiff (conj H1 (conj H2 H3)) eq_refl)].
  exists c; split; [reflexivity|]; split; [exact H4|].
  destruct (Hout c eq_refl) as [Hp [Hph Hu]].
  destruct (Hu H4) as [Hul Huh].
  split; [exact Hp|]; split; [exact Hph|]; split; [exact Hul | exact Huh].
Defined.

Lemma login_success_witness :
  exists c,
  logged_in (new_session test_url) = false /\
  server (page_env login_page_text 200 example_doc)
         (ip150url (new_session test_url) ++ of_string "/login_page.html") []
    = Response login_page_text 200 /\
  py_find login_page_text (of_string "loginaff") = 0 /\ 0 <> -1 /\
  prep_cred (of_string "1234") (of_string "test") (py_slice login_page_text (0 + 10) (0 + 26))
    = Some c /\
  server (page_env login_page_text 200 example_doc)
         (ip150url (new_session test_url) ++ of_string "/default.html")
         [(of_string "p", cred_p c); (of_string "u", cred_u c)] = Response login_page_text 200 /\
  py_count login_page_text (of_string "top.location.href='login_page.html';") = 0 /\
  login (page_env login_page_text 200 example_doc) (of_string "1234") (of_string "test") 5
        (new_session test_url) =
  (Ret tt,
   {| ip150url := ip150url (new_session test_url); logged_in := true;
      keepalive_h := if Qeq_bool 5 0 then keepalive_h (new_session test_url)
                     else Some {| ka_url := ip150url (new_session test_url); ka_interval := 5 |};
      updates := updates (new_session test_url);
      stop_updates := stop_updates (new_session test_url) |},
   [HttpGet (ip150url (new_session test_url) ++ of_string "/login_page.html") [];
    HttpGet (ip150url (new_session test_url) ++ of_string "/default.html")
            [(of_string "p", cred_p c); (of_string "u", cred_u c)];
    Sleep 3] ++ (if Qeq_bool 5 0 then [] else [KeepaliveStart])).
Proof.
  destruct (prep_cred (of_string "1234") (of_string "test") (py_slice login_page_text (0 + 10) (0 + 26)))
    as [c|] eqn:Hc; [|vm_compute in Hc; discriminate Hc].
  assert (H1 : logged_in (new_session test_url) = false) by reflexivity.
  assert (H2 : server (page_env login_page_text 200 example_doc)
                 (ip150url (new_session test_url) ++ of_string "/login_page.html") []
               = Response login_page_text 200) by reflexivity.
  assert (H3 : py_find login_page_text (of_string "loginaff") = 0) by (vm_compute; reflexivity).
  assert (H4 : 0 <> -1) by lia.
  assert (H5 : server (page_env login_page_text 200 example_doc)
                 (ip150url (new_session test_url) ++ of_string "/default.html")
                 [(of_string "p", cred_p c); (of_string "u", cred_u c)]
               = Response login_page_text 200) by reflexivity.
  assert (H6 : py_count login_page_text (of_string "top.location.href='login_page.html';") = 0)
    by (vm_compute; reflexivity).
  exists c.
  split; [exact H1|]; split; [exact H2|]; split; [exact H3|]; split; [exact H4|];
    split; [reflexivity|]; split; [exact H5|]; split; [exact H6|].
  exact (login_success (page_env login_page_text 200 example_doc) (new_session test_url)
           (of_string "1234") (of_string "test") 5 login_page_text 200 0 c login_page_text 200
           H1 H2 H3 H4 Hc H5 H6).
Defined.

Lemma login_failure_keeps_session_witness :
  (logged_in (new_session test_url) = false /\
   server (page_env (of_string "hello") 200 example_doc)
          (ip150url (new_session test_url) ++ of_string "/login_page.html") []
     = Response (of_string "hello") 200 /\
   py_find (of_string "hello") (of_string "loginaff") = -1 /\
   login (page_env (of_string "hello") 200 example_doc) (of_string "1234") (of_string "test") 5
         (new_session test_url) =
   (Raise (Paradox_IP150_Error
             (of_string "Wrong page fetched. Did you connect to the right server and port? Server returned: "
              ++ of_string "hello")),
    new_session test_url,
    [HttpGet (ip150url (new_session test_url) ++ of_string "/login_page.html") []])) /\
  (py_find login_page_text (of_string "loginaff") <> -1 /\
   prep_cred (of_string "1234") [233]
     (py_slice login_page_text (py_find login_page_text (of_string "loginaff") + 10)
                               (py_find login_page_text (of_string "loginaff") + 26)) = None /\
   login (page_env login_page_text 200 example_doc) (of_string "1234") [233] 5
         (new_session test_url) =
   (Raise (OtherError "UnicodeEncodeError"), new_session test_url,
    [HttpGet (ip150url (new_session test_url) ++ of_string "/login_page.html") []])).
Proof.
  assert (H1 : logged_in (new_session test_url) = false) by reflexivity.
  assert (H2 : server (page_env (of_string "hello") 200 example_doc)
                 (ip150url (new_session test_url) ++ of_string "/login_page.html") []
               = Response (of_string "hello") 200) by reflexivity.
  assert (H3 : py_find (of_string "hello") (of_string "loginaff") = -1) by (vm_compute; reflexivity).
  assert (H2' : server (page_env login_page_text 200 example_doc)
                  (ip150url (new_session test_url) ++ of_string "/login_page.html") []
                = Response login_page_text 200) by reflexivity.
  assert (H4 : py_find login_page_text (of_string "loginaff") <> -1) by (vm_compute; discriminate).
  assert (H5 : prep_cred (of_string "1234") [233]
                 (py_slice login_page_text (py_find login_page_text (of_string "loginaff") + 10)
                                           (py_find login_page_text (of_string "loginaff") + 26))
               = None) by (vm_compute; reflexivity).
  split.
  - split; [exact H1|]; split; [exact H2|]; split; [exact H3|].
    exact (proj1 (login_failure_keeps_session (page_env (of_string "hello") 200 example_doc)
                    (new_session test_url) (of_string "1234") (of_string "test") 5
                    (of_string "hello") 200 H1 H2) H3).
  - split; [exact H4|]; split; [exact H5|].
    exact (proj1 (proj2 (login_failure_keeps_session (page_env login_page_text 200 example_doc)
                           (new_session test_url) (of_string "1234") [233] 5
                           login_page_text 200 H1 H2')) H4 H5).
Defined.

Lemma logout_success_witness :
  logged_in busy_session = true /\
  server (const_env 200 example_doc) (ip150url busy_session ++ of_string "/logout.html") []
    = Response [] 200 /\
  logout (const_env 200 example_doc) busy_session =
  (Ret tt,
   {| ip150url := ip150url busy_session; logged_in := false; keepalive_h := None; updates := None;
      stop_updates := stop_updates busy_session || is_some (updates busy_session) |},
   (if is_some (keepalive_h busy_session) then [KeepaliveCancel; KeepaliveJoin] else [])
   ++ (if is_some (updates busy_session) then [StopUpdatesSet] else [])
   ++ [HttpGet (ip150url busy_session ++ of_string "/logout.html") []]).
Proof.
  assert (H1 : logged_in busy_session = true) by reflexivity.
  assert (H2 : server (const_env 200 example_doc) (ip150url busy_session ++ of_string "/logout.html") []
               = Response [] 200) by reflexivity.
  split; [exact H1|]; split; [exact H2|].
  exact (logout_success (const_env 200 example_doc) busy_session [] H1 H2).
Defined.

Lemma get_updates_argument_checks_witness :
  logged_in logged_session = true /\ Qle 0 0 /\
  get_updates false 0 logged_session
    = (Raise (Paradox_IP150_Error (of_string "The callable on_update must be provided.")),
       logged_session, []) /\
  get_updates true 0 logged_session
    = (Raise (Paradox_IP150_Error
                (of_string "The polling interval must be greater than 0.0 seconds.")),
       logged_session, []).
Proof.
  assert (H1 : logged_in logged_session = true) by reflexivity.
  assert (H2 : Qle 0 0) by (vm_compute; discriminate).
  split; [exact H1|]; split; [exact H2|].
  split; [exact (proj1 (get_updates_argument_checks logged_session 0 H1))|].
  exact (proj2 (get_updates_argument_checks logged_session 0 H1) H2).
Defined.

Lemma cancel_updates_twice_witness :
  (logged_in logged_session = true /\ updates logged_session = None /\
   cancel_updates logged_session
   = (Raise (Paradox_IP150_Error
               (of_string "Not currently getting updates. Use get_updates() first.")),
      logged_session, [])) /\
  (logged_in busy_session = true /\
   cancel_updates busy_session
   = (Ret tt, set_updates (set_stop busy_session true) None, [StopUpdatesSet]) /\
   [StopUpdatesSet] = [StopUpdatesSet] /\
   cancel_updates (set_updates (set_stop busy_session true) None)
   = (Raise (Paradox_IP150_Error
               (of_string "Not currently getting updates. Use get_updates() first.")),
      set_updates (set_stop busy_session true) None, [])).
Proof.
  assert (H1 : logged_in logged_session = true) by reflexivity.
  assert (H2 : updates logged_session = None) by reflexivity.
  assert (H3 : logged_in busy_session = true) by reflexivity.
  assert (H4 : cancel_updates busy_session
               = (Ret tt, set_updates (set_stop busy_session true) None, [StopUpdatesSet]))
    by reflexivity.
  split.
  - split; [exact H1|]; split; [exact H2|].
    exact (proj1 (cancel_updates_twice logged_session H1) H2).
  - split; [exact H3|]; split; [exact H4|].
    exact (proj2 (cancel_updates_twice busy_session H3) _ _ H4).
Defined.

Lemma poll_error_classes_witness :
  (logged_in logged_session = true /\
   server (failing_env TimeoutErr) (ip150url logged_session ++ of_string "/statuslive.html") []
     = TimeoutErr /\ 0 + 1 <= 5 /\
   updates_loop 5 [] 0 (poll_tick (failing_env TimeoutErr) logged_session :: [])
   = updates_loop 5 [] (0 + 1) []) /\
  (server (failing_env ConnectionErr) (ip150url logged_session ++ of_string "/statuslive.html") []
     = ConnectionErr /\
   updates_loop 5 [] 0 (poll_tick (failing_env ConnectionErr) logged_session :: [])
   = ([], LoopRaised (OtherError "ConnectionError"))) /\
  (server (page_env [] 200 {| has_statuslive_form := true; first_script := Some (of_string "x") |})
          (ip150url logged_session ++ of_string "/statuslive.html") [] = Response [] 200 /\
   has_statuslive_form (parse_html (page_env [] 200 {| has_statuslive_form := true;
                                                        first_script := Some (of_string "x") |}) [])
     = true /\
   first_script (parse_html (page_env [] 200 {| has_statuslive_form := true;
                                                first_script := Some (of_string "x") |}) [])
     = Some (of_string "x") /\
   decode_tables tables_map (of_string "x") [] = Raise (OtherError "AttributeError") /\
   (exists name, OtherError "AttributeError" = OtherError name) /\
   updates_loop 5 [] 0
     (poll_tick (page_env [] 200 {| has_statuslive_form := true;
                                    first_script := Some (of_string "x") |}) logged_session :: [])
   = ([], LoopRaised (OtherError "AttributeError"))).
Proof.
  assert (H0 : logged_in logged_session = true) by reflexivity.
  assert (H1 : server (failing_env TimeoutErr) (ip150url logged_session ++ of_string "/statuslive.html") []
               = TimeoutErr) by reflexivity.
  assert (H2 : 0 + 1 <= 5) by lia.
  assert (H3 : server (failing_env ConnectionErr)
                 (ip150url logged_session ++ of_string "/statuslive.html") [] = ConnectionErr)
    by reflexivity.
  assert (H4 : server (page_env [] 200 {| has_statuslive_form := true; first_script := Some (of_string "x") |})
                 (ip150url logged_session ++ of_string "/statuslive.html") [] = Response [] 200)
    by reflexivity.
  assert (H5 : has_statuslive_form (parse_html (page_env [] 200 {| has_statuslive_form := true;
                 first_script := Some (of_string "x") |}) []) = true) by reflexivity.
  assert (H6 : first_script (parse_html (page_env [] 200 {| has_statuslive_form := true;
                 first_script := Some (of_string "x") |}) []) = Some (of_string "x")) by reflexivity.
  assert (H7 : decode_tables tables_map (of_string "x") [] = Raise (OtherError "AttributeError"))
    by (vm_compute; reflexivity).
  split; [|split].
  - split; [exact H0|]; split; [exact H1|]; split; [exact H2|].
    exact (proj1 (poll_error_classes (failing_env TimeoutErr) logged_session [] 0 [] H0) H1 H2).
  - split; [exact H3|].
    exact (proj1 (proj2 (proj2 (poll_error_classes (failing_env ConnectionErr) logged_session [] 0 [] H0))) H3).
  - split; [exact H4|]; split; [exact H5|]; split; [exact H6|]; split; [exact H7|].
    exact (proj2 (proj2 (proj2 (poll_error_classes
             (page_env [] 200 {| has_statuslive_form := true; first_script := Some (of_string "x") |})
             logged_session [] 0 [] H0))) [] 200 (of_string "x") _ H4 H5 H6 H7).
Defined.

Lemma poller_stop_is_clean_witness :
  updates_loop 5 [] 0 [WaitTimedOut (Ret [(zones_key, test_zones)])]
    = ([CallOnUpdate [(zones_key, test_zones)]], LoopRunning [(zones_key, test_zones)] 0) /\
  get_updates_body true 5 ([WaitTimedOut (Ret [(zones_key, test_zones)])] ++ WaitStopped :: [])
                   logged_session
  = (Ret tt, set_stop logged_session false,
     [CallOnUpdate [(zones_key, test_zones)]] ++ [StopUpdatesClear]).
Proof.
  assert (H1 : updates_loop 5 [] 0 [WaitTimedOut (Ret [(zones_key, test_zones)])]
               = ([CallOnUpdate [(zones_key, test_zones)]], LoopRunning [(zones_key, test_zones)] 0))
    by (vm_compute; reflexivity).
  split; [exact H1|].
  exact (poller_stop_is_clean true logged_session _ _ _ _ [] H1).
Defined.

Lemma diff_reports_current_entries_witness :
  NoDup (map fst [(zones_key, set_nth test_zones 2 (3, of_string "Closed")); (areas_key, test_areas)]) /\
  forall k l,
  In (k, l) (diff [(zones_key, set_nth test_zones 2 (3, of_string "Closed")); (areas_key, test_areas)]
                  [(zones_key, test_zones); (areas_key, test_areas)]) ->
  exists cl, In (k, cl) [(zones_key, set_nth test_zones 2 (3, of_string "Closed")); (areas_key, test_areas)]
             /\ incl l cl.
Proof.
  assert (H : NoDup (map fst [(zones_key, set_nth test_zones 2 (3, of_string "Closed"));
                              (areas_key, test_areas)])).
  { simpl; constructor; [simpl; intros [H|H]; [vm_compute in H; discriminate H | exact H]|].
    constructor; [intros []| constructor]. }
  split; [exact H|].
  exact (diff_reports_current_entries _ [(zones_key, test_zones); (areas_key, test_areas)] H).
Defined.

Lemma area_parameter_decimal_witness :
  set_area_action (const_env 200 example_doc) (AreaStr (py_str_int 7)) (of_string "Arm") logged_session
  = set_area_action (const_env 200 example_doc) (AreaInt 7) (of_string "Arm") logged_session /\
  (0 <= 7 /\ py_int (fmt_02d 7) = Some 7) /\
  (0 <= 7 < 100 /\ fmt_02d 7 = [48 + 7 / 10; 48 + 7 mod 10]).
Proof.
  pose proof (area_parameter_decimal (const_env 200 example_doc) (of_string "Arm") logged_session 7)
    as [Ha [Hb Hc]].
  assert (H1 : 0 <= 7) by lia.
  assert (H2 : 0 <= 7 < 100) by lia.
  split; [exact Ha|]; split; [split; [exact H1 | exact (Hb H1)] | split; [exact H2 | exact (Hc H2)]].
Defined.

Lemma js2array_decl_roundtrip_witness :
  forallb regex_literal (of_string "tbl_statuszone") = true /\
  Forall (fun v => - 10 ^ 4300 < v < 10 ^ 4300) [0; -7; 12] /\
  js2array (of_string "tbl_statuszone")
    (js_array_decl (of_string "tbl_statuszone") [0; -7; 12] ++ of_string " var x;")
  = Ret [JInt 0; JInt (-7); JInt 12].
Proof.
  assert (Hb : Forall (fun v => - 10 ^ 4300 < v < 10 ^ 4300) [0; -7; 12])
    by (repeat constructor; apply Z.ltb_lt; vm_compute; reflexivity).
  split; [vm_compute; reflexivity|]; split; [exact Hb|].
  apply js2array_decl_roundtrip; [vm_compute; reflexivity | exact Hb].
Defined.

Lemma read_only_never_acts_witness :
  cfg_get (acfg (test_adapter true)) "READ_ONLY" = Some (CBool true) /\
  cfg_truthy (CBool true) = true /\
  let '(r, s', effs) := on_mqtt_alarm_message test_mqtt_env (const_env 200 example_doc)
                          (test_adapter true) (of_string "paradox/alarm/cmnd/1")
                          (of_string "ARM_AWAY") logged_session in
  s' = logged_session /\ effs = [] /\
  (r = MRet tt \/ r = MRaise (MqttOther "UnicodeDecodeError")).
Proof.
  assert (H1 : cfg_get (acfg (test_adapter true)) "READ_ONLY" = Some (CBool true)) by reflexivity.
  assert (H2 : cfg_truthy (CBool true) = true) by reflexivity.
  split; [exact H1|]; split; [exact H2|].
  exact (read_only_never_acts test_mqtt_env (const_env 200 example_doc) (test_adapter true)
           (of_string "paradox/alarm/cmnd/1") (of_string "ARM_AWAY") logged_session (CBool true) H1 H2).
Defined.

Lemma alarm_message_dispatch_witness :
  (logged_in logged_session = true /\
   rpartition_tail (of_string "paradox/alarm/cmnd/1") = py_str_int 1 /\
   isdigit test_mqtt_env (py_str_int 1) = true /\
   decode test_mqtt_env (of_string "ARM_AWAY") = Some (of_string "ARM_AWAY") /\
   sdict_get alarm_action_map (of_string "ARM_AWAY") = Some "Arm"%string /\
   cfg_get (acfg (test_adapter false)) "READ_ONLY" = Some (CBool false) /\
   cfg_truthy (CBool false) = false /\ 1 <= 1 /\
   exists code, str_lookup areas_action_map (of_string "Arm") = Some code /\
   let url := ip150url logged_session ++ of_string "/statuslive.html" in
   let params := [(of_string "area", fmt_02d (1 - 1)); (of_string "value", of_string code)] in
   let '(r, s', effs) := on_mqtt_alarm_message test_mqtt_env (const_env 200 example_doc)
                           (test_adapter false) (of_string "paradox/alarm/cmnd/1")
                           (of_string "ARM_AWAY") logged_session in
   s' = logged_session /\ effs = [Ip (HttpGet url params)] /\
   (r = MRet tt <-> exists text, server (const_env 200 example_doc) url params = Response text 200)) /\
  (rpartition_tail (of_string "paradox/alarm/cmnd/0") = py_str_int 0 /\
   isdigit test_mqtt_env (py_str_int 0) = true /\
   on_mqtt_alarm_message test_mqtt_env (const_env 200 example_doc) (test_adapter false)
     (of_string "paradox/alarm/cmnd/0") (of_string "ARM_AWAY") logged_session
   = (MRaise (IpError (Paradox_IP150_Error (of_string "Invalid area provided."))), logged_session, [])).
Proof.
  assert (H1 : logged_in logged_session = true) by reflexivity.
  assert (H2 : rpartition_tail (of_string "paradox/alarm/cmnd/1") = py_str_int 1)
    by (vm_compute; reflexivity).
  assert (H3 : isdigit test_mqtt_env (py_str_int 1) = true) by (vm_compute; reflexivity).
  assert (H4 : decode test_mqtt_env (of_string "ARM_AWAY") = Some (of_string "ARM_AWAY"))
    by reflexivity.
  assert (H5 : sdict_get alarm_action_map (of_string "ARM_AWAY") = Some "Arm"%string)
    by (vm_compute; reflexivity).
  assert (H6 : cfg_get (acfg (test_adapter false)) "READ_ONLY" = Some (CBool false)) by reflexivity.
  assert (H7 : cfg_truthy (CBool false) = false) by reflexivity.
  assert (H8 : 1 <= 1) by lia.
  assert (H2' : rpartition_tail (of_string "paradox/alarm/cmnd/0") = py_str_int 0)
    by (vm_compute; reflexivity).
  assert (H3' : isdigit test_mqtt_env (py_str_int 0) = true) by (vm_compute; reflexivity).
  split.
  - split; [exact H1|]; split; [exact H2|]; split; [exact H3|]; split; [exact H4|];
      split; [exact H5|]; split; [exact H6|]; split; [exact H7|]; split; [exact H8|].
    exact (proj1 (alarm_message_dispatch test_mqtt_env (const_env 200 example_doc) (test_adapter false)
                    (of_string "paradox/alarm/cmnd/1") (of_string "ARM_AWAY") logged_session 1
                    (of_string "ARM_AWAY") "Arm" (CBool false) H1 H2 H3 H4 H5 H6 H7) H8).
  - split; [exact H2'|]; split; [exact H3'|].
    exact (proj2 (alarm_message_dispatch test_mqtt_env (const_env 200 example_doc) (test_adapter false)
                    (of_string "paradox/alarm/cmnd/0") (of_string "ARM_AWAY") logged_session 0
                    (of_string "ARM_AWAY") "Arm" (CBool false) H1 H2' H3' H4 H5 H6 H7) eq_refl).
Defined.

Lemma ctrl_disconnect_sequence_witness :
  ((logged_in logged_session = false \/ updates logged_session = None) /\
   exists e, mqtt_ctrl_disconnect (const_env 200 example_doc) (test_adapter false) logged_session
             = (MRaise (IpError e), logged_session, [])) /\
  (logged_in busy_session = true /\ updates busy_session <> None /\
   awill_topic (test_adapter false) = CStr (of_string "paradox/ctrl/state") /\
   server (const_env 200 example_doc) (ip150url busy_session ++ of_string "/logout.html") []
     = Response [] 200 /\
   mqtt_ctrl_disconnect (const_env 200 example_doc) (test_adapter false) busy_session
   = (MRet tt,
      {| ip150url := ip150url busy_session; logged_in := false; keepalive_h := None;
         updates := None; stop_updates := true |},
      [Ip StopUpdatesSet; Publish (of_string "paradox/ctrl/state") (of_string "Disconnected") 1 true;
       Disconnect]
      ++ map Ip ((match keepalive_h busy_session with
                  | Some _ => [KeepaliveCancel; KeepaliveJoin]
                  | None => []
                  end) ++ [HttpGet (ip150url busy_session ++ of_string "/logout.html") []]))).
Proof.
  assert (H0 : logged_in logged_session = false \/ updates logged_session = None) by (right; reflexivity).
  assert (H1 : logged_in busy_session = true) by reflexivity.
  assert (H2 : updates busy_session <> None) by discriminate.
  assert (H3 : awill_topic (test_adapter false) = CStr (of_string "paradox/ctrl/state")) by reflexivity.
  assert (H4 : server (const_env 200 example_doc) (ip150url busy_session ++ of_string "/logout.html") []
               = Response [] 200) by reflexivity.
  split.
  - split; [exact H0|].
    exact (proj1 (ctrl_disconnect_sequence (const_env 200 example_doc) (test_adapter false)
                    logged_session) H0).
  - split; [exact H1|]; split; [exact H2|]; split; [exact H3|]; split; [exact H4|].
    exact (proj2 (ctrl_disconnect_sequence (const_env 200 example_doc) (test_adapter false)
                    busy_session) _ [] H1 H2 H3 H4).
Defined.

Lemma mqtt_connect_sequence_witness :
  (5 <> 0 /\
   on_mqtt_connect (test_adapter false) 5 logged_session
   = (MRaise (IP150_MQTT_Error
                (of_string "Error while connecting to the MQTT broker. Reason code: "
                 ++ py_str_int 5)), logged_session, [])) /\
  (logged_in logged_session = true /\
   cfg_get (acfg (test_adapter false)) "ALARM_SUBSCRIBE_TOPIC"
     = Some (CStr (of_string "paradox/alarm/cmnd")) /\
   cfg_get (acfg (test_adapter false)) "CTRL_SUBSCRIBE_TOPIC"
     = Some (CStr (of_string "paradox/ctrl/cmnd")) /\
   cfg_get (acfg (test_adapter false)) "CTRL_PUBLISH_TOPIC"
     = Some (CStr (of_string "paradox/ctrl/state")) /\
   subscribe_filter_ok (cfg_format (CStr (of_string "paradox/alarm/cmnd")) ++ of_string "/+")
     = true /\
   subscribe_filter_ok (of_string "paradox/ctrl/cmnd") = true /\
   publish_topic_ok (of_string "paradox/ctrl/state") = true /\
   let subs := [Subscribe [(cfg_format (CStr (of_string "paradox/alarm/cmnd")) ++ of_string "/+", 1);
                           (of_string "paradox/ctrl/cmnd", 1)];
                Publish (of_string "paradox/ctrl/state") (of_string "Connected") 1 true] in
   on_mqtt_connect (test_adapter false) 0 logged_session
   = match updates logged_session with
     | None => (MRet tt, set_updates logged_session (Some (UpdatesThread 1%Q)), subs ++ [Ip ThreadStart])
     | Some _ =>
         (MRaise (IpError (Paradox_IP150_Error (of_string "Already getting updates."))),
          logged_session, subs)
     end) /\
  (cfg_get (acfg (test_adapter_set "CTRL_SUBSCRIBE_TOPIC" (CStr []))) "ALARM_SUBSCRIBE_TOPIC"
     = Some (CStr (of_string "paradox/alarm/cmnd")) /\
   cfg_get (acfg (test_adapter_set "CTRL_SUBSCRIBE_TOPIC" (CStr []))) "CTRL_SUBSCRIBE_TOPIC"
     = Some (CStr []) /\
   existsb is_surrogate (cfg_format (CStr (of_string "paradox/alarm/cmnd"))) = false /\
   on_mqtt_connect (test_adapter_set "CTRL_SUBSCRIBE_TOPIC" (CStr [])) 0 logged_session
   = (MRaise (MqttOther "ValueError"), logged_session, [])).
Proof.
  assert (H0 : 5 <> 0) by lia.
  assert (H1 : logged_in logged_session = true) by reflexivity.
  assert (H2 : cfg_get (acfg (test_adapter false)) "ALARM_SUBSCRIBE_TOPIC"
               = Some (CStr (of_string "paradox/alarm/cmnd"))) by reflexivity.
  assert (H3 : cfg_get (acfg (test_adapter false)) "CTRL_SUBSCRIBE_TOPIC"
               = Some (CStr (of_string "paradox/ctrl/cmnd"))) by reflexivity.
  assert (H4 : cfg_get (acfg (test_adapter false)) "CTRL_PUBLISH_TOPIC"
               = Some (CStr (of_string "paradox/ctrl/state"))) by reflexivity.
  assert (H5 : subscribe_filter_ok (cfg_format (CStr (of_string "paradox/alarm/cmnd"))
                                    ++ of_string "/+") = true) by (vm_compute; reflexivity).
  assert (H6 : subscribe_filter_ok (of_string "paradox/ctrl/cmnd") = true)
    by (vm_compute; reflexivity).
  assert (H7 : publish_topic_ok (of_string "paradox/ctrl/state") = true)
    by (vm_compute; reflexivity).
  assert (H8 : cfg_get (acfg (test_adapter_set "CTRL_SUBSCRIBE_TOPIC" (CStr [])))
                 "ALARM_SUBSCRIBE_TOPIC" = Some (CStr (of_string "paradox/alarm/cmnd")))
    by reflexivity.
  assert (H9 : cfg_get (acfg (test_adapter_set "CTRL_SUBSCRIBE_TOPIC" (CStr [])))
                 "CTRL_SUBSCRIBE_TOPIC" = Some (CStr [])) by reflexivity.
  assert (H10 : existsb is_surrogate (cfg_format (CStr (of_string "paradox/alarm/cmnd"))) = false)
    by (vm_compute; reflexivity).
  pose proof (mqtt_connect_sequence (test_adapter false) logged_session 5
                (CStr (of_string "paradox/alarm/cmnd")) (of_string "paradox/ctrl/cmnd")
                (of_string "paradox/ctrl/state")) as [Ha [Hb _]].
  pose proof (mqtt_connect_sequence (test_adapter_set "CTRL_SUBSCRIBE_TOPIC" (CStr []))
                logged_session 5 (CStr (of_string "paradox/alarm/cmnd")) []
                (of_string "paradox/ctrl/state")) as [_ [_ Hc]].
  split; [|split].
  - split; [exact H0 | exact (Ha H0)].
  - split; [exact H1|]; split; [exact H2|]; split; [exact H3|]; split; [exact H4|].
    split; [exact H5|]; split; [exact H6|]; split; [exact H7|].
    exact (Hb H1 H2 H3 H4 H5 H6 H7).
  - split; [exact H8|]; split; [exact H9|]; split; [exact H10|].
    exact (Hc H8 H9 H10).
Defined.

Lemma new_state_publishing_witness :
  NoDup (map fst [(zones_key, test_zones); (areas_key, test_areas)]) /\
  cfg_get (acfg (test_adapter false)) "ALARM_PUBLISH_TOPIC"
    = Some (CStr (of_string "paradox/alarm/state")) /\
  cfg_get (acfg (test_adapter false)) "ZONE_PUBLISH_TOPIC"
    = Some (CStr (of_string "paradox/zone/state")) /\
  (forall d1 entries i v,
   In (d1, entries) [(zones_key, test_zones); (areas_key, test_areas)] -> In (i, v) entries ->
   publish_topic_ok (cfg_format (CStr (of_string "paradox/alarm/state")) ++ of_string "/"
                     ++ py_str_int i) = true /\
   publish_topic_ok (cfg_format (CStr (of_string "paradox/zone/state")) ++ of_string "/"
                     ++ py_str_int i) = true) /\
  (let '(r, s', effs) := on_paradox_new_state (test_adapter false)
                           [(zones_key, test_zones); (areas_key, test_areas)] logged_session in
   r = MRet tt /\ s' = logged_session /\
   exists payload, In (Publish (cfg_format (CStr (of_string "paradox/zone/state"))
                               ++ of_string "/" ++ py_str_int 3) payload 1 true) effs) /\
  cfg_get (acfg (test_adapter_set "ZONE_PUBLISH_TOPIC" (CStr (of_string "paradox/+/state"))))
    "ALARM_PUBLISH_TOPIC" = Some (CStr (of_string "paradox/alarm/state")) /\
  cfg_get (acfg (test_adapter_set "ZONE_PUBLISH_TOPIC" (CStr (of_string "paradox/+/state"))))
    "ZONE_PUBLISH_TOPIC" = Some (CStr (of_string "paradox/+/state")) /\
  existsb wildcard (cfg_format (CStr (of_string "paradox/+/state"))) = true /\
  In (of_string "zones_status", test_zones) [(zones_key, test_zones); (areas_key, test_areas)] /\
  In (3, of_string "Open") test_zones /\ In "Open"%string (map snd zones_map) /\
  (let '(r, s', _) := on_paradox_new_state
                        (test_adapter_set "ZONE_PUBLISH_TOPIC" (CStr (of_string "paradox/+/state")))
                        [(zones_key, test_zones); (areas_key, test_areas)] logged_session in
   s' = logged_session /\ exists e, r = MRaise e).
Proof.
  assert (H : NoDup (map fst [(zones_key, test_zones); (areas_key, test_areas)])).
  { simpl; constructor; [simpl; intros [H|H]; [vm_compute in H; discriminate H | exact H]|].
    constructor; [intros []| constructor]. }
  assert (H1 : cfg_get (acfg (test_adapter false)) "ALARM_PUBLISH_TOPIC"
               = Some (CStr (of_string "paradox/alarm/state"))) by reflexivity.
  assert (H2 : cfg_get (acfg (test_adapter false)) "ZONE_PUBLISH_TOPIC"
               = Some (CStr (of_string "paradox/zone/state"))) by reflexivity.
  assert (H3 : forall d1 entries i v,
     In (d1, entries) [(zones_key, test_zones); (areas_key, test_areas)] -> In (i, v) entries ->
     publish_topic_ok (cfg_format (CStr (of_string "paradox/alarm/state")) ++ of_string "/"
                       ++ py_str_int i) = true /\
     publish_topic_ok (cfg_format (CStr (of_string "paradox/zone/state")) ++ of_string "/"
                       ++ py_str_int i) = true).
  { intros d1 entries i v Hin Hi.
    destruct Hin as [E|[E|[]]]; injection E as <- <-;
      repeat (destruct Hi as [E|Hi]; [injection E as <- <-; split; vm_compute; reflexivity|]);
      destruct Hi. }
  assert (H4 : cfg_get (acfg (test_adapter_set "ZONE_PUBLISH_TOPIC"
                                 (CStr (of_string "paradox/+/state")))) "ALARM_PUBLISH_TOPIC"
               = Some (CStr (of_string "paradox/alarm/state"))) by reflexivity.
  assert (H5 : cfg_get (acfg (test_adapter_set "ZONE_PUBLISH_TOPIC"
                                 (CStr (of_string "paradox/+/state")))) "ZONE_PUBLISH_TOPIC"
               = Some (CStr (of_string "paradox/+/state"))) by reflexivity.
  assert (H6 : existsb wildcard (cfg_format (CStr (of_string "paradox/+/state"))) = true)
    by (vm_compute; reflexivity).
  assert (H7 : In (of_string "zones_status", test_zones)
                  [(zones_key, test_zones); (areas_key, test_areas)]) by (left; reflexivity).
  assert (H8 : In (3, of_string "Open") test_zones) by (right; right; left; reflexivity).
  assert (H9 : In "Open"%string (map snd zones_map)) by (simpl; tauto).
  split; [exact H|]; split; [exact H1|]; split; [exact H2|]; split; [exact H3|].
  split.
  - pose proof (new_state_publishing (test_adapter false) _ logged_session _ _ H H1 H2) as Hn.
    destruct (on_paradox_new_state _ _ _) as [[r s'] effs].
    destruct Hn as [Hs [Hok _]]; destruct (Hok H3) as [Hr [_ [Hz _]]].
    split; [exact Hr|]; split; [exact Hs|].
    exact (Hz _ _ _ H7 H8 H9).
  - split; [exact H4|]; split; [exact H5|]; split; [exact H6|]; split; [exact H7|].
    split; [exact H8|]; split; [exact H9|].
    pose proof (new_state_publishing
                  (test_adapter_set "ZONE_PUBLISH_TOPIC" (CStr (of_string "paradox/+/state")))
                  _ logged_session _ _ H H4 H5) as Hn.
    destruct (on_paradox_new_state _ _ _) as [[r s'] effs].
    destruct Hn as [Hs [_ Hw]].
    split; [exact Hs | exact (Hw H6 _ _ _ H7 H8 H9)].
Defined.
